(** * CancerGrowthDynamics: a shallow embedding of the processing scripts

    The repository is a set of independent Python scripts that split,
    normalise and aggregate CSV measurements.  Each script is embedded in a
    module of its own, named after the source file.

    Conventions of the embedding.
    - A Python [str] is a Rocq [string] holding its UTF-8 bytes; the character
      classes of the regular expressions ([\d], [[A-Z]], IGNORECASE) are read
      on ASCII characters.
    - A Python [float] is a primitive binary64 [float]; [nan] is Python's NaN.
    - A Python [int] is a [Z].
    - A raised exception is the [None] of an [option] result.
    - Library functions whose result depends on the Python version
      ([statistics.mean], [statistics.stdev], [float(str)], the [:.6f]
      formatting) are Section variables. *)

From Stdlib Require Import Bool List ZArith Lia Ascii String.
From Stdlib Require Import Floats Uint63 Permutation Sorted DecimalString.
Import ListNotations.

Set Warnings "-inexact-float".

Open Scope string_scope.
Open Scope list_scope.

Infix "+++" := String.append (right associativity, at level 60).

(** ** Python string primitives *)

Module Py.

Definition chr (n : nat) : ascii := ascii_of_nat n.
Definition ord (c : ascii) : nat := nat_of_ascii c.

Definition is_digit (c : ascii) : bool := (48 <=? ord c)%nat && (ord c <=? 57)%nat.
Definition is_upper (c : ascii) : bool := (65 <=? ord c)%nat && (ord c <=? 90)%nat.
Definition is_lower (c : ascii) : bool := (97 <=? ord c)%nat && (ord c <=? 122)%nat.

Definition to_upper (c : ascii) : ascii := if is_lower c then chr (ord c - 32) else c.
Definition to_lower (c : ascii) : ascii := if is_upper c then chr (ord c + 32) else c.

(** [str.upper()] *)
Fixpoint upper (s : string) : string :=
  match s with
  | EmptyString => EmptyString
  | String c s' => String (to_upper c) (upper s')
  end.


Definition digit_val (c : ascii) : Z := Z.of_nat (ord c - 48).

Fixpoint int_acc (acc : Z) (s : string) : Z :=
  match s with
  | EmptyString => acc
  | String c s' => int_acc (10 * acc + digit_val c) s'
  end.

(** [int(s)] on a string of decimal digits, as the regular expressions
    capture them. *)
Definition int (s : string) : Z := int_acc 0 s.

(** [s.startswith(p)] *)
Fixpoint startswith (p s : string) : bool :=
  match p, s with
  | EmptyString, _ => true
  | String a p', String b s' => Ascii.eqb a b && startswith p' s'
  | String _ _, EmptyString => false
  end.

(** [s.endswith(p)] *)
Fixpoint endswith (p s : string) : bool :=
  if (String.length s <? String.length p)%nat then false
  else if (String.length s =? String.length p)%nat then String.eqb s p
  else match s with
       | EmptyString => false
       | String _ s' => endswith p s'
       end.

(** [s.split(sep)] for a one-character separator. *)
Fixpoint split_acc (sep : ascii) (cur : string) (s : string) : list string :=
  match s with
  | EmptyString => [cur]
  | String c s' =>
      if Ascii.eqb c sep then cur :: split_acc sep EmptyString s'
      else split_acc sep (cur +++ String c EmptyString) s'
  end.

Definition split (sep : ascii) (s : string) : list string :=
  split_acc sep EmptyString s.

Fixpoint drop (n : nat) (s : string) : string :=
  match n, s with
  | O, _ => s
  | S n', String _ s' => drop n' s'
  | S _, EmptyString => EmptyString
  end.

(** [s.replace(old, '')] for a non-empty [old]: every non-overlapping
    occurrence, scanning from the left, is removed. *)
Fixpoint remove_all_fuel (fuel : nat) (old s : string) : string :=
  match fuel with
  | O => s
  | S fuel' =>
      match s with
      | EmptyString => EmptyString
      | String c s' =>
          if startswith old s
          then remove_all_fuel fuel' old (drop (String.length old) s)
          else String c (remove_all_fuel fuel' old s')
      end
  end.

Definition remove_all (old s : string) : string :=
  remove_all_fuel (String.length s) old s.

(** The truth value of an optional string in [x or y]: [None] and the empty
    string are false. *)
Definition or_else (x : option string) (y : option string) : option string :=
  match x with
  | Some EmptyString | None => y
  | Some _ => x
  end.

Definition or_empty (x : option string) : string :=
  match x with
  | Some s => s
  | None => EmptyString
  end.

(** [math.sqrt(n)] and [float(n)] for a count [n]. *)
Definition float_of_nat (n : nat) : float :=
  PrimFloat.of_uint63 (Uint63.of_Z (Z.of_nat n)).

Definition float_of_Z (z : Z) : float :=
  if (z <? 0)%Z then PrimFloat.opp (PrimFloat.of_uint63 (Uint63.of_Z (- z)))
  else PrimFloat.of_uint63 (Uint63.of_Z z).

(** [str(n)] for an [int]. *)
Definition str_of_Z (z : Z) : string := NilZero.string_of_int (Z.to_int z).

Definition is_space (c : ascii) : bool :=
  ((9 <=? ord c)%nat && (ord c <=? 13)%nat)
  || ((28 <=? ord c)%nat && (ord c <=? 32)%nat).

Fixpoint lstrip (s : string) : string :=
  match s with
  | String c s' => if is_space c then lstrip s' else s
  | EmptyString => EmptyString
  end.

Fixpoint rstrip (s : string) : string :=
  match s with
  | EmptyString => EmptyString
  | String c s' =>
      match rstrip s' with
      | EmptyString => if is_space c then EmptyString else String c EmptyString
      | r => String c r
      end
  end.

(** [s.strip()] *)
Definition strip (s : string) : string := rstrip (lstrip s).

(** [list.sort(key=...)] and [sorted]: a stable sort; [leb] compares the
    keys.  Every stable sort orders a list the same way, so the insertion
    sort stands for Python's. *)
Section Sort.
Context {A : Type}.
Variable leb : A -> A -> bool.

Fixpoint insert (x : A) (l : list A) : list A :=
  match l with
  | [] => [x]
  | y :: l' => if leb x y then x :: l else y :: insert x l'
  end.

Definition sort (l : list A) : list A := fold_right insert [] l.
End Sort.

(** A [dict] in insertion order, and [d.setdefault(k, []).append(v)]. *)
Section Dict.
Context {K V : Type}.
Variable eqb : K -> K -> bool.

Fixpoint setdefault_append (k : K) (v : V) (d : list (K * list V)) : list (K * list V) :=
  match d with
  | [] => [(k, [v])]
  | (k', vs) :: d' =>
      if eqb k k' then (k', vs ++ [v]) :: d'
      else (k', vs) :: setdefault_append k v d'
  end.

Fixpoint lookup (k : K) (d : list (K * V)) : option V :=
  match d with
  | [] => None
  | (k', v) :: d' => if eqb k k' then Some v else lookup k d'
  end.
End Dict.

(** [s.lower()] *)
Fixpoint lower (s : string) : string :=
  match s with
  | EmptyString => EmptyString
  | String c s' => String (to_lower c) (lower s')
  end.

(** [s.replace(old, new)] for a non-empty [old]: every non-overlapping
    occurrence, scanning from the left, is replaced. *)
Fixpoint replace_fuel (fuel : nat) (old new s : string) : string :=
  match fuel with
  | O => s
  | S fuel' =>
      match s with
      | EmptyString => EmptyString
      | String c s' =>
          if startswith old s
          then new +++ replace_fuel fuel' old new (drop (String.length old) s)
          else String c (replace_fuel fuel' old new s')
      end
  end.

Definition replace (old new s : string) : string :=
  replace_fuel (String.length s) old new s.

End Py.

(** ** Regular expressions ([re.search])

    The patterns of the scripts are sequences of literals, character classes,
    one greedy [\d+], capture groups and [$].  The matcher is the
    backtracking one of Python: the leftmost start position that matches,
    the longest repetition tried first. *)

Module Re.

Inductive item : Type :=
| Lit (c : ascii)              (* a literal character *)
| Cls (p : ascii -> bool)      (* a character class: [A-Z], [AB], [1-6] *)
| Plus (p : ascii -> bool)     (* a greedy repetition, one or more: \d+ *)
| GOpen                        (* ( *)
| GClose                       (* ) *)
| Eos.                         (* $ *)

Definition regex : Type := list item.

Fixpoint lits (s : string) : regex :=
  match s with
  | EmptyString => []
  | String c s' => Lit c :: lits s'
  end.

(** Comparison of a character with a literal, under re.IGNORECASE or not. *)
Definition ceq (ic : bool) (a c : ascii) : bool :=
  if ic then Ascii.eqb (Py.to_lower a) (Py.to_lower c) else Ascii.eqb a c.

(** Membership of a character in a class, under re.IGNORECASE or not. *)
Definition cin (ic : bool) (p : ascii -> bool) (a : ascii) : bool :=
  if ic then p (Py.to_lower a) || p (Py.to_upper a) else p a.

(** The text of the group being captured, when one is open. *)
Definition push (a : ascii) (cur : option string) : option string :=
  match cur with
  | Some g => Some (g +++ String a EmptyString)
  | None => None
  end.

Definition at_end (s : string) : bool :=
  match s with
  | EmptyString => true
  | String a EmptyString => Ascii.eqb a (Py.chr 10)
  | _ => false
  end.

Section Matcher.
Variable ic : bool.

(** Zero or more characters of the class, the longest run first; [k] is
    the rest of the pattern. *)
Fixpoint greedy (p : ascii -> bool)
    (k : string -> option string -> option (list string))
    (s : string) (cur : option string) : option (list string) :=
  match s with
  | String a s' =>
      if cin ic p a then
        match greedy p k s' (push a cur) with
        | Some r => Some r
        | None => k s cur
        end
      else k s cur
  | EmptyString => k s cur
  end.

(** The pattern matched at the start of [s]; the result is the list of
    the groups' texts. *)
Fixpoint match_here (re : regex) (s : string) (cur : option string)
    (done : list string) : option (list string) :=
  match re with
  | [] => Some done
  | Lit c :: re' =>
      match s with
      | String a s' =>
          if ceq ic a c then match_here re' s' (push a cur) done else None
      | EmptyString => None
      end
  | Cls p :: re' =>
      match s with
      | String a s' =>
          if cin ic p a then match_here re' s' (push a cur) done else None
      | EmptyString => None
      end
  | Plus p :: re' =>
      match s with
      | String a s' =>
          if cin ic p a
          then greedy p (fun s2 cur2 => match_here re' s2 cur2 done) s' (push a cur)
          else None
      | EmptyString => None
      end
  | GOpen :: re' => match_here re' s (Some EmptyString) done
  | GClose :: re' => match_here re' s None (done ++ [Py.or_empty cur])
  | Eos :: re' => if at_end s then match_here re' s cur done else None
  end.

(** [re.search]: the first start position, from the left, where the
    pattern matches. *)
Fixpoint search (re : regex) (s : string) : option (list string) :=
  match match_here re s None [] with
  | Some g => Some g
  | None =>
      match s with
      | EmptyString => None
      | String _ s' => search re s'
      end
  end.
End Matcher.

(** [m.group(i)] for [i >= 1]. *)
Definition group (i : nat) (m : list string) : string := nth (i - 1) m EmptyString.

End Re.

(** ** The [csv] module and the text encodings *)

Module Csv.

Definition dquote : ascii := Py.chr 34.
Definition cr : ascii := Py.chr 13.
Definition lf : ascii := Py.chr 10.
Definition comma : ascii := ","%char.

Definition crlf : string := String cr (String lf EmptyString).

Fixpoint mem_char (c : ascii) (s : string) : bool :=
  match s with
  | EmptyString => false
  | String a s' => Ascii.eqb c a || mem_char c s'
  end.

(** The characters that force a field into quotes (QUOTE_MINIMAL). *)
Definition special (lineterminator : string) (c : ascii) : bool :=
  Ascii.eqb c comma || Ascii.eqb c dquote || mem_char c lineterminator.

Fixpoint needs_quote (lineterminator : string) (f : string) : bool :=
  match f with
  | EmptyString => false
  | String c f' => special lineterminator c || needs_quote lineterminator f'
  end.

(** doublequote=True: a quote inside a field is written twice. *)
Fixpoint escape (f : string) : string :=
  match f with
  | EmptyString => EmptyString
  | String c f' =>
      if Ascii.eqb c dquote then String dquote (String dquote (escape f'))
      else String c (escape f')
  end.

Definition field (lineterminator : string) (f : string) : string :=
  if needs_quote lineterminator f
  then String dquote (escape f +++ String dquote EmptyString)
  else f.

Fixpoint join (sep : string) (l : list string) : string :=
  match l with
  | [] => EmptyString
  | [x] => x
  | x :: l' => x +++ sep +++ join sep l'
  end.

(** [writer.writerow(row)]: a row made of one empty field is written as a
    pair of quotes. *)
Definition writerow_with (lineterminator : string) (row : list string) : string :=
  match row with
  | [EmptyString] => String dquote (String dquote lineterminator)
  | _ => join (String comma EmptyString) (map (field lineterminator) row) +++ lineterminator
  end.

Fixpoint writerows_with (lineterminator : string) (rows : list (list string)) : string :=
  match rows with
  | [] => EmptyString
  | r :: rows' => writerow_with lineterminator r +++ writerows_with lineterminator rows'
  end.

(** [csv.writer(f)] with the default dialect. *)
Definition writerow : list string -> string := writerow_with crlf.
Definition writerows : list (list string) -> string := writerows_with crlf.

(** *** [csv.reader(f)] with the default dialect, on a file opened with
    [newline=''] *)

Inductive state : Type :=
| START_RECORD
| START_FIELD
| IN_FIELD
| IN_QUOTED_FIELD
| QUOTE_IN_QUOTED_FIELD
| EAT_CRNL.

(** The parser's registers: the state, the field being read, the fields of
    the record being read (last first) and the records read (last first). *)
Record parser : Type := mkParser {
  st : state;
  fld : string;
  flds : list string;
  recs : list (list string)
}.

Definition init : parser := mkParser START_RECORD EmptyString [] [].

Definition add_char (c : ascii) (p : parser) : parser :=
  mkParser (st p) (fld p +++ String c EmptyString) (flds p) (recs p).

Definition save_field (p : parser) : parser :=
  mkParser (st p) EmptyString (fld p :: flds p) (recs p).

Definition set_state (s : state) (p : parser) : parser :=
  mkParser s (fld p) (flds p) (recs p).

(** The record is complete: the reader yields it. *)
Definition yield (p : parser) : parser :=
  mkParser START_RECORD EmptyString [] (rev (flds p) :: recs p).

Definition is_newline (c : ascii) : bool := Ascii.eqb c lf || Ascii.eqb c cr.

(** [parse_process_char] on a character of the line. *)
Definition process_char (c : ascii) (p : parser) : parser :=
  match st p with
  | START_RECORD | START_FIELD =>
      if is_newline c then
        match st p with
        | START_RECORD => set_state EAT_CRNL p
        | _ => set_state EAT_CRNL (save_field p)
        end
      else if Ascii.eqb c dquote then set_state IN_QUOTED_FIELD p
      else if Ascii.eqb c comma then set_state START_FIELD (save_field p)
      else set_state IN_FIELD (add_char c p)
  | IN_FIELD =>
      if is_newline c then set_state EAT_CRNL (save_field p)
      else if Ascii.eqb c comma then set_state START_FIELD (save_field p)
      else add_char c p
  | IN_QUOTED_FIELD =>
      if Ascii.eqb c dquote then set_state QUOTE_IN_QUOTED_FIELD p
      else add_char c p
  | QUOTE_IN_QUOTED_FIELD =>
      if Ascii.eqb c dquote then set_state IN_QUOTED_FIELD (add_char c p)
      else if Ascii.eqb c comma then set_state START_FIELD (save_field p)
      else if is_newline c then set_state EAT_CRNL (save_field p)
      else set_state IN_FIELD (add_char c p)
  | EAT_CRNL => p
  end.

(** [parse_process_char] on the end of a line. *)
Definition process_eol (p : parser) : parser :=
  match st p with
  | START_RECORD => yield p
  | START_FIELD | IN_FIELD | QUOTE_IN_QUOTED_FIELD => yield (save_field p)
  | IN_QUOTED_FIELD => p
  | EAT_CRNL => yield p
  end.

(** The file is read line by line; a line ends after LF, after CR LF, or
    after a CR that no LF follows.  [pending] says that the current line
    holds characters. *)
Fixpoint feed (text : string) (pending : bool) (p : parser) : parser :=
  match text with
  | EmptyString =>
      let p' := if pending then process_eol p else p in
      match st p' with
      | IN_QUOTED_FIELD => yield (save_field p')
      | _ =>
          match fld p' with
          | EmptyString => p'
          | _ => yield (save_field p')
          end
      end
  | String c rest =>
      let p' := process_char c p in
      if Ascii.eqb c lf then feed rest false (process_eol p')
      else if Ascii.eqb c cr then
        match rest with
        | String c2 _ =>
            if Ascii.eqb c2 lf then feed rest true p'
            else feed rest false (process_eol p')
        | EmptyString => feed rest false (process_eol p')
        end
      else feed rest true p'
  end.

Definition reader (text : string) : list (list string) :=
  rev (recs (feed text false init)).

End Csv.

Module Codec.

Definition BOM : string :=
  String (Py.chr 239) (String (Py.chr 187) (String (Py.chr 191) EmptyString)).

(** [open(..., 'w', encoding='utf-8-sig')]: the byte-order mark, then the
    text. *)
Definition encode_utf8_sig (text : string) : string := BOM +++ text.

(** [df.to_csv(path)] and [open(..., 'w', encoding='utf-8')]: the text. *)
Definition encode_utf8 (text : string) : string := text.

Definition cont (c : ascii) : bool := (128 <=? Py.ord c)%nat && (Py.ord c <=? 191)%nat.

(** Strict UTF-8: no overlong form, no surrogate, nothing above U+10FFFF. *)
Fixpoint valid_utf8 (s : string) : bool :=
  match s with
  | EmptyString => true
  | String a r =>
      let n := Py.ord a in
      if (n <? 128)%nat then valid_utf8 r
      else if (194 <=? n)%nat && (n <=? 223)%nat then
        match r with
        | String b r' => cont b && valid_utf8 r'
        | _ => false
        end
      else if (224 <=? n)%nat && (n <=? 239)%nat then
        match r with
        | String b (String c r') =>
            cont b && cont c
            && (if (n =? 224)%nat then (160 <=? Py.ord b)%nat else true)
            && (if (n =? 237)%nat then (Py.ord b <=? 159)%nat else true)
            && valid_utf8 r'
        | _ => false
        end
      else if (240 <=? n)%nat && (n <=? 244)%nat then
        match r with
        | String b (String c (String d r')) =>
            cont b && cont c && cont d
            && (if (n =? 240)%nat then (144 <=? Py.ord b)%nat else true)
            && (if (n =? 244)%nat then (Py.ord b <=? 143)%nat else true)
            && valid_utf8 r'
        | _ => false
        end
      else false
  end.

(** [open(..., 'r', encoding='utf-8-sig').read()]: [None] is a
    UnicodeDecodeError; a leading byte-order mark is dropped. *)
Definition decode_utf8_sig (bytes : string) : option string :=
  if valid_utf8 bytes then
    Some (if Py.startswith BOM bytes then Py.drop 3 bytes else bytes)
  else None.

End Codec.

(** The files of a run: a path is mapped to the bytes stored under it. *)
Definition FS : Type := string -> option string.

Definition fs_write (fs : FS) (path bytes : string) : FS :=
  fun q => if String.eqb q path then Some bytes else fs q.

(** ** Paths ([pathlib])

    An absolute path is the list of its names below the root; the root is
    the empty list. *)

Module Path.

Definition t : Type := list string.

(** [p.parent]: the parent of the root is the root. *)
Definition parent (p : t) : t := removelast p.

(** [p / name] *)
Definition joinpath (p : t) (name : string) : t := p ++ [name].

(** [p.name]: the name of the root is empty. *)
Definition name (p : t) : string := last p EmptyString.

(** [p == q] *)
Fixpoint eqb (p q : t) : bool :=
  match p, q with
  | [], [] => true
  | a :: p', b :: q' => String.eqb a b && eqb p' q'
  | _, _ => false
  end.

(** The text before the last dot of a name, when it has a dot:
    [name[:name.rfind('.')]]. *)
Fixpoint before_last_dot (s : string) : option string :=
  match s with
  | EmptyString => None
  | String c s' =>
      match before_last_dot s' with
      | Some r => Some (String c r)
      | None => if Ascii.eqb c "." then Some EmptyString else None
      end
  end.

(** [p.stem]: the name without its last suffix; a dot at the start or at
    the end of the name starts no suffix (the rule of Python up to 3.12;
    later versions agree with it on a name that has a character other than
    a dot before its last dot and does not end in a dot). *)
Definition stem (p : t) : string :=
  match before_last_dot (name p) with
  | Some pre =>
      if (0 <? String.length pre)%nat
         && (String.length pre <? String.length (name p) - 1)%nat
      then pre
      else name p
  | None => name p
  end.

(** [p.with_name(n)], for a path that has a name. *)
Definition with_name (p : t) (n : string) : t := joinpath (parent p) n.

End Path.

(** ** pandas: data frames, group-by and the reductions the scripts use

    A data frame holds its column names and its rows.  A cell is a string
    (object dtype), an integer (int64), a float (float64) or a missing value
    ([None]; a float NaN is missing too).  The reductions follow pandas'
    documented meaning: missing values are skipped, the standard deviation
    has [ddof=1] and is NaN below two values, the standard error is the
    standard deviation over the square root of the count. *)

Module Pd.

Inductive cell : Type :=
| CStr (s : string)
| CInt (z : Z)
| CFloat (x : float)
| CNone.

Record DataFrame : Type := mkDF {
  columns : list string;
  rows : list (list cell)
}.

Fixpoint index_of (name : string) (cols : list string) : option nat :=
  match cols with
  | [] => None
  | c :: cols' =>
      if String.eqb name c then Some O
      else option_map S (index_of name cols')
  end.

(** [name in df.columns] *)
Definition has_column (df : DataFrame) (name : string) : bool :=
  existsb (String.eqb name) (columns df).

(** [df[name]]; [None] is a KeyError. *)
Definition col (df : DataFrame) (name : string) : option (list cell) :=
  match index_of name (columns df) with
  | Some i => Some (map (fun r => nth i r CNone) (rows df))
  | None => None
  end.

Fixpoint set_nth (i : nat) (v : cell) (r : list cell) : list cell :=
  match i, r with
  | O, _ :: r' => v :: r'
  | S i', x :: r' => x :: set_nth i' v r'
  | _, [] => []
  end.

(** [df[name] = values]: the column is replaced, or added on the right. *)
Definition set_col (df : DataFrame) (name : string) (values : list cell) : DataFrame :=
  match index_of name (columns df) with
  | Some i => mkDF (columns df) (map (fun rv => set_nth i (snd rv) (fst rv)) (combine (rows df) values))
  | None => mkDF (columns df ++ [name]) (map (fun rv => fst rv ++ [snd rv]) (combine (rows df) values))
  end.

Fixpoint remove_nth (i : nat) (r : list cell) : list cell :=
  match i, r with
  | O, _ :: r' => r'
  | S i', x :: r' => x :: remove_nth i' r'
  | _, [] => []
  end.

(** [df.drop(name, axis=1)]; [None] is a KeyError. *)
Definition drop (df : DataFrame) (name : string) : option DataFrame :=
  match index_of name (columns df) with
  | Some i =>
      Some (mkDF (filter (fun c => negb (String.eqb c name)) (columns df))
                 (map (remove_nth i) (rows df)))
  | None => None
  end.

(** [df.rename(columns={old: new})] *)
Definition rename (df : DataFrame) (old new : string) : DataFrame :=
  mkDF (map (fun c => if String.eqb c old then new else c) (columns df)) (rows df).

(** [series.apply(f)] for an [f] that takes a string: [None] is the
    TypeError or AttributeError raised on a cell that is not a string. *)
Fixpoint apply_str (f : string -> cell) (cells : list cell) : option (list cell) :=
  match cells with
  | [] => Some []
  | CStr s :: cells' => option_map (cons (f s)) (apply_str f cells')
  | _ :: _ => None
  end.

(** [series.isin(values)] *)
Definition isin (values : list string) (c : cell) : bool :=
  match c with
  | CStr s => existsb (String.eqb s) values
  | _ => false
  end.

(** [df[mask]] *)
Fixpoint select (rs : list (list cell)) (mask : list bool) : list (list cell) :=
  match rs, mask with
  | r :: rs', b :: mask' => if b then r :: select rs' mask' else select rs' mask'
  | _, _ => []
  end.

Definition missing (c : cell) : bool :=
  match c with
  | CNone => true
  | CFloat x => PrimFloat.is_nan x
  | _ => false
  end.

Definition cell_eqb (a b : cell) : bool :=
  match a, b with
  | CStr s, CStr t => String.eqb s t
  | CInt x, CInt y => Z.eqb x y
  | CFloat x, CFloat y => PrimFloat.eqb x y
  | CInt x, CFloat y => PrimFloat.eqb (Py.float_of_Z x) y
  | CFloat x, CInt y => PrimFloat.eqb x (Py.float_of_Z y)
  | CNone, CNone => true
  | _, _ => false
  end.

(** The order of the group keys: numbers by value, strings by code point. *)
Definition cell_leb (a b : cell) : bool :=
  match a, b with
  | CStr s, CStr t => String.leb s t
  | CInt x, CInt y => Z.leb x y
  | CFloat x, CFloat y => PrimFloat.leb x y
  | CInt x, CFloat y => PrimFloat.leb (Py.float_of_Z x) y
  | CFloat x, CInt y => PrimFloat.leb x (Py.float_of_Z y)
  | CNone, _ => true
  | _, CNone => false
  | CStr _, _ => false
  | _, CStr _ => true
  end.

Fixpoint key_eqb (a b : list cell) : bool :=
  match a, b with
  | [], [] => true
  | x :: a', y :: b' => cell_eqb x y && key_eqb a' b'
  | _, _ => false
  end.

Fixpoint key_leb (a b : list cell) : bool :=
  match a, b with
  | [], _ => true
  | _ :: _, [] => false
  | x :: a', y :: b' =>
      if cell_eqb x y then key_leb a' b' else cell_leb x y
  end.

(** The numbers of a value column: [Some None] for a missing value, [None]
    for a string (the reductions raise a TypeError). *)
Definition number (c : cell) : option (option float) :=
  match c with
  | CStr _ => None
  | CInt z => Some (Some (Py.float_of_Z z))
  | CFloat x => Some (if PrimFloat.is_nan x then None else Some x)
  | CNone => Some None
  end.

Fixpoint numbers (cells : list cell) : option (list (option float)) :=
  match cells with
  | [] => Some []
  | c :: cells' =>
      match number c, numbers cells' with
      | Some x, Some xs => Some (x :: xs)
      | _, _ => None
      end
  end.

(** The body of the grouping: a row whose key has a missing part belongs
    to no group ([dropna=True]); a missing value is left out of its group. *)
Definition add_to_group (groups : list (list cell * list float))
    (kv : list cell * option float) : list (list cell * list float) :=
  let '(key, v) := kv in
  if existsb missing key then groups
  else
    match v with
    | Some x => Py.setdefault_append key_eqb key x groups
    | None =>
        match Py.lookup key_eqb key groups with
        | Some _ => groups
        | None => groups ++ [(key, [])]
        end
    end.

(** [df.groupby(keys)[value]]: the groups, sorted by key, each with the
    values that are not missing, in the order of the rows. *)
Definition groupby (keys : list (list cell)) (values : list (option float))
  : list (list cell * list float) :=
  Py.sort (fun a b => key_leb (fst a) (fst b))
    (fold_left add_to_group (combine keys values) []).

Definition fsum (l : list float) : float := fold_left PrimFloat.add l 0%float.

Definition count (l : list float) : nat := List.length l.

Definition mean (l : list float) : float :=
  (fsum l / Py.float_of_nat (count l))%float.

Definition var (l : list float) : float :=
  if (count l <=? 1)%nat then nan
  else
    let mu := mean l in
    (fsum (map (fun x => (x - mu) * (x - mu)) l) / Py.float_of_nat (count l - 1))%float.

Definition std (l : list float) : float := PrimFloat.sqrt (var l).

Definition sem (l : list float) : float :=
  (std l / PrimFloat.sqrt (Py.float_of_nat (count l)))%float.






Section ToCsv.
(** [os.linesep] and [repr] of a float that is not NaN. *)
Variable linesep : string.
Variable float_repr : float -> string.

Definition format_cell (c : cell) : string :=
  match c with
  | CStr s => s
  | CInt z => Py.str_of_Z z
  | CFloat x => if PrimFloat.is_nan x then EmptyString else float_repr x
  | CNone => EmptyString
  end.

(** The text of [df.to_csv(path, index=False)]. *)
Definition to_csv_text (df : DataFrame) : string :=
  Csv.writerow_with linesep (columns df)
  +++ Csv.writerows_with linesep (map (map format_cell) (rows df)).

(** The bytes of the file written by [df.to_csv(path, index=False)]: the
    default encoding is utf-8. *)
Definition to_csv (df : DataFrame) : string := Codec.encode_utf8 (to_csv_text df).
End ToCsv.

End Pd.

(** ** split_untreated_monoculture.py *)

Module SplitUntreatedMonoculture.

Definition is_AB (c : ascii) : bool := Ascii.eqb c "A" || Ascii.eqb c "B".
Definition is_1_6 (c : ascii) : bool := (49 <=? Py.ord c)%nat && (Py.ord c <=? 54)%nat.

(** [WELL_RE = re.compile(r"_([AB])([1-6])\.tif$", re.IGNORECASE)] *)
Definition WELL_RE : Re.regex :=
  [Re.Lit "_"; Re.GOpen; Re.Cls is_AB; Re.GClose; Re.GOpen; Re.Cls is_1_6; Re.GClose]
  ++ Re.lits ".tif" ++ [Re.Eos].

Definition Seeding : Type := string.
Definition LineName : Type := string.
Definition Bucket : Type := (Seeding * LineName)%type.

Definition classify_image (image_name : string) : option Bucket :=
  match Re.search true WELL_RE image_name with
  | None => None
  | Some m =>
      let row := Py.upper (Re.group 1 m) in
      let col := Py.int (Re.group 2 m) in
      let seeding := if String.eqb row "A" then "20k" else "30k" in
      let line := if existsb (Z.eqb col) [1; 2; 3]%Z then "A2780Naive" else "A2780cis" in
      Some (seeding, line)
  end.

Definition bucket_eqb (a b : Bucket) : bool :=
  String.eqb (fst a) (fst b) && String.eqb (snd a) (snd b).

Definition outputs : list Bucket :=
  [("20k", "A2780Naive"); ("20k", "A2780cis"); ("30k", "A2780Naive"); ("30k", "A2780cis")].

Definition Row : Type := list string.

(** [buckets[cls].append(row)] *)
Fixpoint append_to (cls : Bucket) (row : Row) (buckets : list (Bucket * list Row))
  : list (Bucket * list Row) :=
  match buckets with
  | [] => []
  | (k, rows) :: buckets' =>
      if bucket_eqb cls k then (k, rows ++ [row]) :: buckets'
      else (k, rows) :: append_to cls row buckets'
  end.

Definition empty_buckets : list (Bucket * list Row) := map (fun k => (k, [])) outputs.

(** The body of [for row in reader]. *)
Definition add_row (expected_cols : nat) (buckets : list (Bucket * list Row)) (row : Row)
  : list (Bucket * list Row) :=
  match row with
  | [] => buckets
  | image_name :: _ =>
      if negb (List.length row =? expected_cols)%nat then buckets
      else match classify_image image_name with
           | None => buckets
           | Some cls => append_to cls row buckets
           end
  end.

(** The body of [for csv_path in sorted(dataset_dir.glob("*.csv"))], on the
    rows the reader yields for one file. *)
Definition add_file (acc : option Row * list (Bucket * list Row)) (file_rows : list Row)
  : option Row * list (Bucket * list Row) :=
  let '(header, buckets) := acc in
  match file_rows with
  | [] => acc
  | local_header :: data =>
      let header' := match header with None => local_header | Some h => h end in
      (Some header', fold_left (add_row (List.length header')) data buckets)
  end.

Definition collect (files : list (list Row)) : option Row * list (Bucket * list Row) :=
  fold_left add_file files (None, empty_buckets).

Definition image_leb (r1 r2 : Row) : bool :=
  String.leb (hd EmptyString r1) (hd EmptyString r2).

(** The data rows written to the file of a bucket: [rows.sort(key=lambda r: r[0])]. *)
Definition sorted_rows (buckets : list (Bucket * list Row)) (k : Bucket) : list Row :=
  Py.sort image_leb
    (match Py.lookup bucket_eqb k buckets with Some rows => rows | None => [] end).

Definition out_bytes (header : Row) (rows : list Row) : string :=
  Codec.encode_utf8_sig (Csv.writerow header +++ Csv.writerows rows).

Fixpoint decode_all (files : list string) : option (list (list Row)) :=
  match files with
  | [] => Some []
  | f :: files' =>
      match Codec.decode_utf8_sig f, decode_all files' with
      | Some text, Some rest => Some (Csv.reader text :: rest)
      | _, _ => None
      end
  end.

(** [split_csvs]: [files] holds the bytes of the CSV files of the dataset
    directory, in the order of their sorted paths.  [None] is a
    UnicodeDecodeError; [Some []] is the run that finds no CSV data and
    writes nothing; otherwise each bucket comes with the bytes of its file. *)
Definition split_csvs (files : list string) : option (list (Bucket * string)) :=
  match decode_all files with
  | None => None
  | Some parsed =>
      match collect parsed with
      | (None, _) => Some []
      | (Some header, buckets) =>
          Some (map (fun k => (k, out_bytes header (sorted_rows buckets k))) outputs)
      end
  end.

(** [find_project_root(start)]: the loop [for _ in range(5)], from
    [current]; [exists_] is [Path.exists].  [None] is the end of the loop
    without a [return]. *)
Fixpoint find_project_root_from (exists_ : Path.t -> bool) (n : nat) (current : Path.t)
  : option Path.t :=
  match n with
  | O => None
  | S n' =>
      if exists_ (Path.joinpath current "Datasets") then Some current
      else if Path.eqb (Path.parent current) current then None
      else find_project_root_from exists_ n' (Path.parent current)
  end.

Definition find_project_root (exists_ : Path.t -> bool) (start : Path.t) : Path.t :=
  match find_project_root_from exists_ 5 start with
  | Some current => current
  | None => start
  end.

(** The [__main__] block: [(dataset_dir, out_root)], the two arguments of
    [split_csvs]; [None] is the SystemExit raised when neither directory
    is there. *)
Definition main_dirs (exists_ : Path.t -> bool) (here : Path.t) : option (Path.t * Path.t) :=
  let project_root := find_project_root exists_ here in
  let processed_dir :=
    Path.joinpath (Path.joinpath project_root "Processed_Datasets") "Untreated MonoCulture" in
  let raw_dir :=
    Path.joinpath (Path.joinpath project_root "Datasets") "Untreated MonoCulture" in
  let out_root :=
    Path.joinpath (Path.joinpath project_root "Processed_Datasets") "Untreated MonoCulture" in
  if exists_ processed_dir then Some (processed_dir, out_root)
  else if exists_ raw_dir then Some (raw_dir, out_root)
  else None.

(** [out_file = out_root / seeding / f"{line}.csv"] *)
Definition out_file (out_root : Path.t) (k : Bucket) : Path.t :=
  Path.joinpath (Path.joinpath out_root (fst k)) (snd k +++ ".csv").

End SplitUntreatedMonoculture.

(** ** fix_processed_headers.py *)

Module FixProcessedHeaders.

Definition RENAMES : list (string * string) :=
  [ ("Area µm^2", "Cells");
    ("Mean Area µm^2", "Mean Cells");
    ("SD Area µm^2", "SD Cells");
    ("SEM Area µm^2", "SEM Cells");
    ("Average_Area_um2", "Average_Cells");
    ("StdDev_Area_um2", "StdDev_Cells");
    ("Min_Area_um2", "Min_Cells");
    ("Max_Area_um2", "Max_Cells");
    ("Mean_Area_um2", "Mean_Cells");
    ("Std_Dev_um2", "Std_Dev_Cells");
    ("Std_Error_um2", "Std_Error_Cells");
    ("CI_95_Margin_um2", "CI_95_Margin_Cells");
    ("CI_95_Lower_um2", "CI_95_Lower_Cells");
    ("CI_95_Upper_um2", "CI_95_Upper_Cells") ].

(** [RENAMES.get(h, h)] *)
Definition rename (h : string) : string :=
  match Py.lookup String.eqb h RENAMES with
  | Some h' => h'
  | None => h
  end.

Definition rows_eqb (a b : list string) : bool :=
  (List.length a =? List.length b)%nat
  && forallb (fun xy => String.eqb (fst xy) (snd xy)) (combine a b).

(** [rewrite_csv_headers(path)]: the result, the files afterwards and the
    line printed, if any. *)
Definition rewrite_csv_headers (fs : FS) (path : string) : bool * FS * list string :=
  match fs path with
  | None => (false, fs, ["Failed to fix " +++ path])
  | Some bytes =>
      match Codec.decode_utf8_sig bytes with
      | None => (false, fs, ["Failed to fix " +++ path])
      | Some text =>
          match Csv.reader text with
          | [] => (false, fs, [])
          | header :: data =>
              let new_header := map rename header in
              if rows_eqb new_header header then (false, fs, [])
              else
                (true,
                 fs_write fs path
                   (Codec.encode_utf8_sig (Csv.writerow new_header +++ Csv.writerows data)),
                 ["Fixed headers in: " +++ path])
          end
      end
  end.

(** The loop of [main] over the paths found under Processed_Datasets: the
    number of files changed and the files afterwards. *)
Fixpoint fix_all (fs : FS) (paths : list string) : nat * FS :=
  match paths with
  | [] => (O, fs)
  | p :: paths' =>
      let '(ok, fs', _) := rewrite_csv_headers fs p in
      let '(changed, fs'') := fix_all fs' paths' in
      ((if ok then S changed else changed), fs'')
  end.

(** The search of [main] for Processed_Datasets: the loop
    [for _ in range(6)], from [base]; the result is the [base] after the
    loop. *)
Fixpoint find_base (exists_ : Path.t -> bool) (n : nat) (base : Path.t) : Path.t :=
  match n with
  | O => base
  | S n' =>
      if exists_ (Path.joinpath base "Processed_Datasets") then base
      else if Path.eqb (Path.parent base) base then base
      else find_base exists_ n' (Path.parent base)
  end.

(** [main(argv)]: the value returned and the files afterwards.
    [rglob_csv target] is [list(target.rglob('*.csv'))], [root] the
    directory of the script. *)
Definition main (exists_ : Path.t -> bool) (rglob_csv : Path.t -> list string)
    (fs : FS) (root : Path.t) : Z * FS :=
  let base := find_base exists_ 6 root in
  let target := Path.joinpath base "Processed_Datasets" in
  if negb (exists_ target) then (1%Z, fs)
  else (0%Z, snd (fix_all fs (rglob_csv target))).

End FixProcessedHeaders.

(** ** compute_sample_averages.py (Untreated MonoCulture) *)

Module ComputeSampleAverages.

(** [DAY_RE = re.compile(r"_Day(\d+)_", re.IGNORECASE)] *)
Definition DAY_RE : Re.regex :=
  Re.lits "_Day" ++ [Re.GOpen; Re.Plus Py.is_digit; Re.GClose; Re.Lit "_"].

Definition is_AB (c : ascii) : bool := Ascii.eqb c "A" || Ascii.eqb c "B".
Definition is_1_6 (c : ascii) : bool := (49 <=? Py.ord c)%nat && (Py.ord c <=? 54)%nat.

(** [WELL_RE = re.compile(r"_([AB][1-6])\.tif$", re.IGNORECASE)] *)
Definition WELL_RE : Re.regex :=
  [Re.Lit "_"; Re.GOpen; Re.Cls is_AB; Re.Cls is_1_6; Re.GClose]
  ++ Re.lits ".tif" ++ [Re.Eos].

Definition parse_day_and_well (image : string) : option (Z * string) :=
  match Re.search true DAY_RE image, Re.search true WELL_RE image with
  | Some d, Some w => Some (Py.int (Re.group 1 d), Py.upper (Re.group 1 w))
  | _, _ => None
  end.

Definition Key : Type := (Z * string)%type.

Definition key_eqb (a b : Key) : bool := Z.eqb (fst a) (fst b) && String.eqb (snd a) (snd b).

(** One line of the output before it is formatted:
    [(day, well, ntiles, m, sd, sem)]. *)
Record Stat : Type := mkStat {
  day : Z;
  well : string;
  ntiles : nat;
  m : float;
  sd : float;
  sem : float
}.

(** [well_sort_key(w) = (w[0], int(w[1]))] *)
Definition well_sort_key (w : string) : string * Z :=
  (String.substring 0 1 w, Py.int (String.substring 1 1 w)).

(** The order of the tuples [(r[0], well_sort_key(r[1]))]. *)
Definition stat_leb (a b : Stat) : bool :=
  if (day a <? day b)%Z then true
  else if (day b <? day a)%Z then false
  else
    let ka := well_sort_key (well a) in
    let kb := well_sort_key (well b) in
    if String.ltb (fst ka) (fst kb) then true
    else if String.ltb (fst kb) (fst ka) then false
    else (snd ka <=? snd kb)%Z.

Definition header_row : list string :=
  ["Day"; "Well"; "N Tiles"; "Mean Area Âµm^2"; "SD Area Âµm^2"; "SEM Area Âµm^2"].

Section Lib.
(** [statistics.mean], [statistics.stdev], [float(str)] ([None] is a
    ValueError) and the format [f"{x:.6f}"]. *)
Variable mean : list float -> float.
Variable stdev : list float -> float.
Variable py_float : string -> option float.
Variable fmt6 : float -> string.

(** The body of [for row in reader]. *)
Definition add_row (tiles : list (Key * list float)) (row : list string)
  : list (Key * list float) :=
  match row with
  | image :: area_str :: _ =>
      match parse_day_and_well image with
      | None => tiles
      | Some parsed =>
          match py_float area_str with
          | None => tiles
          | Some area => Py.setdefault_append key_eqb parsed area tiles
          end
      end
  | _ => tiles
  end.

Definition accumulate (data : list (list string)) : list (Key * list float) :=
  fold_left add_row data [].

(** The body of [for (day, well), vals in tiles.items()]. *)
Definition stat_of (entry : Key * list float) : list Stat :=
  let '((day, well), vals) := entry in
  match vals with
  | [] => []
  | _ =>
      let ntiles := List.length vals in
      let m := mean vals in
      let sd := if (2 <=? ntiles)%nat then stdev vals else 0%float in
      let sem := if (0 <? ntiles)%nat
                 then (sd / PrimFloat.sqrt (Py.float_of_nat ntiles))%float
                 else 0%float in
      [mkStat day well ntiles m sd sem]
  end.

Definition stats (data : list (list string)) : list Stat :=
  Py.sort stat_leb (flat_map stat_of (accumulate data)).

Definition format_stat (r : Stat) : list string :=
  [Py.str_of_Z (day r); well r; Py.str_of_Z (Z.of_nat (ntiles r));
   fmt6 (m r); fmt6 (sd r); fmt6 (sem r)].

(** [per_day_sample_stats(input_csv, output_csv)] on the bytes of the input:
    [None] is a UnicodeDecodeError; otherwise the number returned and the
    bytes written to [output_csv], if it is written. *)
Definition per_day_sample_stats (input : string) : option (nat * option string) :=
  match Codec.decode_utf8_sig input with
  | None => None
  | Some text =>
      match Csv.reader text with
      | [] | [] :: _ => Some (O, None)
      | _ :: data =>
          let rows := stats data in
          Some (List.length rows,
                Some (Codec.encode_utf8_sig
                        (Csv.writerow header_row +++ Csv.writerows (map format_stat rows))))
      end
  end.

End Lib.
(** The test of [find_default_inputs] on the name of a file: the file is
    left out. *)
Definition left_out (name : string) : bool :=
  let name := Py.lower name in
  Py.endswith "_sample_averages.csv" name
  || Py.endswith "_day_averages.csv" name
  || String.eqb name "day_averages.csv".

(** [find_default_inputs(root)]; [exists_] is [Path.exists] and
    [glob_csv d] is [d.glob("*.csv")]. *)
Definition find_default_inputs (exists_ : Path.t -> bool) (glob_csv : Path.t -> list Path.t)
    (root : Path.t) : list Path.t :=
  let base :=
    Path.joinpath (Path.joinpath root "Processed_Datasets") "Untreated MonoCulture" in
  flat_map (fun group =>
              let d := Path.joinpath base group in
              if negb (exists_ d) then []
              else filter (fun p => negb (left_out (Path.name p))) (glob_csv d))
           ["20k"; "30k"].

(** [out = inp.parent / "Averages" / (inp.stem + "_sample_averages.csv")] *)
Definition out_path (inp : Path.t) : Path.t :=
  Path.joinpath (Path.joinpath (Path.parent inp) "Averages")
    (Path.stem inp +++ "_sample_averages.csv").

End ComputeSampleAverages.

(** ** compute_group_day_averages.py (Untreated MonoCulture) *)

Module ComputeGroupDayAverages.

(** A row of [csv.DictReader]: [row.get(key)].  The last column of that
    name counts; a column the line is too short for holds [None]. *)
Fixpoint dict_get (key : string) (fieldnames row : list string) : option string :=
  match fieldnames with
  | [] => None
  | name :: fieldnames' =>
      let rest := dict_get key fieldnames' (tl row) in
      if existsb (String.eqb key) fieldnames' then rest
      else if String.eqb key name then
        match row with
        | v :: _ => Some v
        | [] => None
        end
      else None
  end.

(** One line of the output before it is formatted: [day, n, mval, sd, sem]. *)
Record DayStat : Type := mkDayStat {
  day : Z;
  n : nat;
  mval : float;
  sd : float;
  sem : float
}.

Definition header_row : list string :=
  ["Day"; "N Samples"; "Mean Area µm^2"; "SD Area µm^2"; "SEM Area µm^2"].

Section Lib.
(** [statistics.mean], [statistics.stdev], [int(str)], [float(str)] ([None]
    is a ValueError) and the format [f"{x:.6f}"]. *)
Variable mean : list float -> float.
Variable stdev : list float -> float.
Variable py_int : string -> option Z.
Variable py_float : string -> option float.
Variable fmt6 : float -> string.

(** The body of [for row in reader] in [read_per_well_means]. *)
Definition add_row (fieldnames : list string) (day_to_means : list (Z * list float))
    (row : list string) : list (Z * list float) :=
  match row with
  | [] => day_to_means
  | _ =>
      match py_int (Py.strip (Py.or_empty (Py.or_else (dict_get "Day" fieldnames row) None))) with
      | None => day_to_means
      | Some day =>
          match py_float (Py.strip (Py.or_empty
                   (Py.or_else (dict_get "Mean Area µm^2" fieldnames row)
                               (Py.or_else (dict_get "Mean" fieldnames row) None)))) with
          | None => day_to_means
          | Some m => Py.setdefault_append Z.eqb day m day_to_means
          end
      end
  end.

Definition read_per_well_means (rows : list (list string)) : list (Z * list float) :=
  match rows with
  | [] => []
  | fieldnames :: data => fold_left (add_row fieldnames) data []
  end.

(** The body of [for day in days]. *)
Definition day_stat (day_to_means : list (Z * list float)) (day : Z) : list DayStat :=
  let vals := match Py.lookup Z.eqb day day_to_means with Some v => v | None => [] end in
  let n := List.length vals in
  if (n =? 0)%nat then []
  else
    let mval := mean vals in
    let sd := if (2 <=? n)%nat then stdev vals else 0%float in
    let sem := if (0 <? n)%nat
               then (sd / PrimFloat.sqrt (Py.float_of_nat n))%float
               else 0%float in
    [mkDayStat day n mval sd sem].

(** The lines computed for one sample file: [days = sorted(day_to_means.keys())]. *)
Definition day_stats (rows : list (list string)) : list DayStat :=
  let day_to_means := read_per_well_means rows in
  let days := Py.sort Z.leb (map fst day_to_means) in
  flat_map (day_stat day_to_means) days.

Definition format_stat (r : DayStat) : list string :=
  [Py.str_of_Z (day r); Py.str_of_Z (Z.of_nat (n r)); fmt6 (mval r); fmt6 (sd r); fmt6 (sem r)].

(** The body of [for s in sample_files] in [write_per_file_day_averages], on
    the bytes of the sample file: the bytes written to the day-averages
    file, or [None] for a UnicodeDecodeError. *)
Definition write_day_averages (input : string) : option string :=
  match Codec.decode_utf8_sig input with
  | None => None
  | Some text =>
      Some (Codec.encode_utf8_sig
              (Csv.writerow header_row
               +++ Csv.writerows (map format_stat (day_stats (Csv.reader text)))))
  end.

End Lib.
(** [out_path = s.with_name(s.stem.replace("_sample_averages",
    "_day_averages") + ".csv")] *)
Definition out_path (s : Path.t) : Path.t :=
  Path.with_name s
    (Py.replace "_sample_averages" "_day_averages" (Path.stem s) +++ ".csv").

End ComputeGroupDayAverages.

(** ** create_averages.py (Intermittent Data) *)

Module CreateAverages.

(** [re.search(r'Day(\d+)', filename)] *)
Definition DAY : Re.regex := Re.lits "Day" ++ [Re.GOpen; Re.Plus Py.is_digit; Re.GClose].

(** [re.search(r'Tile-(\d+)', filename)] *)
Definition TILE : Re.regex := Re.lits "Tile-" ++ [Re.GOpen; Re.Plus Py.is_digit; Re.GClose].

(** [re.search(r'_([A-Z]\d+)\.tif', filename)] *)
Definition WELL : Re.regex :=
  [Re.Lit "_"; Re.GOpen; Re.Cls Py.is_upper; Re.Plus Py.is_digit; Re.GClose] ++ Re.lits ".tif".

Definition parse_filename_components (filename : string)
  : option Z * option Z * option string :=
  let day_match := Re.search false DAY filename in
  let day := option_map (fun m => Py.int (Re.group 1 m)) day_match in
  let tile_match := Re.search false TILE filename in
  let tile := option_map (fun m => Py.int (Re.group 1 m)) tile_match in
  let well_match := Re.search false WELL filename in
  let well := option_map (fun m => Re.group 1 m) well_match in
  (day, tile, well).

Definition int_cell (x : option Z) : Pd.cell :=
  match x with Some z => Pd.CInt z | None => Pd.CNone end.

Definition str_cell (x : option string) : Pd.cell :=
  match x with Some s => Pd.CStr s | None => Pd.CNone end.

Definition day_of (x : string) : Pd.cell := int_cell (fst (fst (parse_filename_components x))).
Definition tile_of (x : string) : Pd.cell := int_cell (snd (fst (parse_filename_components x))).
Definition well_of (x : string) : Pd.cell := str_cell (snd (parse_filename_components x)).

Definition value_col (df : Pd.DataFrame) : string :=
  if Pd.has_column df "Cells" then "Cells" else "Area µm^2".

Fixpoint zip_keys (a b : list Pd.cell) : list (list Pd.cell) :=
  match a, b with
  | x :: a', y :: b' => [x; y] :: zip_keys a' b'
  | _, _ => []
  end.

Definition row_leb (n : nat) (a b : list Pd.cell) : bool :=
  Pd.key_leb (firstn n a) (firstn n b).

(** The frame [day_averages] that [create_day_averages(df, ...)] writes.
    The columns Day, Tile and Well are computed from Image and stored in
    the frame; the grouping reads Day and Well back, and the value column,
    which the three assignments leave as it was.  [None] is an exception
    (no Image column, a cell of Image that is no string, no value column, a
    value that is a string). *)
Definition create_day_averages (df : Pd.DataFrame) : option Pd.DataFrame :=
  match Pd.col df "Image" with
  | None => None
  | Some images =>
      match Pd.apply_str day_of images, Pd.apply_str tile_of images,
            Pd.apply_str well_of images with
      | Some days, Some _, Some wells =>
          match Pd.col df (value_col df) with
          | None => None
          | Some cells =>
              match Pd.numbers cells with
              | None => None
              | Some values =>
                  let groups := Pd.groupby (zip_keys days wells) values in
                  let day_averages :=
                    map (fun g => fst g ++ [Pd.CFloat (Pd.mean (snd g));
                                            Pd.CInt (Z.of_nat (Pd.count (snd g)))]) groups in
                  Some (Pd.mkDF ["Day"; "Well"; "Average_Cells"; "Tile_Count"]
                          (Py.sort (row_leb 2) day_averages))
              end
          end
      | _, _, _ => None
      end
  end.


(** [file_prefix = csv_file.replace('.csv', '')] in
    [process_seeding_density_folder]. *)
Definition file_prefix (csv_file : string) : string :=
  Py.replace ".csv" EmptyString csv_file.

(** The name of the file that [create_day_averages(df, output_path,
    file_prefix)] writes: [f"{file_prefix}_sampleaverages.csv"]. *)
Definition combined_file_name (csv_file : string) : string :=
  file_prefix csv_file +++ "_sampleaverages.csv".

End CreateAverages.

(** ** create_day_averages.py (Intermittent Data) *)

Module CreateDayAverages.

Definition value_col (df : Pd.DataFrame) : string :=
  if Pd.has_column df "Average_Cells" then "Average_Cells" else "Average_Area_um2".

Definition z_critical : float := 1.96%float.

(** One line of [day_stats]. *)
Record DayStat : Type := mkDayStat {
  Day : Pd.cell;
  Mean_Cells : float;
  Std_Dev_Cells : float;
  Sample_Count : nat;
  Std_Error_Cells : float;
  CI_95_Margin_Cells : float;
  CI_95_Lower_Cells : float;
  CI_95_Upper_Cells : float
}.

(** The body of the aggregation for the group of one day, and the three
    confidence-interval columns. *)
Definition day_stat (g : list Pd.cell * list float) : DayStat :=
  let mean := Pd.mean (snd g) in
  let std := Pd.std (snd g) in
  let count := Pd.count (snd g) in
  let sem := Pd.sem (snd g) in
  let margin := (z_critical * sem)%float in
  mkDayStat (hd Pd.CNone (fst g)) mean std count sem margin
            (mean - margin)%float (mean + margin)%float.

(** [create_day_averages(path)] on the frame read from the file: the lines
    of [day_stats].  [None] is an exception (a column is not there, a value
    is a string). *)
Definition create_day_averages (df : Pd.DataFrame) : option (list DayStat) :=
  match Pd.col df "Day", Pd.col df (value_col df) with
  | Some days, Some cells =>
      match Pd.numbers cells with
      | None => None
      | Some values => Some (map day_stat (Pd.groupby (map (fun d => [d]) days) values))
      end
  | _, _ => None
  end.

Definition frame (stats : list DayStat) : Pd.DataFrame :=
  Pd.mkDF ["Day"; "Mean_Cells"; "Std_Dev_Cells"; "Sample_Count"; "Std_Error_Cells";
           "CI_95_Margin_Cells"; "CI_95_Lower_Cells"; "CI_95_Upper_Cells"]
    (map (fun r => [Day r; Pd.CFloat (Mean_Cells r); Pd.CFloat (Std_Dev_Cells r);
                    Pd.CInt (Z.of_nat (Sample_Count r)); Pd.CFloat (Std_Error_Cells r);
                    Pd.CFloat (CI_95_Margin_Cells r); Pd.CFloat (CI_95_Lower_Cells r);
                    Pd.CFloat (CI_95_Upper_Cells r)]) stats).

(** [output_name = file_name.replace("_sampleaverages.csv",
    "_dayaverages.csv")] in [process_directory]. *)
Definition output_name (file_name : string) : string :=
  Py.replace "_sampleaverages.csv" "_dayaverages.csv" file_name.

End CreateDayAverages.

(** ** split_seeding_data.py *)

Module SplitSeedingData.

(** [file_well_mapping]: for each file, its 20k wells and its 30k wells. *)
Definition file_well_mapping : list (string * (list string * list string)) :=
  [ ("A2780cisT.csv", (["C4"; "C5"; "C6"], ["D4"; "D5"; "D6"]));
    ("A2780cisUT.csv", (["A4"; "A5"; "A6"], ["B4"; "B5"; "B6"]));
    ("A2780UT.csv", (["A1"; "A2"; "A3"], ["B1"; "B2"; "B3"]));
    ("A2780T.csv", (["C1"; "C2"; "C3"], ["D1"; "D2"; "D3"])) ].

Fixpoint first_tif (parts : list string) : option string :=
  match parts with
  | [] => None
  | part :: parts' =>
      if Py.endswith ".tif" part then Some (Py.remove_all ".tif" part)
      else first_tif parts'
  end.

Definition extract_well_from_filename (filename : string) : option string :=
  first_tif (Py.split "_" filename).

Definition well_cell (filename : string) : Pd.cell :=
  match extract_well_from_filename filename with
  | Some w => Pd.CStr w
  | None => Pd.CNone
  end.

(** [df[df['Well'].isin(wells)].copy().drop('Well', axis=1)] *)
Definition part (df : Pd.DataFrame) (wells : list string) : option Pd.DataFrame :=
  match Pd.col df "Well" with
  | None => None
  | Some w =>
      Pd.drop (Pd.mkDF (Pd.columns df) (Pd.select (Pd.rows df) (map (Pd.isin wells) w))) "Well"
  end.

(** The two frames [df_20k] and [df_30k] of [split_csv_by_wells]; [None]
    is an exception (no Image column, a cell of Image that is no string). *)
Definition split_csv_by_wells (df : Pd.DataFrame) (well_config : list string * list string)
  : option (Pd.DataFrame * Pd.DataFrame) :=
  match Pd.col df "Image" with
  | None => None
  | Some images =>
      match Pd.apply_str well_cell images with
      | None => None
      | Some wells =>
          let df' := Pd.set_col df "Well" wells in
          match part df' (fst well_config), part df' (snd well_config) with
          | Some df_20k, Some df_30k => Some (df_20k, df_30k)
          | _, _ => None
          end
      end
  end.

End SplitSeedingData.

(** ** process_area_data.py *)

Module ProcessAreaData.

(** The files and what was printed. *)
Record World : Type := mkWorld {
  files : FS;
  stdout : list string
}.

Definition print (w : World) (line : string) : World :=
  mkWorld (files w) (stdout w ++ [line]).

(** A cell of the column divided by 144; [None] is the TypeError raised on
    a string. *)
Definition divide (c : Pd.cell) : option Pd.cell :=
  match c with
  | Pd.CInt z => Some (Pd.CFloat (Py.float_of_Z z / 144)%float)
  | Pd.CFloat x => Some (Pd.CFloat (x / 144)%float)
  | Pd.CNone => Some (Pd.CFloat nan)
  | Pd.CStr _ => None
  end.

Fixpoint divide_all (cells : list Pd.cell) : option (list Pd.cell) :=
  match cells with
  | [] => Some []
  | c :: cells' =>
      match divide c, divide_all cells' with
      | Some x, Some xs => Some (x :: xs)
      | _, _ => None
      end
  end.

(** The frame that [process_csv_file] writes for a frame that has the
    column; [None] is an exception. *)
Definition normalise (df : Pd.DataFrame) : option Pd.DataFrame :=
  match Pd.col df "Area µm^2" with
  | None => None
  | Some cells =>
      match divide_all cells with
      | None => None
      | Some cells' =>
          Some (Pd.rename (Pd.set_col df "Area µm^2" cells') "Area µm^2" "Cells")
      end
  end.

Section Lib.
(** [pd.read_csv] on the bytes of a file ([None] is an exception),
    [os.linesep], [repr] of a float, and the output path that [main] gives
    to an input path. *)
Variable read_csv : string -> option Pd.DataFrame.
Variable linesep : string.
Variable float_repr : float -> string.
Variable output_path_of : string -> string.

Definition process_csv_file (w : World) (file_path output_path : string) : bool * World :=
  match files w file_path with
  | None => (false, print w ("Error processing " +++ file_path))
  | Some bytes =>
      match read_csv bytes with
      | None => (false, print w ("Error processing " +++ file_path))
      | Some df =>
          if negb (Pd.has_column df "Area µm^2") then
            (false, print w ("Warning: 'Area µm^2' column not found in " +++ file_path))
          else
            match normalise df with
            | None => (false, print w ("Error processing " +++ file_path))
            | Some df' =>
                (true,
                 print (mkWorld (fs_write (files w) output_path
                                   (Pd.to_csv linesep float_repr df'))
                                (stdout w))
                       ("Successfully processed: " +++ file_path))
            end
      end
  end.

(** The loop [for csv_file in csv_files] of [main]:
    [(successful_count, failed_count)] and the world afterwards. *)
Fixpoint process_all (w : World) (csv_files : list string) (successful failed : nat)
  : nat * nat * World :=
  match csv_files with
  | [] => (successful, failed, w)
  | csv_file :: rest =>
      let '(ok, w') := process_csv_file w csv_file (output_path_of csv_file) in
      if ok then process_all w' rest (S successful) failed
      else process_all w' rest successful (S failed)
  end.

End Lib.
End ProcessAreaData.

(** * The vocabulary of the properties

    The predicates that the statements below are written with. *)

(** The column that process_area_data.py normalises. *)
Definition area : string := "Area µm^2".

(** The line that [process_csv_file] prints for a file without the column. *)
Definition warning (file_path : string) : string :=
  "Warning: 'Area µm^2' column not found in " +++ file_path.

(** The columns of the frame of [CreateAverages.create_day_averages]. *)
Definition day_averages_columns : list string :=
  ["Day"; "Well"; "Average_Cells"; "Tile_Count"].

(** The columns of the frame of [CreateDayAverages.create_day_averages]. *)
Definition day_stats_columns : list string :=
  ["Day"; "Mean_Cells"; "Std_Dev_Cells"; "Sample_Count"; "Std_Error_Cells";
   "CI_95_Margin_Cells"; "CI_95_Lower_Cells"; "CI_95_Upper_Cells"].

(** The rows that [split_csvs] keeps: as many fields as the header, and an
    image that names a well of the plate. *)
Definition accepted (expected_cols : nat) (row : SplitUntreatedMonoculture.Row) : bool :=
  match row with
  | [] => false
  | image_name :: _ =>
      (List.length row =? expected_cols)%nat
      && match SplitUntreatedMonoculture.classify_image image_name with
         | Some _ => true
         | None => false
         end
  end.

(** The row belongs to the output [k]. *)
Definition goes_to (k : SplitUntreatedMonoculture.Bucket) (row : SplitUntreatedMonoculture.Row)
  : bool :=
  match row with
  | [] => false
  | image_name :: _ =>
      match SplitUntreatedMonoculture.classify_image image_name with
      | Some cls => SplitUntreatedMonoculture.bucket_eqb cls k
      | None => false
      end
  end.

Definition sel (n : nat) (k : SplitUntreatedMonoculture.Bucket)
    (row : SplitUntreatedMonoculture.Row) : bool :=
  accepted n row && goes_to k row.

(** The header that counts: the first one read. *)
Fixpoint first_header (files : list (list SplitUntreatedMonoculture.Row))
  : option SplitUntreatedMonoculture.Row :=
  match files with
  | [] => None
  | [] :: files' => first_header files'
  | (h :: _) :: _ => Some h
  end.

(** The header in force after [files], when [h0] was in force before. *)
Definition canonical_header (h0 : option SplitUntreatedMonoculture.Row)
    (files : list (list SplitUntreatedMonoculture.Row)) : option SplitUntreatedMonoculture.Row :=
  match h0 with
  | Some h => Some h
  | None => first_header files
  end.

(** [expected_cols] *)
Definition cols_of (h : option SplitUntreatedMonoculture.Row) : nat :=
  match h with Some x => List.length x | None => O end.

(** The well of a row of a frame whose column [j] is Image. *)
Definition row_well (j : nat) (r : list Pd.cell) : Pd.cell :=
  match nth j r Pd.CNone with
  | Pd.CStr s => SplitSeedingData.well_cell s
  | _ => Pd.CNone
  end.

(** No name of [a] is in [b]. *)
Definition disjoint (a b : list string) : bool :=
  forallb (fun x => negb (existsb (String.eqb x) b)) a.

(** Some suffix of [s] satisfies [p]: the pattern that [p] recognises
    occurs somewhere in [s]. *)
Fixpoint occurs (p : string -> bool) (s : string) : bool :=
  p s || match s with
         | EmptyString => false
         | String _ s' => occurs p s'
         end.

(** [sub in s] *)
Definition contains (sub s : string) : bool := occurs (Py.startswith sub) s.









(** [lit] starts [t], whatever the case of the letters. *)
Fixpoint istartswith (lit t : string) : bool :=
  match lit, t with
  | EmptyString, _ => true
  | String c lit', String a t' => Re.ceq true a c && istartswith lit' t'
  | String _ _, EmptyString => false
  end.


(** The token [_<A or B><1 to 6>.tif], letters in any case, starts [t]. *)
Definition well_token (t : string) : bool :=
  match t with
  | String u (String r (String c rest)) =>
      Ascii.eqb u "_" && Re.cin true ComputeSampleAverages.is_AB r
      && ComputeSampleAverages.is_1_6 c && istartswith ".tif" rest
  | _ => false
  end.

(** [t] is the token, or the token and a newline. *)
Definition well_re_marker (t : string) : bool :=
  well_token t && Re.at_end (Py.drop 7 t).

(** The two groups of the token. *)
Definition token_row (t : string) : string :=
  match t with
  | String _ (String r _) => String r EmptyString
  | _ => EmptyString
  end.

Definition token_col (t : string) : string :=
  match t with
  | String _ (String _ (String c _)) => String c EmptyString
  | _ => EmptyString
  end.

(** ["\n"] *)
Definition newline : string := String (Py.chr 10) EmptyString.

(** ** Sample inputs *)




Definition c2_tile_rows : list (list string) := [["X_Day5_FITC_Tile-0_A2.tif"; "7"]].

Definition c2_sample_rows : list (list string) := [["Day"; "Well"; "Mean"]; ["5"; "A2"; "7"]].


Definition c5_frame : Pd.DataFrame :=
  Pd.mkDF ["Image"; "Area µm^2"]
    [[Pd.CStr "X_Day5_FITC_Tile-0_C4.tif"; Pd.CInt 288];
     [Pd.CStr "X_Day5_FITC_Tile-1_C4.tif"; Pd.CFloat 36]].

Definition c6_frame : Pd.DataFrame := Pd.mkDF ["Image"; "Cells"] [[Pd.CStr "a_C4.tif"; Pd.CInt 2]].

Definition c6_world : ProcessAreaData.World :=
  ProcessAreaData.mkWorld
    (fun p => if String.eqb p "Datasets/a.csv" then Some "Image,Cells" else None) [].

Definition c8_fs : FS :=
  fun p =>
    if String.eqb p "Processed_Datasets/a.csv"
    then Some (Codec.encode_utf8_sig
                 (Csv.writerows [["Image"; "Area µm^2"]; ["x_A1.tif"; "2.5"]; ["y, z"; EmptyString]]))
    else None.

Definition c8_fs_cells : FS :=
  fun p =>
    if String.eqb p "Processed_Datasets/a.csv"
    then Some (Codec.encode_utf8_sig (Csv.writerows [["Image"; "Cells"]; ["x_A1.tif"; "2.5"]]))
    else None.

Definition c7_frame : Pd.DataFrame :=
  Pd.mkDF ["Image"; "Cells"] [[Pd.CStr "X_Day1_FITC_Tile-0_C4.tif"; Pd.CInt 3]].

Definition c7_tiles : string :=
  Csv.writerows [["Image"; "Cells"]; ["X_Day5_FITC_Tile-0_A2.tif"; "7"]].

Definition c7_sample_bytes : string :=
  match ComputeSampleAverages.per_day_sample_stats Pd.mean Pd.std
          (fun s => Some (Py.float_of_Z (Py.int s))) (fun _ => "0.000000") c7_tiles with
  | Some (_, Some bytes) => bytes
  | _ => EmptyString
  end.

Definition c7_image_frame : Pd.DataFrame :=
  Pd.mkDF ["Image"; "Cells"] [[Pd.CStr "X_Day5_FITC_Tile-0_C4.tif"; Pd.CInt 7]].

Definition c9_header : list string := ["Image"; "Cells"].
Definition c9_row1 : list string := ["X_Day5_FITC_Tile-0_A1.tif"; "1"].

Definition c9_row3 : list string := ["X_Day5_FITC_Tile-1_A2.tif"; "3"].

Definition c3_image : string := "X_Day5_FITC_Tile-0_A1.tif".

Definition c3_file : string :=
  Csv.writerows [["Image"; "Cells"]; [c3_image; "5"; "extra"]].

Definition c3_frame : Pd.DataFrame :=
  Pd.mkDF ["Image"; "Cells"]
    [[Pd.CStr "X_Day1_FITC_Tile-0_C4.tif"; Pd.CInt 3];
     [Pd.CStr "X_Day1_FITC_Tile-0_D5.tif"; Pd.CInt 4];
     [Pd.CStr "X_Day1_FITC_Tile-0_A1.tif"; Pd.CInt 5]].

Definition c3_good_file : string :=
  Csv.writerows [["Image"; "Cells"]; ["X_Day5_FITC_Tile-0_B4.tif"; "5"];
                 ["X_Day5_FITC_Tile-0_A1.tif"; "6"]; ["X_Day5_FITC_Tile-0_C1.tif"; "7"]].




(** ** The groups of the aggregations *)

(** The areas of the rows of [data] that [per_day_sample_stats] counts for
    the key [(day, well)], in the order of the file. *)
Definition sample_areas (py_float : string -> option float)
    (key : ComputeSampleAverages.Key) (data : list (list string)) : list float :=
  flat_map (fun row =>
              match row with
              | image :: area_str :: _ =>
                  match ComputeSampleAverages.parse_day_and_well image, py_float area_str with
                  | Some k, Some area =>
                      if ComputeSampleAverages.key_eqb k key then [area] else []
                  | _, _ => []
                  end
              | _ => []
              end) data.

(** The order of the lines of a sample file: by day, then by the letter of
    the well, then by its number. *)
Definition sample_line_le (a b : ComputeSampleAverages.Stat) : Prop :=
  (ComputeSampleAverages.day a < ComputeSampleAverages.day b)%Z
  \/ (ComputeSampleAverages.day a = ComputeSampleAverages.day b
      /\ (String.ltb (fst (ComputeSampleAverages.well_sort_key (ComputeSampleAverages.well a)))
                     (fst (ComputeSampleAverages.well_sort_key (ComputeSampleAverages.well b)))
          = true
          \/ (fst (ComputeSampleAverages.well_sort_key (ComputeSampleAverages.well a))
              = fst (ComputeSampleAverages.well_sort_key (ComputeSampleAverages.well b))
              /\ (snd (ComputeSampleAverages.well_sort_key (ComputeSampleAverages.well a))
                  <= snd (ComputeSampleAverages.well_sort_key (ComputeSampleAverages.well b)))%Z))).

(** The key of a line of a sample file. *)
Definition sample_key (r : ComputeSampleAverages.Stat) : ComputeSampleAverages.Key :=
  (ComputeSampleAverages.day r, ComputeSampleAverages.well r).

(** The day and the mean that [read_per_well_means] reads from a row, when
    it reads both. *)
Definition day_and_mean (py_int : string -> option Z) (py_float : string -> option float)
    (fieldnames row : list string) : option (Z * float) :=
  match row with
  | [] => None
  | _ =>
      match py_int (Py.strip (Py.or_empty
              (Py.or_else (ComputeGroupDayAverages.dict_get "Day" fieldnames row) None))) with
      | None => None
      | Some day =>
          match py_float (Py.strip (Py.or_empty
                   (Py.or_else (ComputeGroupDayAverages.dict_get "Mean Area µm^2" fieldnames row)
                      (Py.or_else (ComputeGroupDayAverages.dict_get "Mean" fieldnames row)
                         None)))) with
          | None => None
          | Some m => Some (day, m)
          end
      end
  end.

(** The means of the rows of [data] read for the day [day], in the order of
    the file. *)
Definition day_means (py_int : string -> option Z) (py_float : string -> option float)
    (fieldnames : list string) (day : Z) (data : list (list string)) : list float :=
  flat_map (fun row =>
              match day_and_mean py_int py_float fieldnames row with
              | Some (d, m) => if Z.eqb d day then [m] else []
              | None => []
              end) data.

(** ** Valid UTF-8 in rows of fields *)

Definition valid_row (r : list string) : Prop :=
  Forall (fun f => Codec.valid_utf8 f = true) r.

Definition valid_rows (rows : list (list string)) : Prop := Forall valid_row rows.

(** The registers of the csv parser hold valid text, and so does the field
    being read together with the text that is left. *)
Definition parser_ok (p : Csv.parser) (rest : string) : Prop :=
  Codec.valid_utf8 (Csv.fld p +++ rest) = true
  /\ valid_row (Csv.flds p) /\ valid_rows (Csv.recs p).

(** ** Directories and names *)

(** A directory and the directories above it, [n] in all, the nearest
    first. *)
Fixpoint ancestors (n : nat) (p : Path.t) : list Path.t :=
  match n with
  | O => []
  | S n' => p :: ancestors n' (Path.parent p)
  end.

(** No proper end of [old] is a start of [old]: two occurrences of [old]
    in a text do not overlap. *)
Definition unbordered (old : string) : bool :=
  forallb (fun j => negb (Py.startswith (Py.drop j old) old))
          (seq 1 (String.length old - 1)).

(** ** The groups of a pandas group-by, with typed keys *)

Section GroupAdd.
Context {K : Type}.
Variable eqb : K -> K -> bool.



End GroupAdd.










(** * Properties *)

(** ** The stable sort *)

Section SortFacts.
Context {A : Type}.
Variable leb : A -> A -> bool.

Lemma insert_perm (x : A) (l : list A) : Permutation (x :: l) (Py.insert leb x l).
Proof.
  induction l as [|y l IH]; simpl.
  - apply Permutation_refl.
  - destruct (leb x y).
    + apply Permutation_refl.
    + eapply perm_trans; [apply perm_swap|].
      apply perm_skip. exact IH.
Qed.

Lemma sort_perm (l : list A) : Permutation l (Py.sort leb l).
Proof.
  induction l as [|x l IH]; simpl.
  - apply perm_nil.
  - eapply perm_trans; [apply perm_skip; exact IH|].
    apply insert_perm.
Qed.

Lemma sort_in (x : A) (l : list A) : In x (Py.sort leb l) <-> In x l.
Proof.
  split; intro H.
  - eapply Permutation_in; [apply Permutation_sym, sort_perm|exact H].
  - eapply Permutation_in; [apply sort_perm|exact H].
Qed.

Hypothesis leb_total : forall x y, leb x y = true \/ leb y x = true.

Lemma insert_sorted (x : A) (l : list A) :
  Sorted (fun a b => leb a b = true) l ->
  Sorted (fun a b => leb a b = true) (Py.insert leb x l).
Proof.
  induction 1 as [|y l Hs IH Hhd]; simpl.
  - repeat constructor.
  - destruct (leb x y) eqn:E.
    + constructor; [constructor; assumption|constructor; exact E].
    + constructor; [exact IH|].
      destruct l as [|z l]; simpl.
      * constructor. destruct (leb_total x y) as [H|H]; congruence.
      * destruct (leb x z).
        -- constructor. destruct (leb_total x y) as [H|H]; congruence.
        -- inversion Hhd; subst. constructor. assumption.
Qed.

Lemma sort_sorted (l : list A) : Sorted (fun a b => leb a b = true) (Py.sort leb l).
Proof.
  induction l as [|x l IH]; simpl.
  - constructor.
  - apply insert_sorted. exact IH.
Qed.
End SortFacts.

(** ** C1: the standard error and the confidence margin *)






(** ** C2: the group of one value *)





(** ** C5 and C6: the area normalisation *)

Lemma index_of_nth (name : string) (cols : list string) (j : nat) :
  Pd.index_of name cols = Some j -> nth_error cols j = Some name.
Proof.
  revert j. induction cols as [|c cols IH]; simpl; intros j H; [discriminate|].
  destruct (String.eqb name c) eqn:E.
  - injection H as <-. apply String.eqb_eq in E. subst c. reflexivity.
  - destruct (Pd.index_of name cols) as [k|]; [|discriminate].
    injection H as <-. simpl. apply IH. reflexivity.
Qed.

Lemma index_of_none (name : string) (cols : list string) :
  Pd.index_of name cols = None <-> existsb (String.eqb name) cols = false.
Proof.
  induction cols as [|c cols IH]; simpl; [tauto|].
  destruct (String.eqb name c); simpl.
  - split; discriminate.
  - destruct (Pd.index_of name cols); simpl.
    + split; [discriminate|]. intro H. apply IH in H. discriminate.
    + split; [intros _; apply IH; reflexivity|reflexivity].
Qed.

Lemma divide_all_nth (cells cells' : list Pd.cell) :
  ProcessAreaData.divide_all cells = Some cells' ->
  forall i c, nth_error cells i = Some c ->
  exists c', ProcessAreaData.divide c = Some c' /\ nth_error cells' i = Some c'.
Proof.
  revert cells'. induction cells as [|x cells IH]; simpl; intros cells' H i c Hi.
  - destruct i; discriminate.
  - destruct (ProcessAreaData.divide x) as [x'|] eqn:Ex; [|discriminate].
    destruct (ProcessAreaData.divide_all cells) as [xs|]; [|discriminate].
    injection H as <-.
    destruct i as [|i]; simpl in *.
    + injection Hi as <-. exists x'. split; [exact Ex|reflexivity].
    + apply (IH xs eq_refl i c Hi).
Qed.

Lemma divide_all_total (cells : list Pd.cell) :
  (forall c, In c cells -> forall s, c <> Pd.CStr s) ->
  exists cells', ProcessAreaData.divide_all cells = Some cells'.
Proof.
  induction cells as [|x cells IH]; simpl; intro H.
  - exists []. reflexivity.
  - destruct IH as [xs Hxs]; [intros c Hc; apply H; right; exact Hc|].
    rewrite Hxs.
    destruct x as [s| | |]; simpl; try (eexists; reflexivity).
    exfalso. apply (H (Pd.CStr s) (or_introl eq_refl) s). reflexivity.
Qed.

Lemma set_nth_same (j : nat) (v : Pd.cell) (r : list Pd.cell) :
  (j < List.length r)%nat -> nth j (Pd.set_nth j v r) Pd.CNone = v.
Proof.
  revert r. induction j as [|j IH]; intros [|x r] H; simpl in *; try lia.
  - reflexivity.
  - apply IH. lia.
Qed.

Lemma nth_error_set_rows (j : nat) (rs : list (list Pd.cell)) (vs : list Pd.cell)
    (i : nat) (r : list Pd.cell) (v : Pd.cell) :
  nth_error rs i = Some r -> nth_error vs i = Some v ->
  nth_error (map (fun rv => Pd.set_nth j (snd rv) (fst rv)) (combine rs vs)) i
  = Some (Pd.set_nth j v r).
Proof.
  revert vs i. induction rs as [|r0 rs IH]; intros [|v0 vs] [|i] Hr Hv;
    simpl in *; try discriminate.
  - injection Hr as <-. injection Hv as <-. reflexivity.
  - apply IH; assumption.
Qed.

Lemma nth_not_default (j : nat) (r : list Pd.cell) :
  nth j r Pd.CNone <> Pd.CNone -> (j < List.length r)%nat.
Proof.
  intro H. destruct (Nat.lt_ge_cases j (List.length r)) as [Hl|Hl]; [exact Hl|].
  exfalso. apply H. apply nth_overflow. exact Hl.
Qed.

Lemma rename_removes (old new : string) (cols : list string) :
  old <> new ->
  existsb (String.eqb old) (map (fun c => if String.eqb c old then new else c) cols) = false.
Proof.
  intro Hne. induction cols as [|c cols IH]; simpl; [reflexivity|].
  rewrite IH. destruct (String.eqb c old) eqn:E.
  - apply String.eqb_neq in Hne. rewrite Hne. reflexivity.
  - rewrite String.eqb_sym, E. reflexivity.
Qed.

(** C5. When the frame read from the file has the column 'Area µm^2' (at
    position j) and no cell of it is a string, the normalisation succeeds;
    a row whose area is 288 comes out with exactly 2.0 at position j, the
    column at position j is named 'Cells', and no column of the output is
    named 'Area µm^2'. *)
Theorem C5_area_288_gives_2 :
  forall (df : Pd.DataFrame) (j i : nat) (row : list Pd.cell),
    Pd.index_of area (Pd.columns df) = Some j ->
    (forall r, In r (Pd.rows df) -> forall s, nth j r Pd.CNone <> Pd.CStr s) ->
    nth_error (Pd.rows df) i = Some row ->
    Pd.number (nth j row Pd.CNone) = Some (Some 288%float) ->
    exists (df' : Pd.DataFrame) (row' : list Pd.cell),
      ProcessAreaData.normalise df = Some df'
      /\ nth_error (Pd.rows df') i = Some row'
      /\ nth j row' Pd.CNone = Pd.CFloat 2%float
      /\ nth_error (Pd.columns df') j = Some "Cells"
      /\ Pd.has_column df' area = false.
Proof.
  intros df j i row Hj Hnum Hrow H288.
  unfold ProcessAreaData.normalise, Pd.col. fold area. rewrite Hj.
  destruct (divide_all_total (map (fun r => nth j r Pd.CNone) (Pd.rows df))) as [cells' Hd].
  { intros c Hc s. apply in_map_iff in Hc. destruct Hc as [r [<- Hr]]. apply Hnum. exact Hr. }
  rewrite Hd.
  assert (Hc : nth_error (map (fun r => nth j r Pd.CNone) (Pd.rows df)) i
               = Some (nth j row Pd.CNone)).
  { rewrite nth_error_map, Hrow. reflexivity. }
  destruct (divide_all_nth _ _ Hd i _ Hc) as [c' [Hdiv Hc']].
  assert (Hlen : (j < List.length row)%nat).
  { apply nth_not_default. intro E. rewrite E in H288. discriminate. }
  assert (Hval : c' = Pd.CFloat 2%float).
  { destruct (nth j row Pd.CNone) as [s|z|x|]; simpl in *; try discriminate.
    - injection H288 as E. injection Hdiv as <-. rewrite E. reflexivity.
    - destruct (PrimFloat.is_nan x); [discriminate|].
      injection H288 as ->. injection Hdiv as <-. reflexivity. }
  subst c'.
  eexists. exists (Pd.set_nth j (Pd.CFloat 2%float) row).
  split; [reflexivity|].
  unfold Pd.rename, Pd.set_col. rewrite Hj. simpl.
  split; [apply nth_error_set_rows; assumption|].
  split; [apply set_nth_same; exact Hlen|].
  split.
  - rewrite nth_error_map. rewrite (index_of_nth _ _ _ Hj). reflexivity.
  - unfold Pd.has_column.
    change (Pd.columns (Pd.mkDF
              (map (fun c => if String.eqb c area then "Cells" else c) (Pd.columns df))
              (map (fun rv => Pd.set_nth j (snd rv) (fst rv)) (combine (Pd.rows df) cells'))))
      with (map (fun c => if String.eqb c area then "Cells" else c) (Pd.columns df)).
    apply rename_removes. discriminate.
Qed.

(** The theorem at a frame of two rows, the first with the area 288. *)
Lemma C5_area_288_gives_2_witness :
  exists (df' : Pd.DataFrame) (row' : list Pd.cell),
    ProcessAreaData.normalise c5_frame = Some df'
    /\ nth_error (Pd.rows df') 0 = Some row'
    /\ nth 1 row' Pd.CNone = Pd.CFloat 2%float
    /\ nth_error (Pd.columns df') 1 = Some "Cells"
    /\ Pd.has_column df' area = false.
Proof.
  apply (C5_area_288_gives_2 c5_frame 1 0
           [Pd.CStr "X_Day5_FITC_Tile-0_C4.tif"; Pd.CInt 288]).
  - reflexivity.
  - simpl. intros r [<-|[<-|[]]] s; simpl; discriminate.
  - reflexivity.
  - reflexivity.
Defined.

(** C6. For a file whose frame lacks the column 'Area µm^2',
    [process_csv_file] returns False, prints the warning and leaves every
    file as it was; the loop of [main] counts one failure and goes on with
    the remaining files. *)
Theorem C6_missing_column_is_skipped :
  forall (read_csv : string -> option Pd.DataFrame) (linesep : string)
         (float_repr : float -> string) (output_path_of : string -> string)
         (w : ProcessAreaData.World) (file_path bytes : string) (df : Pd.DataFrame),
    ProcessAreaData.files w file_path = Some bytes ->
    read_csv bytes = Some df ->
    Pd.has_column df area = false ->
    (forall output_path,
       ProcessAreaData.process_csv_file read_csv linesep float_repr w file_path output_path
       = (false, ProcessAreaData.mkWorld (ProcessAreaData.files w)
                   (ProcessAreaData.stdout w ++ [warning file_path])))
    /\
    (forall (rest : list string) (successful failed : nat),
       ProcessAreaData.process_all read_csv linesep float_repr output_path_of
         w (file_path :: rest) successful failed
       = ProcessAreaData.process_all read_csv linesep float_repr output_path_of
           (ProcessAreaData.mkWorld (ProcessAreaData.files w)
              (ProcessAreaData.stdout w ++ [warning file_path]))
           rest successful (S failed)).
Proof.
  intros read_csv linesep float_repr output_path_of w file_path bytes df Hf Hr Hc.
  assert (H : forall output_path,
             ProcessAreaData.process_csv_file read_csv linesep float_repr w file_path output_path
             = (false, ProcessAreaData.mkWorld (ProcessAreaData.files w)
                         (ProcessAreaData.stdout w ++ [warning file_path]))).
  { intro output_path. unfold ProcessAreaData.process_csv_file.
    rewrite Hf, Hr. fold area. rewrite Hc. reflexivity. }
  split; [exact H|].
  intros rest successful failed. simpl. rewrite H. reflexivity.
Qed.

(** The theorem at a file that holds the columns Image and Cells only. *)
Lemma C6_missing_column_is_skipped_witness :
  (forall output_path,
     ProcessAreaData.process_csv_file (fun _ => Some c6_frame) Csv.crlf (fun _ => EmptyString)
       c6_world "Datasets/a.csv" output_path
     = (false, ProcessAreaData.mkWorld (ProcessAreaData.files c6_world)
                 (ProcessAreaData.stdout c6_world ++ [warning "Datasets/a.csv"])))
  /\
  (forall (rest : list string) (successful failed : nat),
     ProcessAreaData.process_all (fun _ => Some c6_frame) Csv.crlf (fun _ => EmptyString)
       (fun p => p) c6_world ("Datasets/a.csv" :: rest) successful failed
     = ProcessAreaData.process_all (fun _ => Some c6_frame) Csv.crlf (fun _ => EmptyString)
         (fun p => p)
         (ProcessAreaData.mkWorld (ProcessAreaData.files c6_world)
            (ProcessAreaData.stdout c6_world ++ [warning "Datasets/a.csv"]))
         rest successful (S failed)).
Proof.
  apply (C6_missing_column_is_skipped (fun _ => Some c6_frame) Csv.crlf (fun _ => EmptyString)
           (fun p => p) c6_world "Datasets/a.csv" "Image,Cells" c6_frame).
  - reflexivity.
  - reflexivity.
  - reflexivity.
Defined.

(** ** C8: only the header row changes *)

Lemma rows_eqb_eq (a b : list string) : FixProcessedHeaders.rows_eqb a b = true <-> a = b.
Proof.
  unfold FixProcessedHeaders.rows_eqb. revert b.
  induction a as [|x a IH]; intros [|y b]; simpl; split; intro H;
    try reflexivity; try discriminate.
  - apply andb_prop in H. destruct H as [Hl H].
    apply andb_prop in H. destruct H as [Hxy H].
    apply String.eqb_eq in Hxy. subst y. f_equal.
    apply IH. rewrite Hl, H. reflexivity.
  - injection H as -> ->. rewrite String.eqb_refl. simpl.
    apply (proj2 (IH b) eq_refl).
Qed.

Lemma rename_fixpoint (h : string) :
  FixProcessedHeaders.rename h = h
  <-> Py.lookup String.eqb h FixProcessedHeaders.RENAMES = None.
Proof.
  unfold FixProcessedHeaders.rename.
  destruct (Py.lookup String.eqb h FixProcessedHeaders.RENAMES) as [h'|] eqn:E.
  - split; [|discriminate]. intro H. subst h'. exfalso. revert E.
    unfold FixProcessedHeaders.RENAMES. simpl.
    repeat match goal with
           | |- context [String.eqb h ?k] =>
               let Ek := fresh "Ek" in
               destruct (String.eqb h k) eqn:Ek;
               [apply String.eqb_eq in Ek; subst h; discriminate|]
           end.
    discriminate.
  - split; reflexivity.
Qed.

Lemma map_rename_fixpoint (header : list string) :
  map FixProcessedHeaders.rename header = header
  <-> (forall h, In h header ->
         Py.lookup String.eqb h FixProcessedHeaders.RENAMES = None).
Proof.
  induction header as [|x header IH]; simpl.
  - split; [intros _ h []|reflexivity].
  - split.
    + intros H h [<-|Hin].
      * apply rename_fixpoint. congruence.
      * apply IH; [congruence|exact Hin].
    + intro H. f_equal.
      * apply rename_fixpoint. apply H. left. reflexivity.
      * apply IH. intros h Hin. apply H. right. exact Hin.
Qed.

Lemma fs_write_other (fs : FS) (path bytes q : string) :
  q <> path -> fs_write fs path bytes q = fs q.
Proof.
  intro H. unfold fs_write. apply String.eqb_neq in H. rewrite H. reflexivity.
Qed.

Lemma fs_write_same (fs : FS) (path bytes : string) :
  fs_write fs path bytes path = Some bytes.
Proof. unfold fs_write. rewrite String.eqb_refl. reflexivity. Qed.

(** ** The csv writer and reader: what is written reads back *)

Lemma append_assoc (a b c : string) : (a +++ b) +++ c = a +++ (b +++ c).
Proof. induction a as [|x a IH]; simpl; [reflexivity|]. rewrite IH. reflexivity. Qed.

Lemma append_empty_r (a : string) : a +++ EmptyString = a.
Proof. induction a as [|x a IH]; simpl; [reflexivity|]. rewrite IH. reflexivity. Qed.

Lemma feed_cons (c : ascii) (rest : string) (pending : bool) (p : Csv.parser) :
  Csv.feed (String c rest) pending p
  = if Ascii.eqb c Csv.lf then Csv.feed rest false (Csv.process_eol (Csv.process_char c p))
    else if Ascii.eqb c Csv.cr then
      match rest with
      | String c2 _ =>
          if Ascii.eqb c2 Csv.lf then Csv.feed rest true (Csv.process_char c p)
          else Csv.feed rest false (Csv.process_eol (Csv.process_char c p))
      | EmptyString => Csv.feed rest false (Csv.process_eol (Csv.process_char c p))
      end
    else Csv.feed rest true (Csv.process_char c p).
Proof. reflexivity. Qed.

Lemma special_false (c : ascii) :
  Csv.special Csv.crlf c = false ->
  Ascii.eqb c Csv.comma = false /\ Ascii.eqb c Csv.dquote = false
  /\ Ascii.eqb c Csv.cr = false /\ Ascii.eqb c Csv.lf = false.
Proof.
  unfold Csv.special, Csv.crlf. simpl. intro H.
  apply orb_false_elim in H. destruct H as [H H3].
  apply orb_false_elim in H. destruct H as [H1 H2].
  apply orb_false_elim in H3. destruct H3 as [H3 H4].
  apply orb_false_elim in H4. destruct H4 as [H4 _].
  repeat split; assumption.
Qed.

(** An unquoted field is read character by character. *)
Lemma feed_plain (f rest : string) :
  Csv.needs_quote Csv.crlf f = false ->
  forall (pending : bool) (s : Csv.state) (g : string) (fs : list string)
         (rs : list (list string)),
    (s = Csv.START_RECORD \/ s = Csv.START_FIELD \/ s = Csv.IN_FIELD) ->
    Csv.feed (f +++ rest) pending (Csv.mkParser s g fs rs)
    = match f with
      | EmptyString => Csv.feed rest pending (Csv.mkParser s g fs rs)
      | _ => Csv.feed rest true (Csv.mkParser Csv.IN_FIELD (g +++ f) fs rs)
      end.
Proof.
  induction f as [|c f IH]; intros Hq pending s g fs rs Hs; [reflexivity|].
  simpl in Hq. apply orb_false_elim in Hq. destruct Hq as [Hc Hq].
  apply special_false in Hc. destruct Hc as [H1 [H2 [H3 H4]]].
  change (String c f +++ rest) with (String c (f +++ rest)).
  rewrite feed_cons, H4, H3.
  assert (Hp : Csv.process_char c (Csv.mkParser s g fs rs)
               = Csv.mkParser Csv.IN_FIELD (g +++ String c EmptyString) fs rs).
  { unfold Csv.process_char, Csv.is_newline. simpl.
    destruct Hs as [->|[->| ->]]; rewrite ?H4, ?H3, ?H2, ?H1; reflexivity. }
  rewrite Hp, (IH Hq true Csv.IN_FIELD _ fs rs (or_intror (or_intror eq_refl))).
  destruct f; [reflexivity|].
  rewrite append_assoc. reflexivity.
Qed.

(** The text of a quoted field, up to its closing quote. *)

Arguments Csv.feed : simpl never.

Lemma feed_after_cr (t : string) (p q : Csv.parser) :
  match t with
  | String c2 _ => if Ascii.eqb c2 Csv.lf then Csv.feed t true p else Csv.feed t false q
  | EmptyString => Csv.feed t false q
  end
  = if match t with String c2 _ => Ascii.eqb c2 Csv.lf | EmptyString => false end
    then Csv.feed t true p else Csv.feed t false q.
Proof. destruct t as [|c2 t]; [reflexivity|]. destruct (Ascii.eqb c2 Csv.lf); reflexivity. Qed.

Lemma feed_quoted (f rest : string) :
  forall (pending : bool) (g : string) (fs : list string) (rs : list (list string)),
    Csv.feed (Csv.escape f +++ String Csv.dquote rest) pending
      (Csv.mkParser Csv.IN_QUOTED_FIELD g fs rs)
    = Csv.feed rest true (Csv.mkParser Csv.QUOTE_IN_QUOTED_FIELD (g +++ f) fs rs).
Proof.
  induction f as [|c f IH]; intros pending g fs rs.
  - change (Csv.escape EmptyString +++ String Csv.dquote rest) with (String Csv.dquote rest).
    rewrite feed_cons. rewrite append_empty_r. reflexivity.
  - cbn [Csv.escape]. destruct (Ascii.eqb c Csv.dquote) eqn:Eq.
    + apply Ascii.eqb_eq in Eq. subst c.
      change (String Csv.dquote (String Csv.dquote (Csv.escape f)) +++ String Csv.dquote rest)
        with (String Csv.dquote (String Csv.dquote (Csv.escape f +++ String Csv.dquote rest))).
      rewrite feed_cons.
      change (Ascii.eqb Csv.dquote Csv.lf) with false.
      change (Ascii.eqb Csv.dquote Csv.cr) with false. cbv iota.
      rewrite feed_cons.
      change (Ascii.eqb Csv.dquote Csv.lf) with false.
      change (Ascii.eqb Csv.dquote Csv.cr) with false. cbv iota.
      change (Csv.process_char Csv.dquote
               (Csv.process_char Csv.dquote (Csv.mkParser Csv.IN_QUOTED_FIELD g fs rs)))
        with (Csv.mkParser Csv.IN_QUOTED_FIELD (g +++ String Csv.dquote EmptyString) fs rs).
      rewrite IH. rewrite append_assoc. reflexivity.
    + change (String c (Csv.escape f) +++ String Csv.dquote rest)
        with (String c (Csv.escape f +++ String Csv.dquote rest)).
      rewrite feed_cons.
      assert (Hp : Csv.process_char c (Csv.mkParser Csv.IN_QUOTED_FIELD g fs rs)
                   = Csv.mkParser Csv.IN_QUOTED_FIELD (g +++ String c EmptyString) fs rs).
      { unfold Csv.process_char. simpl. rewrite Eq. reflexivity. }
      rewrite Hp.
      assert (He : Csv.process_eol (Csv.mkParser Csv.IN_QUOTED_FIELD
                                      (g +++ String c EmptyString) fs rs)
                   = Csv.mkParser Csv.IN_QUOTED_FIELD (g +++ String c EmptyString) fs rs)
        by reflexivity.
      rewrite He.
      assert (Hall : forall b, Csv.feed (Csv.escape f +++ String Csv.dquote rest) b
                       (Csv.mkParser Csv.IN_QUOTED_FIELD (g +++ String c EmptyString) fs rs)
                     = Csv.feed rest true
                         (Csv.mkParser Csv.QUOTE_IN_QUOTED_FIELD (g +++ String c f) fs rs)).
      { intro b. rewrite IH, append_assoc. reflexivity. }
      destruct (Ascii.eqb c Csv.lf); [apply Hall|].
      destruct (Ascii.eqb c Csv.cr); [|apply Hall].
      rewrite feed_after_cr.
      match goal with |- (if ?b then _ else _) = _ => destruct b end; apply Hall.
Qed.

Lemma feed_field_comma (f rest : string) (b : bool) (s : Csv.state)
    (fs : list string) (rs : list (list string)) :
  s = Csv.START_RECORD \/ s = Csv.START_FIELD ->
  Csv.feed (Csv.field Csv.crlf f +++ String Csv.comma rest) b
    (Csv.mkParser s EmptyString fs rs)
  = Csv.feed rest true (Csv.mkParser Csv.START_FIELD EmptyString (f :: fs) rs).
Proof.
  intro Hs. unfold Csv.field. destruct (Csv.needs_quote Csv.crlf f) eqn:Eq.
  - change (String Csv.dquote (Csv.escape f +++ String Csv.dquote EmptyString)
            +++ String Csv.comma rest)
      with (String Csv.dquote ((Csv.escape f +++ String Csv.dquote EmptyString)
                               +++ String Csv.comma rest)).
    rewrite append_assoc.
    change (String Csv.dquote EmptyString +++ String Csv.comma rest)
      with (String Csv.dquote (String Csv.comma rest)).
    rewrite feed_cons.
    change (Ascii.eqb Csv.dquote Csv.lf) with false.
    change (Ascii.eqb Csv.dquote Csv.cr) with false. cbv iota.
    assert (Hp : Csv.process_char Csv.dquote (Csv.mkParser s EmptyString fs rs)
                 = Csv.mkParser Csv.IN_QUOTED_FIELD EmptyString fs rs)
      by (destruct Hs as [->| ->]; reflexivity).
    rewrite Hp, feed_quoted, feed_cons. reflexivity.
  - rewrite (feed_plain f _ Eq b s EmptyString fs rs)
      by (destruct Hs as [->| ->]; auto).
    destruct f as [|c f].
    + rewrite feed_cons. destruct Hs as [->| ->]; reflexivity.
    + rewrite feed_cons. reflexivity.
Qed.

Lemma feed_field_crlf (f rest : string) (b : bool) (s : Csv.state)
    (fs : list string) (rs : list (list string)) :
  s = Csv.START_FIELD \/ (s = Csv.START_RECORD /\ f <> EmptyString) ->
  Csv.feed (Csv.field Csv.crlf f +++ Csv.crlf +++ rest) b
    (Csv.mkParser s EmptyString fs rs)
  = Csv.feed rest false
      (Csv.mkParser Csv.START_RECORD EmptyString [] (rev (f :: fs) :: rs)).
Proof.
  intro Hs.
  change (Csv.crlf +++ rest) with (String Csv.cr (String Csv.lf rest)).
  unfold Csv.field. destruct (Csv.needs_quote Csv.crlf f) eqn:Eq.
  - change (String Csv.dquote (Csv.escape f +++ String Csv.dquote EmptyString)
            +++ String Csv.cr (String Csv.lf rest))
      with (String Csv.dquote ((Csv.escape f +++ String Csv.dquote EmptyString)
                               +++ String Csv.cr (String Csv.lf rest))).
    rewrite append_assoc.
    change (String Csv.dquote EmptyString +++ String Csv.cr (String Csv.lf rest))
      with (String Csv.dquote (String Csv.cr (String Csv.lf rest))).
    rewrite feed_cons.
    change (Ascii.eqb Csv.dquote Csv.lf) with false.
    change (Ascii.eqb Csv.dquote Csv.cr) with false. cbv iota.
    assert (Hp : Csv.process_char Csv.dquote (Csv.mkParser s EmptyString fs rs)
                 = Csv.mkParser Csv.IN_QUOTED_FIELD EmptyString fs rs)
      by (destruct Hs as [->|[-> _]]; reflexivity).
    rewrite Hp, feed_quoted, feed_cons. simpl. rewrite feed_cons. reflexivity.
  - assert (Hs' : s = Csv.START_RECORD \/ s = Csv.START_FIELD \/ s = Csv.IN_FIELD)
      by (destruct Hs as [->|[-> _]]; auto).
    rewrite (feed_plain f _ Eq b s EmptyString fs rs Hs').
    destruct f as [|c f].
    + destruct Hs as [->|[_ Hf]]; [|congruence].
      rewrite feed_cons. simpl. rewrite feed_cons. reflexivity.
    + rewrite feed_cons. simpl. rewrite feed_cons. reflexivity.
Qed.

Lemma feed_fields (fs : list string) :
  forall (f rest : string) (b : bool) (s : Csv.state) (done : list string)
         (rs : list (list string)),
    s = Csv.START_FIELD \/ (s = Csv.START_RECORD /\ (f <> EmptyString \/ fs <> [])) ->
    Csv.feed (Csv.join (String Csv.comma EmptyString) (map (Csv.field Csv.crlf) (f :: fs))
              +++ Csv.crlf +++ rest) b
      (Csv.mkParser s EmptyString done rs)
    = Csv.feed rest false
        (Csv.mkParser Csv.START_RECORD EmptyString [] ((rev done ++ f :: fs) :: rs)).
Proof.
  induction fs as [|g fs IH]; intros f rest b s done rs Hs.
  - simpl map. simpl Csv.join. rewrite feed_field_crlf.
    + simpl. reflexivity.
    + destruct Hs as [->|[-> [H|H]]]; auto; congruence.
  - change (Csv.join (String Csv.comma EmptyString) (map (Csv.field Csv.crlf) (f :: g :: fs)))
      with (Csv.field Csv.crlf f +++ String Csv.comma EmptyString
            +++ Csv.join (String Csv.comma EmptyString) (map (Csv.field Csv.crlf) (g :: fs))).
    rewrite !append_assoc.
    change (String Csv.comma EmptyString
            +++ Csv.join (String Csv.comma EmptyString) (map (Csv.field Csv.crlf) (g :: fs))
            +++ Csv.crlf +++ rest)
      with (String Csv.comma
              (Csv.join (String Csv.comma EmptyString) (map (Csv.field Csv.crlf) (g :: fs))
               +++ Csv.crlf +++ rest)).
    rewrite feed_field_comma by (destruct Hs as [->|[-> _]]; auto).
    rewrite IH by auto.
    simpl. rewrite <- app_assoc. reflexivity.
Qed.

Lemma feed_row (r : list string) (rest : string) (rs : list (list string)) :
  Csv.feed (Csv.writerow r +++ rest) false (Csv.mkParser Csv.START_RECORD EmptyString [] rs)
  = Csv.feed rest false (Csv.mkParser Csv.START_RECORD EmptyString [] (r :: rs)).
Proof.
  unfold Csv.writerow, Csv.writerow_with.
  destruct r as [|f fs].
  - simpl. rewrite feed_cons. simpl. rewrite feed_cons. reflexivity.
  - destruct f as [|c f].
    + destruct fs as [|g fs].
      * simpl. rewrite feed_cons. simpl. rewrite feed_cons. simpl.
        rewrite feed_cons. simpl. rewrite feed_cons. reflexivity.
      * rewrite append_assoc.
        apply (feed_fields (g :: fs) EmptyString rest false Csv.START_RECORD [] rs).
        right. split; [reflexivity|]. right. discriminate.
    + rewrite append_assoc.
      apply (feed_fields fs (String c f) rest false Csv.START_RECORD [] rs).
      right. split; [reflexivity|]. left. discriminate.
Qed.

Lemma feed_rows (rows : list (list string)) :
  forall rs,
    Csv.feed (Csv.writerows rows) false (Csv.mkParser Csv.START_RECORD EmptyString [] rs)
    = Csv.mkParser Csv.START_RECORD EmptyString [] (rev rows ++ rs).
Proof.
  induction rows as [|r rows IH]; intro rs.
  - reflexivity.
  - change (Csv.writerows (r :: rows)) with (Csv.writerow r +++ Csv.writerows rows).
    rewrite feed_row, IH. simpl. rewrite <- app_assoc. reflexivity.
Qed.

Theorem reader_writerows (rows : list (list string)) :
  Csv.reader (Csv.writerows rows) = rows.
Proof.
  unfold Csv.reader, Csv.init. rewrite feed_rows. simpl.
  rewrite app_nil_r. apply rev_involutive.
Qed.

Lemma reader_header_rows (header : list string) (data : list (list string)) :
  Csv.reader (Csv.writerow header +++ Csv.writerows data) = header :: data.
Proof. apply (reader_writerows (header :: data)). Qed.

Lemma decode_encode (text : string) :
  Codec.valid_utf8 text = true ->
  Codec.decode_utf8_sig (Codec.encode_utf8_sig text) = Some text.
Proof.
  intro H. unfold Codec.decode_utf8_sig, Codec.encode_utf8_sig.
  change (Codec.valid_utf8 (Codec.BOM +++ text)) with (Codec.valid_utf8 text).
  rewrite H. reflexivity.
Qed.

(** C8. [rewrite_csv_headers] leaves every other file as it is; when it
    returns False it leaves all files as they are; when it returns True the
    file holds, behind the byte-order mark, a text that the csv reader
    reads as the renamed header followed by the data rows of the old file,
    the same values in the same order; and when no name of the header is a
    key of RENAMES it returns False and writes nothing. *)
Theorem C8_only_the_header_changes :
  forall (fs : FS) (path : string),
    (forall q, q <> path -> snd (fst (FixProcessedHeaders.rewrite_csv_headers fs path)) q = fs q)
    /\ (fst (fst (FixProcessedHeaders.rewrite_csv_headers fs path)) = false ->
        snd (fst (FixProcessedHeaders.rewrite_csv_headers fs path)) = fs)
    /\ (fst (fst (FixProcessedHeaders.rewrite_csv_headers fs path)) = true ->
        exists (bytes text : string) (header : list string) (data : list (list string))
               (new_text : string),
          fs path = Some bytes
          /\ Codec.decode_utf8_sig bytes = Some text
          /\ Csv.reader text = header :: data
          /\ snd (fst (FixProcessedHeaders.rewrite_csv_headers fs path)) path
             = Some (Codec.encode_utf8_sig new_text)
          /\ Csv.reader new_text = map FixProcessedHeaders.rename header :: data)
    /\ (forall (bytes text : string) (header : list string) (data : list (list string)),
          fs path = Some bytes ->
          Codec.decode_utf8_sig bytes = Some text ->
          Csv.reader text = header :: data ->
          (forall h, In h header ->
             Py.lookup String.eqb h FixProcessedHeaders.RENAMES = None) ->
          FixProcessedHeaders.rewrite_csv_headers fs path = (false, fs, [])).
Proof.
  intros fs path. unfold FixProcessedHeaders.rewrite_csv_headers.
  destruct (fs path) as [bytes|] eqn:Ef.
  2:{ simpl. repeat split; intros; try reflexivity; congruence. }
  destruct (Codec.decode_utf8_sig bytes) as [text|] eqn:Ed.
  2:{ simpl. repeat split; intros; try reflexivity; congruence. }
  destruct (Csv.reader text) as [|header data] eqn:Er.
  { simpl. repeat split; intros; try reflexivity; congruence. }
  destruct (FixProcessedHeaders.rows_eqb (map FixProcessedHeaders.rename header) header) eqn:Eh.
  - simpl. repeat split; intros; try reflexivity; congruence.
  - simpl. repeat split.
    + intros q Hq. apply fs_write_other. exact Hq.
    + discriminate.
    + intros _. exists bytes, text, header, data.
      exists (Csv.writerow (map FixProcessedHeaders.rename header) +++ Csv.writerows data).
      split; [reflexivity|]. split; [exact Ed|]. split; [exact Er|].
      split; [apply fs_write_same|apply reader_header_rows].
    + intros bytes' text' header' data' Hb Ht Hr Hno.
      injection Hb as <-. rewrite Ed in Ht. injection Ht as <-.
      rewrite Er in Hr. injection Hr as <- <-.
      apply map_rename_fixpoint in Hno.
      apply rows_eqb_eq in Hno. congruence.
Qed.

(** The theorem at a file with the header Image, Area µm^2 (rewritten) and
    at a file with the header Image, Cells (left alone). *)
Lemma C8_only_the_header_changes_witness :
  (exists (bytes text : string) (header : list string) (data : list (list string))
          (new_text : string),
     c8_fs "Processed_Datasets/a.csv" = Some bytes
     /\ Codec.decode_utf8_sig bytes = Some text
     /\ Csv.reader text = header :: data
     /\ snd (fst (FixProcessedHeaders.rewrite_csv_headers c8_fs "Processed_Datasets/a.csv"))
          "Processed_Datasets/a.csv"
        = Some (Codec.encode_utf8_sig new_text)
     /\ Csv.reader new_text = map FixProcessedHeaders.rename header :: data)
  /\ FixProcessedHeaders.rewrite_csv_headers c8_fs_cells "Processed_Datasets/a.csv"
     = (false, c8_fs_cells, []).
Proof.
  split.
  - apply (proj1 (proj2 (proj2 (C8_only_the_header_changes c8_fs "Processed_Datasets/a.csv")))).
    vm_compute. reflexivity.
  - apply (proj2 (proj2 (proj2 (C8_only_the_header_changes c8_fs_cells
                                  "Processed_Datasets/a.csv")))
             (Codec.encode_utf8_sig (Csv.writerows [["Image"; "Cells"]; ["x_A1.tif"; "2.5"]]))
             (Csv.writerows [["Image"; "Cells"]; ["x_A1.tif"; "2.5"]])
             ["Image"; "Cells"] [["x_A1.tif"; "2.5"]]).
    + reflexivity.
    + vm_compute. reflexivity.
    + vm_compute. reflexivity.
    + intros h [<-|[<-|[]]]; reflexivity.
Defined.

(** ** C7: the encoding and the header row of the files written *)

(** C7 as stated fails in split_seeding_data.py: the 20k file written for a
    frame of one C4 row does not start with the byte-order mark. *)
Lemma C7_to_csv_writes_no_bom :
  option_map
    (fun p => (Pd.rows (fst p),
               Py.startswith Codec.BOM (Pd.to_csv Csv.crlf (fun _ => EmptyString) (fst p)),
               Py.startswith "Image,Cells" (Pd.to_csv Csv.crlf (fun _ => EmptyString) (fst p))))
    (SplitSeedingData.split_csv_by_wells c7_frame (["C4"; "C5"; "C6"], ["D4"; "D5"; "D6"]))
  = Some ([[Pd.CStr "X_Day1_FITC_Tile-0_C4.tif"; Pd.CInt 3]], false, true).
Proof. vm_compute. reflexivity. Qed.

Lemma field_head (linesep : string) (c : ascii) (name : string) :
  exists c' t, Csv.field linesep (String c name) = String c' t /\ (c' = c \/ c' = Csv.dquote).
Proof.
  unfold Csv.field. destruct (Csv.needs_quote linesep (String c name)).
  - eexists. eexists. split; [reflexivity|right; reflexivity].
  - eexists. eexists. split; [reflexivity|left; reflexivity].
Qed.

Lemma join_head (sep : string) (c : ascii) (t : string) (l : list string) :
  exists t', Csv.join sep (String c t :: l) = String c t'.
Proof. destruct l; simpl; eexists; reflexivity. Qed.

Lemma startswith_bom_head (c : ascii) (t : string) :
  Ascii.eqb (Py.chr 239) c = false -> Py.startswith Codec.BOM (String c t) = false.
Proof.
  intro H. unfold Codec.BOM. cbn [Py.startswith]. rewrite H. reflexivity.
Qed.

Lemma to_csv_starts_with_first_column (linesep : string) (float_repr : float -> string)
    (c : ascii) (name : string) (cols : list string) (rows : list (list Pd.cell)) :
  Ascii.eqb (Py.chr 239) c = false ->
  Py.startswith Codec.BOM
    (Pd.to_csv linesep float_repr (Pd.mkDF (String c name :: cols) rows)) = false.
Proof.
  intro Hc. unfold Pd.to_csv, Codec.encode_utf8, Pd.to_csv_text.
  assert (E : Csv.writerow_with linesep (Pd.columns (Pd.mkDF (String c name :: cols) rows))
              = Csv.join (String Csv.comma EmptyString)
                  (Csv.field linesep (String c name) :: map (Csv.field linesep) cols)
                +++ linesep) by reflexivity.
  rewrite E.
  destruct (field_head linesep c name) as [c' [t [Ef Hc']]].
  rewrite Ef.
  destruct (join_head (String Csv.comma EmptyString) c' t (map (Csv.field linesep) cols))
    as [t' Ej].
  rewrite Ej.
  change ((String c' t' +++ linesep) +++
          Csv.writerows_with linesep
            (map (map (Pd.format_cell float_repr)) (Pd.rows (Pd.mkDF (String c name :: cols) rows))))
    with (String c' ((t' +++ linesep) +++
          Csv.writerows_with linesep
            (map (map (Pd.format_cell float_repr)) (Pd.rows (Pd.mkDF (String c name :: cols) rows))))).
  apply startswith_bom_head.
  destruct Hc' as [->| ->]; [exact Hc|reflexivity].
Qed.

(** C7, amended. The files written through the csv module
    (compute_sample_averages, compute_group_day_averages,
    split_untreated_monoculture, fix_processed_headers) start with the
    byte-order mark and then the header row: the fixed names of the keys
    and statistics in the two averaging scripts, the first header read in
    the splitter, the renamed header in the header fixer.  The files written
    through pandas [to_csv] are the UTF-8 text itself, which starts with
    the row of the frame's column names; for the two averaging frames these
    are fixed names and the file does not start with a byte-order mark. *)
Theorem C7_encoding_and_header :
  (forall (mean stdev : list float -> float) (py_float : string -> option float)
          (fmt6 : float -> string) (input : string) (n : nat) (bytes : string),
     ComputeSampleAverages.per_day_sample_stats mean stdev py_float fmt6 input
       = Some (n, Some bytes) ->
     exists body,
       bytes = Codec.BOM +++ Csv.writerow ComputeSampleAverages.header_row +++ body)
  /\
  (forall (mean stdev : list float -> float) (py_int : string -> option Z)
          (py_float : string -> option float) (fmt6 : float -> string)
          (input bytes : string),
     ComputeGroupDayAverages.write_day_averages mean stdev py_int py_float fmt6 input
       = Some bytes ->
     exists body,
       bytes = Codec.BOM +++ Csv.writerow ComputeGroupDayAverages.header_row +++ body)
  /\
  (forall (files : list string) (outs : list (SplitUntreatedMonoculture.Bucket * string))
          (k : SplitUntreatedMonoculture.Bucket) (bytes : string),
     SplitUntreatedMonoculture.split_csvs files = Some outs ->
     In (k, bytes) outs ->
     exists parsed header body,
       SplitUntreatedMonoculture.decode_all files = Some parsed
       /\ fst (SplitUntreatedMonoculture.collect parsed) = Some header
       /\ bytes = Codec.BOM +++ Csv.writerow header +++ body)
  /\
  (forall (fs : FS) (path : string),
     fst (fst (FixProcessedHeaders.rewrite_csv_headers fs path)) = true ->
     exists bytes text header data body,
       fs path = Some bytes
       /\ Codec.decode_utf8_sig bytes = Some text
       /\ Csv.reader text = header :: data
       /\ snd (fst (FixProcessedHeaders.rewrite_csv_headers fs path)) path
          = Some (Codec.BOM +++ Csv.writerow (map FixProcessedHeaders.rename header) +++ body))
  /\
  (forall (linesep : string) (float_repr : float -> string) (df : Pd.DataFrame),
     exists body,
       Pd.to_csv linesep float_repr df
       = Csv.writerow_with linesep (Pd.columns df) +++ body)
  /\
  (forall (linesep : string) (float_repr : float -> string) (df out : Pd.DataFrame),
     CreateAverages.create_day_averages df = Some out ->
     Pd.columns out = day_averages_columns
     /\ Py.startswith Codec.BOM (Pd.to_csv linesep float_repr out) = false)
  /\
  (forall (linesep : string) (float_repr : float -> string)
          (stats : list CreateDayAverages.DayStat),
     Pd.columns (CreateDayAverages.frame stats) = day_stats_columns
     /\ Py.startswith Codec.BOM
          (Pd.to_csv linesep float_repr (CreateDayAverages.frame stats)) = false).
Proof.
  split; [|split; [|split; [|split; [|split; [|split]]]]].
  - intros mean stdev py_float fmt6 input n bytes H.
    unfold ComputeSampleAverages.per_day_sample_stats in H.
    destruct (Codec.decode_utf8_sig input) as [text|]; [|discriminate].
    destruct (Csv.reader text) as [|[|h0 h] data]; try discriminate.
    injection H as _ <-. eexists. reflexivity.
  - intros mean stdev py_int py_float fmt6 input bytes H.
    unfold ComputeGroupDayAverages.write_day_averages in H.
    destruct (Codec.decode_utf8_sig input) as [text|]; [|discriminate].
    injection H as <-. eexists. reflexivity.
  - intros files outs k bytes H Hin.
    unfold SplitUntreatedMonoculture.split_csvs in H.
    destruct (SplitUntreatedMonoculture.decode_all files) as [parsed|]; [|discriminate].
    destruct (SplitUntreatedMonoculture.collect parsed) as [[header|] buckets] eqn:Ec.
    + assert (Ho : outs = map (fun k => (k, SplitUntreatedMonoculture.out_bytes header
                                            (SplitUntreatedMonoculture.sorted_rows buckets k)))
                            SplitUntreatedMonoculture.outputs) by congruence.
      rewrite Ho in Hin. apply in_map_iff in Hin. destruct Hin as [k' [E _]].
      injection E as <- <-.
      exists parsed, header. eexists. split; [reflexivity|].
      split; [rewrite Ec; reflexivity|reflexivity].
    + injection H as <-. destruct Hin.
  - intros fs path H.
    revert H. unfold FixProcessedHeaders.rewrite_csv_headers.
    destruct (fs path) as [bytes|] eqn:Ef; [|discriminate].
    destruct (Codec.decode_utf8_sig bytes) as [text|] eqn:Ed; [|discriminate].
    destruct (Csv.reader text) as [|header data] eqn:Er; [discriminate|].
    destruct (FixProcessedHeaders.rows_eqb _ header); [discriminate|].
    intros _. exists bytes, text, header, data. eexists.
    split; [reflexivity|]. split; [exact Ed|]. split; [exact Er|].
    simpl. rewrite fs_write_same. reflexivity.
  - intros linesep float_repr df. eexists. reflexivity.
  - intros linesep float_repr df out H.
    unfold CreateAverages.create_day_averages in H.
    destruct (Pd.col df "Image") as [images|]; [|discriminate].
    destruct (Pd.apply_str CreateAverages.day_of images); [|discriminate].
    destruct (Pd.apply_str CreateAverages.tile_of images); [|discriminate].
    destruct (Pd.apply_str CreateAverages.well_of images); [|discriminate].
    destruct (Pd.col df (CreateAverages.value_col df)) as [cells|]; [|discriminate].
    destruct (Pd.numbers cells); [|discriminate].
    injection H as <-. split; [reflexivity|].
    apply to_csv_starts_with_first_column. reflexivity.
  - intros linesep float_repr stats. split; [reflexivity|].
    apply to_csv_starts_with_first_column. reflexivity.
Qed.

(** The theorem at a file of one tile of well A2 and at a frame of one tile
    of well C4. *)
Lemma C7_encoding_and_header_witness :
  (exists body,
     c7_sample_bytes = Codec.BOM +++ Csv.writerow ComputeSampleAverages.header_row +++ body)
  /\ (Pd.columns (Pd.mkDF day_averages_columns [[Pd.CInt 5; Pd.CStr "C4"; Pd.CFloat 7; Pd.CInt 1]])
      = day_averages_columns
      /\ Py.startswith Codec.BOM
           (Pd.to_csv Csv.crlf (fun _ => "7.0")
              (Pd.mkDF day_averages_columns [[Pd.CInt 5; Pd.CStr "C4"; Pd.CFloat 7; Pd.CInt 1]]))
         = false).
Proof.
  split.
  - apply (proj1 C7_encoding_and_header Pd.mean Pd.std
             (fun s => Some (Py.float_of_Z (Py.int s))) (fun _ => "0.000000") c7_tiles 1%nat).
    vm_compute. reflexivity.
  - apply (proj1 (proj2 (proj2 (proj2 (proj2 (proj2 C7_encoding_and_header)))))
             Csv.crlf (fun _ => "7.0") c7_image_frame).
    vm_compute. reflexivity.
Defined.

(** ** C3 and C9: the splitters *)

Lemma bucket_eqb_eq (a b : SplitUntreatedMonoculture.Bucket) :
  SplitUntreatedMonoculture.bucket_eqb a b = true <-> a = b.
Proof.
  destruct a as [a1 a2], b as [b1 b2]. unfold SplitUntreatedMonoculture.bucket_eqb. simpl.
  rewrite andb_true_iff, !String.eqb_eq. split.
  - intros [-> ->]. reflexivity.
  - intro H. injection H as -> ->. split; reflexivity.
Qed.

Lemma bucket_eqb_sym (a b : SplitUntreatedMonoculture.Bucket) :
  SplitUntreatedMonoculture.bucket_eqb a b = SplitUntreatedMonoculture.bucket_eqb b a.
Proof.
  unfold SplitUntreatedMonoculture.bucket_eqb.
  rewrite (String.eqb_sym (fst a)), (String.eqb_sym (snd a)). reflexivity.
Qed.

Lemma lookup_append_to (cls k : SplitUntreatedMonoculture.Bucket)
    (row : SplitUntreatedMonoculture.Row)
    (B : list (SplitUntreatedMonoculture.Bucket * list SplitUntreatedMonoculture.Row)) :
  Py.lookup SplitUntreatedMonoculture.bucket_eqb k
    (SplitUntreatedMonoculture.append_to cls row B)
  = option_map
      (fun rows => rows ++ (if SplitUntreatedMonoculture.bucket_eqb cls k then [row] else []))
      (Py.lookup SplitUntreatedMonoculture.bucket_eqb k B).
Proof.
  induction B as [|[k' rows] B IH]; simpl; [reflexivity|].
  destruct (SplitUntreatedMonoculture.bucket_eqb cls k') eqn:E1; simpl.
  - apply bucket_eqb_eq in E1. subst k'.
    rewrite (bucket_eqb_sym cls k).
    destruct (SplitUntreatedMonoculture.bucket_eqb k cls) eqn:E2; simpl; [reflexivity|].
    destruct (Py.lookup SplitUntreatedMonoculture.bucket_eqb k B); simpl;
      [rewrite app_nil_r|]; reflexivity.
  - destruct (SplitUntreatedMonoculture.bucket_eqb k k') eqn:E2; simpl.
    + apply bucket_eqb_eq in E2. subst k'. rewrite E1, app_nil_r. reflexivity.
    + exact IH.
Qed.

Lemma lookup_add_row (n : nat) (k : SplitUntreatedMonoculture.Bucket)
    (row : SplitUntreatedMonoculture.Row)
    (B : list (SplitUntreatedMonoculture.Bucket * list SplitUntreatedMonoculture.Row)) :
  Py.lookup SplitUntreatedMonoculture.bucket_eqb k (SplitUntreatedMonoculture.add_row n B row)
  = option_map (fun rows => rows ++ filter (sel n k) [row])
      (Py.lookup SplitUntreatedMonoculture.bucket_eqb k B).
Proof.
  assert (Hid : forall o : option (list SplitUntreatedMonoculture.Row),
             o = option_map (fun rows => rows ++ []) o).
  { intros [rows|]; simpl; [rewrite app_nil_r|]; reflexivity. }
  unfold SplitUntreatedMonoculture.add_row.
  destruct row as [|image_name rest]; [apply Hid|].
  change (filter (sel n k) [image_name :: rest])
    with (if sel n k (image_name :: rest) then [image_name :: rest] else []).
  unfold sel, accepted, goes_to.
  destruct (List.length (image_name :: rest) =? n)%nat; cbn [negb andb]; [|apply Hid].
  destruct (SplitUntreatedMonoculture.classify_image image_name) as [cls|]; cbn [andb];
    [|apply Hid].
  rewrite lookup_append_to.
  destruct (SplitUntreatedMonoculture.bucket_eqb cls k); reflexivity.
Qed.

Lemma lookup_fold_add_row (n : nat) (k : SplitUntreatedMonoculture.Bucket)
    (data : list SplitUntreatedMonoculture.Row) :
  forall B,
    Py.lookup SplitUntreatedMonoculture.bucket_eqb k
      (fold_left (SplitUntreatedMonoculture.add_row n) data B)
    = option_map (fun rows => rows ++ filter (sel n k) data)
        (Py.lookup SplitUntreatedMonoculture.bucket_eqb k B).
Proof.
  induction data as [|row data IH]; intro B.
  - simpl. destruct (Py.lookup _ k B); simpl; [rewrite app_nil_r|]; reflexivity.
  - simpl fold_left. rewrite IH, lookup_add_row.
    destruct (Py.lookup SplitUntreatedMonoculture.bucket_eqb k B) as [rows|];
      simpl; [|reflexivity].
    rewrite <- app_assoc. destruct (sel n k row); reflexivity.
Qed.

Lemma fold_add_file_spec (files : list (list SplitUntreatedMonoculture.Row)) :
  forall h0 B0,
    fst (fold_left SplitUntreatedMonoculture.add_file files (h0, B0))
    = canonical_header h0 files
    /\ forall k,
         Py.lookup SplitUntreatedMonoculture.bucket_eqb k
           (snd (fold_left SplitUntreatedMonoculture.add_file files (h0, B0)))
         = option_map
             (fun rows => rows ++ filter (sel (cols_of (canonical_header h0 files)) k)
                                    (flat_map (@tl _) files))
             (Py.lookup SplitUntreatedMonoculture.bucket_eqb k B0).
Proof.
  induction files as [|file files IH]; intros h0 B0.
  - simpl. split; [destruct h0; reflexivity|].
    intro k. destruct (Py.lookup _ k B0); simpl; [rewrite app_nil_r|]; reflexivity.
  - destruct file as [|lh data].
    + simpl fold_left. destruct (IH h0 B0) as [H1 H2].
      split.
      * rewrite H1. destruct h0; reflexivity.
      * intro k. rewrite H2. simpl flat_map.
        destruct h0; reflexivity.
    + simpl fold_left.
      set (h := match h0 with Some x => x | None => lh end).
      destruct (IH (Some h) (fold_left (SplitUntreatedMonoculture.add_row (List.length h)) data B0))
        as [H1 H2].
      assert (Hc : canonical_header h0 ((lh :: data) :: files) = Some h)
        by (destruct h0; reflexivity).
      split.
      * rewrite H1, Hc. reflexivity.
      * intro k. rewrite H2, lookup_fold_add_row, Hc. simpl canonical_header. simpl cols_of.
        destruct (Py.lookup SplitUntreatedMonoculture.bucket_eqb k B0) as [rows|];
          simpl; [|reflexivity].
        rewrite <- app_assoc, <- filter_app. reflexivity.
Qed.

Lemma collect_bucket (parsed : list (list SplitUntreatedMonoculture.Row))
    (k : SplitUntreatedMonoculture.Bucket) :
  In k SplitUntreatedMonoculture.outputs ->
  Py.lookup SplitUntreatedMonoculture.bucket_eqb k
    (snd (SplitUntreatedMonoculture.collect parsed))
  = Some (filter (sel (cols_of (fst (SplitUntreatedMonoculture.collect parsed))) k)
            (flat_map (@tl _) parsed)).
Proof.
  intro Hk. unfold SplitUntreatedMonoculture.collect.
  destruct (fold_add_file_spec parsed None SplitUntreatedMonoculture.empty_buckets) as [H1 H2].
  rewrite H2, H1.
  simpl in Hk. destruct Hk as [<-|[<-|[<-|[<-|[]]]]]; reflexivity.
Qed.







Lemma classify_image_outputs (image_name : string) (cls : SplitUntreatedMonoculture.Bucket) :
  SplitUntreatedMonoculture.classify_image image_name = Some cls ->
  In cls SplitUntreatedMonoculture.outputs.
Proof.
  unfold SplitUntreatedMonoculture.classify_image.
  destruct (Re.search true SplitUntreatedMonoculture.WELL_RE image_name) as [m|];
    [|discriminate].
  intro H. injection H as <-.
  unfold SplitUntreatedMonoculture.outputs.
  match goal with |- context [if ?b then "20k" else "30k"] => destruct b end;
    match goal with |- context [if ?b then "A2780Naive" else "A2780cis"] => destruct b end;
    simpl; tauto.
Qed.

Lemma sel_not_accepted (n : nat) (row : SplitUntreatedMonoculture.Row) :
  accepted n row = false -> forall k, sel n k row = false.
Proof. intros H k. unfold sel. rewrite H. reflexivity. Qed.

Lemma sel_accepted (n : nat) (row : SplitUntreatedMonoculture.Row) :
  accepted n row = true ->
  exists cls, In cls SplitUntreatedMonoculture.outputs
              /\ forall k, sel n k row = SplitUntreatedMonoculture.bucket_eqb cls k.
Proof.
  unfold sel, accepted, goes_to. destruct row as [|image_name rest]; [discriminate|].
  destruct (SplitUntreatedMonoculture.classify_image image_name) as [cls|] eqn:E.
  - intro H. exists cls. split; [eapply classify_image_outputs; exact E|].
    intro k. rewrite H. reflexivity.
  - rewrite andb_false_r. discriminate.
Qed.

Lemma partition_outputs (n : nat) (l : list SplitUntreatedMonoculture.Row) :
  Permutation
    (List.concat (map (fun k => filter (sel n k) l) SplitUntreatedMonoculture.outputs))
    (filter (accepted n) l).
Proof.
  unfold SplitUntreatedMonoculture.outputs. cbn [map List.concat].
  induction l as [|row l IH]; [apply perm_nil|].
  cbn [filter]. destruct (accepted n row) eqn:Ea.
  - destruct (sel_accepted n row Ea) as [cls [Hin Hsel]].
    rewrite !Hsel.
    simpl in Hin. destruct Hin as [<-|[<-|[<-|[<-|[]]]]]; cbn.
    + apply perm_skip. exact IH.
    + apply Permutation_sym, Permutation_cons_app, Permutation_sym. exact IH.
    + apply Permutation_sym.
      rewrite app_assoc. apply Permutation_cons_app. rewrite <- app_assoc.
      apply Permutation_sym. exact IH.
    + apply Permutation_sym.
      rewrite !app_assoc. apply Permutation_cons_app. rewrite <- !app_assoc.
      apply Permutation_sym. exact IH.
  - rewrite !(sel_not_accepted n row Ea). exact IH.
Qed.

Lemma sorted_rows_spec (parsed : list (list SplitUntreatedMonoculture.Row))
    (k : SplitUntreatedMonoculture.Bucket) :
  In k SplitUntreatedMonoculture.outputs ->
  SplitUntreatedMonoculture.sorted_rows (snd (SplitUntreatedMonoculture.collect parsed)) k
  = Py.sort SplitUntreatedMonoculture.image_leb
      (filter (sel (cols_of (fst (SplitUntreatedMonoculture.collect parsed))) k)
         (flat_map (@tl _) parsed)).
Proof.
  intro Hk. unfold SplitUntreatedMonoculture.sorted_rows.
  rewrite (collect_bucket parsed k Hk). reflexivity.
Qed.



Lemma split_csvs_files (files : list string)
    (parsed : list (list SplitUntreatedMonoculture.Row))
    (header : SplitUntreatedMonoculture.Row)
    (buckets : list (SplitUntreatedMonoculture.Bucket * list SplitUntreatedMonoculture.Row)) :
  SplitUntreatedMonoculture.decode_all files = Some parsed ->
  SplitUntreatedMonoculture.collect parsed = (Some header, buckets) ->
  exists outs,
    SplitUntreatedMonoculture.split_csvs files = Some outs
    /\ forall k, In k SplitUntreatedMonoculture.outputs ->
         exists text,
           In (k, Codec.encode_utf8_sig text) outs
           /\ Csv.reader text = header :: SplitUntreatedMonoculture.sorted_rows buckets k.
Proof.
  intros Hd Hc. unfold SplitUntreatedMonoculture.split_csvs. rewrite Hd, Hc.
  eexists. split; [reflexivity|].
  intros k Hk.
  exists (Csv.writerow header
          +++ Csv.writerows (SplitUntreatedMonoculture.sorted_rows buckets k)).
  split.
  - apply in_map_iff. exists k. split; [reflexivity|exact Hk].
  - apply reader_header_rows.
Qed.




(** C3, the pandas splitter *)

Lemma apply_str_map (f : string -> Pd.cell) (j : nat) (rows : list (list Pd.cell)) :
  (forall r, In r rows -> exists s, nth j r Pd.CNone = Pd.CStr s) ->
  Pd.apply_str f (map (fun r => nth j r Pd.CNone) rows)
  = Some (map (fun r => match nth j r Pd.CNone with
                        | Pd.CStr s => f s
                        | _ => Pd.CNone
                        end) rows).
Proof.
  induction rows as [|r rows IH]; intro H; [reflexivity|].
  simpl. destruct (H r (or_introl eq_refl)) as [s Hs]. rewrite Hs.
  rewrite IH; [reflexivity|]. intros r' Hr'. apply H. right. exact Hr'.
Qed.

Lemma combine_map_self {A B : Type} (g : A -> B) (l : list A) :
  combine l (map g l) = map (fun x => (x, g x)) l.
Proof. induction l as [|x l IH]; simpl; [reflexivity|]. rewrite IH. reflexivity. Qed.

Lemma index_of_app_new (name : string) (cols : list string) :
  existsb (String.eqb name) cols = false ->
  Pd.index_of name (cols ++ [name]) = Some (List.length cols).
Proof.
  induction cols as [|c cols IH]; simpl; intro H.
  - rewrite String.eqb_refl. reflexivity.
  - apply orb_false_elim in H. destruct H as [H1 H2].
    rewrite H1, (IH H2). reflexivity.
Qed.

Lemma filter_app_new (name : string) (cols : list string) :
  existsb (String.eqb name) cols = false ->
  filter (fun c => negb (String.eqb c name)) (cols ++ [name]) = cols.
Proof.
  induction cols as [|c cols IH]; simpl; intro H.
  - rewrite String.eqb_refl. reflexivity.
  - apply orb_false_elim in H. destruct H as [H1 H2].
    rewrite String.eqb_sym, H1. simpl. rewrite (IH H2). reflexivity.
Qed.

Lemma nth_app_new (r : list Pd.cell) (x : Pd.cell) :
  nth (List.length r) (r ++ [x]) Pd.CNone = x.
Proof. induction r as [|y r IH]; simpl; [reflexivity|exact IH]. Qed.

Lemma remove_nth_app_new (r : list Pd.cell) (x : Pd.cell) :
  Pd.remove_nth (List.length r) (r ++ [x]) = r.
Proof. induction r as [|y r IH]; simpl; [reflexivity|]. rewrite IH. reflexivity. Qed.

Lemma select_extended (n : nat) (g : list Pd.cell -> Pd.cell) (p : Pd.cell -> bool)
    (rows : list (list Pd.cell)) :
  (forall r, In r rows -> List.length r = n) ->
  map (Pd.remove_nth n)
    (Pd.select (map (fun r => r ++ [g r]) rows)
       (map p (map (fun r => nth n r Pd.CNone) (map (fun r => r ++ [g r]) rows))))
  = filter (fun r => p (g r)) rows.
Proof.
  induction rows as [|r rows IH]; intro Hwf; [reflexivity|].
  assert (Hr : List.length r = n) by (apply Hwf; left; reflexivity).
  assert (IH' := IH (fun r' Hr' => Hwf r' (or_intror Hr'))).
  simpl. subst n. rewrite nth_app_new.
  destruct (p (g r)).
  - simpl. rewrite remove_nth_app_new. f_equal. exact IH'.
  - exact IH'.
Qed.

Lemma split_csv_by_wells_spec (df : Pd.DataFrame) (j : nat) (w20 w30 : list string) :
  Pd.index_of "Image" (Pd.columns df) = Some j ->
  Pd.has_column df "Well" = false ->
  (forall r, In r (Pd.rows df) -> List.length r = List.length (Pd.columns df)) ->
  (forall r, In r (Pd.rows df) -> exists s, nth j r Pd.CNone = Pd.CStr s) ->
  SplitSeedingData.split_csv_by_wells df (w20, w30)
  = Some (Pd.mkDF (Pd.columns df) (filter (fun r => Pd.isin w20 (row_well j r)) (Pd.rows df)),
          Pd.mkDF (Pd.columns df) (filter (fun r => Pd.isin w30 (row_well j r)) (Pd.rows df))).
Proof.
  intros Hj Hw Hwf Hstr.
  unfold SplitSeedingData.split_csv_by_wells, Pd.col. rewrite Hj.
  rewrite (apply_str_map SplitSeedingData.well_cell j (Pd.rows df) Hstr).
  fold (row_well j).
  unfold Pd.has_column in Hw.
  assert (Hnone : Pd.index_of "Well" (Pd.columns df) = None) by (apply index_of_none; exact Hw).
  unfold Pd.set_col. rewrite Hnone, combine_map_self, map_map. simpl fst. simpl snd.
  unfold SplitSeedingData.part, Pd.col, Pd.drop. simpl Pd.columns. simpl Pd.rows.
  rewrite (index_of_app_new "Well" (Pd.columns df) Hw).
  rewrite (filter_app_new "Well" (Pd.columns df) Hw).
  rewrite !(select_extended (List.length (Pd.columns df)) (row_well j) _ (Pd.rows df) Hwf).
  reflexivity.
Qed.

Lemma isin_app (a b : list string) (c : Pd.cell) :
  Pd.isin (a ++ b) c = Pd.isin a c || Pd.isin b c.
Proof. destruct c; simpl; try reflexivity. apply existsb_app. Qed.

Lemma filter_disjoint_perm {A : Type} (p q : A -> bool) (l : list A) :
  (forall x, In x l -> p x && q x = false) ->
  Permutation (filter p l ++ filter q l) (filter (fun x => p x || q x) l).
Proof.
  induction l as [|x l IH]; intro H; [apply perm_nil|].
  assert (IH' := IH (fun y Hy => H y (or_intror Hy))).
  assert (Hx := H x (or_introl eq_refl)).
  simpl. destruct (p x), (q x); simpl in *; try discriminate.
  - apply perm_skip. exact IH'.
  - apply Permutation_sym, Permutation_cons_app, Permutation_sym. exact IH'.
  - exact IH'.
Qed.

Lemma isin_disjoint (a b : list string) (c : Pd.cell) :
  disjoint a b = true -> Pd.isin a c && Pd.isin b c = false.
Proof.
  intro H. destruct c as [s| | |]; simpl; try reflexivity.
  destruct (existsb (String.eqb s) a) eqn:Ea; [|reflexivity].
  apply existsb_exists in Ea. destruct Ea as [x [Hx Hs]].
  apply String.eqb_eq in Hs. subst x.
  unfold disjoint in H. rewrite forallb_forall in H.
  apply H in Hx. simpl. apply negb_true_iff. exact Hx.
Qed.

(** C3 as stated fails in split_untreated_monoculture.py: a row of well A1
    that has one field more than the header is in none of the four files;
    each file holds the header row only. *)
Lemma C3_ragged_row_is_lost :
  SplitUntreatedMonoculture.classify_image c3_image = Some ("20k", "A2780Naive")
  /\ option_map (map (fun kb => (fst kb, Csv.reader (Py.drop 3 (snd kb)))))
       (SplitUntreatedMonoculture.split_csvs [c3_file])
     = Some [ (("20k", "A2780Naive"), [["Image"; "Cells"]]);
              (("20k", "A2780cis"), [["Image"; "Cells"]]);
              (("30k", "A2780Naive"), [["Image"; "Cells"]]);
              (("30k", "A2780cis"), [["Image"; "Cells"]]) ].
Proof. split; vm_compute; reflexivity. Qed.

(** C3, amended.  split_seeding_data.py: for each configuration of
    [file_well_mapping], on a frame that has an Image column of strings and
    no column named Well, the rows of the two frames written are together a
    permutation of the input rows whose well is in the configuration, and
    the columns are those of the input.  split_untreated_monoculture.py: the
    data rows of the four files written are together a permutation of the
    data rows read that have as many fields as the first header read and
    whose Image field names a well of rows A-B and columns 1-6. *)
Theorem C3_split_keeps_the_mapped_rows :
  (forall (name : string) (w20 w30 : list string) (df : Pd.DataFrame) (j : nat),
     In (name, (w20, w30)) SplitSeedingData.file_well_mapping ->
     Pd.index_of "Image" (Pd.columns df) = Some j ->
     Pd.has_column df "Well" = false ->
     (forall r, In r (Pd.rows df) -> List.length r = List.length (Pd.columns df)) ->
     (forall r, In r (Pd.rows df) -> exists s, nth j r Pd.CNone = Pd.CStr s) ->
     exists df_20k df_30k,
       SplitSeedingData.split_csv_by_wells df (w20, w30) = Some (df_20k, df_30k)
       /\ Pd.columns df_20k = Pd.columns df
       /\ Pd.columns df_30k = Pd.columns df
       /\ Permutation (Pd.rows df_20k ++ Pd.rows df_30k)
            (filter (fun r => Pd.isin (w20 ++ w30) (row_well j r)) (Pd.rows df)))
  /\
  (forall (files : list string) (parsed : list (list SplitUntreatedMonoculture.Row))
          (header : SplitUntreatedMonoculture.Row)
          (buckets : list (SplitUntreatedMonoculture.Bucket * list SplitUntreatedMonoculture.Row)),
     SplitUntreatedMonoculture.decode_all files = Some parsed ->
     SplitUntreatedMonoculture.collect parsed = (Some header, buckets) ->
     (exists outs,
        SplitUntreatedMonoculture.split_csvs files = Some outs
        /\ forall k, In k SplitUntreatedMonoculture.outputs ->
             exists text,
               In (k, Codec.encode_utf8_sig text) outs
               /\ Csv.reader text = header :: SplitUntreatedMonoculture.sorted_rows buckets k)
     /\ Permutation
          (List.concat (map (SplitUntreatedMonoculture.sorted_rows buckets)
                          SplitUntreatedMonoculture.outputs))
          (filter (accepted (List.length header)) (flat_map (@tl _) parsed))).
Proof.
  split.
  - intros name w20 w30 df j Hin Hj Hw Hwf Hstr.
    rewrite (split_csv_by_wells_spec df j w20 w30 Hj Hw Hwf Hstr).
    eexists. eexists. split; [reflexivity|]. split; [reflexivity|]. split; [reflexivity|].
    simpl Pd.rows.
    eapply perm_trans; [apply filter_disjoint_perm|].
    + intros r _. apply isin_disjoint.
      simpl in Hin.
      destruct Hin as [E|[E|[E|[E|[]]]]]; injection E as _ <- <-; reflexivity.
    + erewrite filter_ext; [apply Permutation_refl|].
      intro r. symmetry. apply isin_app.
  - intros files parsed header buckets Hd Hc.
    split; [apply (split_csvs_files files parsed header buckets Hd Hc)|].
    assert (Hb : buckets = snd (SplitUntreatedMonoculture.collect parsed))
      by (rewrite Hc; reflexivity).
    assert (Hh : cols_of (fst (SplitUntreatedMonoculture.collect parsed)) = List.length header)
      by (rewrite Hc; reflexivity).
    eapply perm_trans; [|apply partition_outputs].
    subst buckets.
    unfold SplitUntreatedMonoculture.outputs. cbn [map List.concat].
    rewrite !sorted_rows_spec by (unfold SplitUntreatedMonoculture.outputs; simpl; tauto).
    rewrite Hh.
    repeat apply Permutation_app; try apply Permutation_sym, sort_perm.
    apply perm_nil.
Qed.

(** The theorem at a frame of three rows (wells C4, D5, A1) with the
    configuration of A2780cisT.csv, and at a file of three rows (wells B4,
    A1, C1). *)
Lemma C3_split_keeps_the_mapped_rows_witness :
  (exists df_20k df_30k,
     SplitSeedingData.split_csv_by_wells c3_frame (["C4"; "C5"; "C6"], ["D4"; "D5"; "D6"])
     = Some (df_20k, df_30k)
     /\ Pd.columns df_20k = Pd.columns c3_frame
     /\ Pd.columns df_30k = Pd.columns c3_frame
     /\ Permutation (Pd.rows df_20k ++ Pd.rows df_30k)
          (filter (fun r => Pd.isin (["C4"; "C5"; "C6"] ++ ["D4"; "D5"; "D6"]) (row_well 0 r))
             (Pd.rows c3_frame)))
  /\ Permutation
       (List.concat
          (map (SplitUntreatedMonoculture.sorted_rows
                  (snd (SplitUntreatedMonoculture.collect [Csv.reader c3_good_file])))
             SplitUntreatedMonoculture.outputs))
       (filter (accepted 2) (flat_map (@tl _) [Csv.reader c3_good_file])).
Proof.
  split.
  - apply (proj1 C3_split_keeps_the_mapped_rows "A2780cisT.csv").
    + simpl. left. reflexivity.
    + reflexivity.
    + reflexivity.
    + simpl. intros r [<-|[<-|[<-|[]]]]; reflexivity.
    + simpl. intros r [<-|[<-|[<-|[]]]]; eexists; reflexivity.
  - apply (proj2 C3_split_keeps_the_mapped_rows [c3_good_file] [Csv.reader c3_good_file]
             ["Image"; "Cells"]
             (snd (SplitUntreatedMonoculture.collect [Csv.reader c3_good_file]))).
    + vm_compute. reflexivity.
    + vm_compute. reflexivity.
Defined.

(** ** The regular expressions: where a pattern matches *)




(** The search skips a prefix in which no match starts. *)
Lemma search_skip (ic : bool) (re : Re.regex) (pre s : string) :
  (forall a b, pre = a +++ b -> b <> EmptyString ->
     Re.match_here ic re (b +++ s) None [] = None) ->
  Re.search ic re (pre +++ s) = Re.search ic re s.
Proof.
  induction pre as [|c pre IH]; intro H; [reflexivity|].
  change (String c pre +++ s) with (String c (pre +++ s)).
  cbn [Re.search].
  change (String c (pre +++ s)) with (String c pre +++ s).
  rewrite (H EmptyString (String c pre) eq_refl) by discriminate.
  apply IH. intros a b E Hb. apply (H (String c a) b); [|exact Hb].
  simpl. rewrite E. reflexivity.
Qed.

Lemma search_here (ic : bool) (re : Re.regex) (s : string) (g : list string) :
  Re.match_here ic re s None [] = Some g -> Re.search ic re s = Some g.
Proof. intro H. destruct s; simpl; rewrite H; reflexivity. Qed.

(** *** The greedy repetition *)






Lemma startswith_append (a b : string) : Py.startswith a (a +++ b) = true.
Proof.
  induction a as [|c a IH]; simpl; [reflexivity|].
  rewrite Ascii.eqb_refl. exact IH.
Qed.





(** *** Runs of digits *)

Ltac all_ascii c := destruct c as [[] [] [] [] [] [] [] []].







(** *** [_([A-Z]\d+)\.tif] of create_averages.py *)



Lemma occurs_suffix_false (p : string -> bool) (a b : string) :
  occurs p (a +++ b) = false -> occurs p b = false.
Proof.
  induction a as [|c a IH]; simpl; intro H; [exact H|].
  apply orb_false_elim in H. apply IH. tauto.
Qed.

Lemma occurs_head_false (p : string -> bool) (s : string) :
  occurs p s = false -> p s = false.
Proof. destruct s; simpl; intro H; apply orb_false_elim in H; tauto. Qed.




(** *** The patterns under re.IGNORECASE *)

Lemma match_lits_ic (lit : string) (re : Re.regex) :
  forall (t : string) (done : list string),
    Re.match_here true (Re.lits lit ++ re) t None done
    = if istartswith lit t
      then Re.match_here true re (Py.drop (String.length lit) t) None done
      else None.
Proof.
  induction lit as [|c lit IH]; intros t done; [reflexivity|].
  destruct t as [|a t]; [reflexivity|].
  cbn [Re.lits List.app Re.match_here istartswith String.length Py.drop Re.push].
  destruct (Re.ceq true a c); [apply IH|reflexivity].
Qed.


Lemma length_append (a b : string) :
  String.length (a +++ b) = (String.length a + String.length b)%nat.
Proof. induction a as [|c a IH]; simpl; [reflexivity|]. rewrite IH. reflexivity. Qed.

Lemma length_drop (n : nat) (s : string) :
  String.length (Py.drop n s) = (String.length s - n)%nat.
Proof.
  revert s. induction n as [|n IH]; intros [|c s]; simpl; try reflexivity. apply IH.
Qed.

Lemma at_end_long (s : string) : (2 <= String.length s)%nat -> Re.at_end s = false.
Proof. destruct s as [|a [|b s]]; simpl; intro H; try lia; reflexivity. Qed.

Lemma ceq_underscore (c : ascii) : Re.ceq true c "_" = Ascii.eqb c "_".
Proof. all_ascii c; reflexivity. Qed.



Lemma cin_1_6 (c : ascii) :
  Re.cin true ComputeSampleAverages.is_1_6 c = ComputeSampleAverages.is_1_6 c.
Proof. all_ascii c; reflexivity. Qed.

Lemma match_Eos (t : string) (done : list string) :
  Re.match_here true [Re.Eos] t None done = if Re.at_end t then Some done else None.
Proof. reflexivity. Qed.


Lemma match_split_WELL_RE (t : string) :
  Re.match_here true SplitUntreatedMonoculture.WELL_RE t None []
  = if well_re_marker t
    then Some [token_row t; token_col t]
    else None.
Proof.
  unfold well_re_marker, well_token.
  destruct t as [|u [|r [|c rest]]];
    unfold SplitUntreatedMonoculture.WELL_RE;
    cbn [List.app Re.match_here Re.push andb]; rewrite ?ceq_underscore.
  - reflexivity.
  - destruct (Ascii.eqb u "_"); reflexivity.
  - destruct (Ascii.eqb u "_"); [|reflexivity].
    destruct (Re.cin true SplitUntreatedMonoculture.is_AB r); reflexivity.
  - destruct (Ascii.eqb u "_"); [|reflexivity].
    change SplitUntreatedMonoculture.is_AB with ComputeSampleAverages.is_AB.
    change SplitUntreatedMonoculture.is_1_6 with ComputeSampleAverages.is_1_6.
    destruct (Re.cin true ComputeSampleAverages.is_AB r); [|reflexivity].
    rewrite cin_1_6.
    destruct (ComputeSampleAverages.is_1_6 c); [|reflexivity].
    cbn [andb Py.or_empty List.app String.append].
    rewrite match_lits_ic.
    destruct (istartswith ".tif" rest); [|reflexivity].
    rewrite match_Eos. cbn [andb Py.drop String.length].
    destruct (Re.at_end (Py.drop 4 rest)); reflexivity.
Qed.

Lemma no_earlier_well_token (v tok : string) :
  v <> EmptyString -> well_token tok = true -> String.length tok = 7%nat ->
  well_re_marker (v +++ tok) = false.
Proof.
  intros Hv Ht Hl. unfold well_re_marker.
  destruct v as [|a [|b w]]; [congruence| |].
  - destruct tok as [|u [|r [|c tok]]]; try discriminate.
    cbn [well_token] in Ht.
    apply andb_prop in Ht. destruct Ht as [Ht _].
    apply andb_prop in Ht. destruct Ht as [Ht _].
    apply andb_prop in Ht. destruct Ht as [Hu _].
    apply Ascii.eqb_eq in Hu. subst u.
    change (String a EmptyString +++ String "_" (String r (String c tok)))
      with (String a (String "_" (String r (String c tok)))).
    cbn [well_token].
    change (Re.cin true ComputeSampleAverages.is_AB "_") with false.
    rewrite andb_false_r. reflexivity.
  - rewrite at_end_long; [apply andb_false_r|].
    rewrite length_drop, length_append. simpl. lia.
Qed.

Lemma well_token_alone (tok : string) :
  well_token tok = true -> String.length tok = 7%nat -> well_re_marker tok = true.
Proof.
  intros Ht Hl. unfold well_re_marker. rewrite Ht.
  destruct tok as [|a [|b [|c [|d [|e [|f [|g [|h tok]]]]]]]]; simpl in Hl; try lia.
  reflexivity.
Qed.


Lemma search_split_WELL_RE (pre tok : string) :
  well_token tok = true -> String.length tok = 7%nat ->
  Re.search true SplitUntreatedMonoculture.WELL_RE (pre +++ tok)
  = Some [token_row tok; token_col tok].
Proof.
  intros Ht Hl. rewrite search_skip.
  - apply search_here. rewrite match_split_WELL_RE, (well_token_alone tok Ht Hl). reflexivity.
  - intros a b E Hb. rewrite match_split_WELL_RE, (no_earlier_well_token b tok Hb Ht Hl).
    reflexivity.
Qed.








(** ** C10: the well classifier *)

(** C10 fails on a name that ends in a newline: [$] also matches before a
    final newline, so the name [x_A1.tif] followed by a newline, which does
    not end in [.tif], is put in the bucket (20k, A2780Naive). *)
Theorem C10_newline_after_tif_is_classified :
  SplitUntreatedMonoculture.classify_image ("x_A1.tif" +++ newline)
    = Some ("20k", "A2780Naive")
  /\ Py.endswith ".tif" ("x_A1.tif" +++ newline) = false
  /\ Csv.reader (Csv.writerows [["x_A1.tif" +++ newline; "5"]])
     = [["x_A1.tif" +++ newline; "5"]].
Proof. repeat split; vm_compute; reflexivity. Qed.

(** A name that ends in [_<A or B><1 to 6>.tif], letters in any case, goes
    to one bucket: row A to 20k and row B to 30k, columns 1 to 3 to
    A2780Naive and columns 4 to 6 to A2780cis. *)
Theorem classify_image_matching (pre : string) (r c : ascii) (ext : string) :
  Re.cin true ComputeSampleAverages.is_AB r = true ->
  ComputeSampleAverages.is_1_6 c = true ->
  istartswith ".tif" ext = true -> String.length ext = 4%nat ->
  SplitUntreatedMonoculture.classify_image (pre +++ String "_" (String r (String c ext)))
  = Some (if Ascii.eqb (Py.to_upper r) "A" then "20k" else "30k",
          if (Py.ord c <=? 51)%nat then "A2780Naive" else "A2780cis").
Proof.
  intros Hr Hc He Hl. unfold SplitUntreatedMonoculture.classify_image.
  rewrite search_split_WELL_RE.
  - cbn [token_row token_col Re.group Nat.sub nth].
    revert Hr. all_ascii r; intro Hr; try (vm_compute in Hr; discriminate Hr);
      revert Hc; all_ascii c; intro Hc; try (vm_compute in Hc; discriminate Hc);
      reflexivity.
  - cbn [well_token]. rewrite Hr, Hc, He. reflexivity.
  - simpl. rewrite Hl. reflexivity.
Qed.

(** The theorem at the name [X_Day5_FITC_Tile-0_b4.TIF]. *)
Lemma classify_image_matching_witness :
  SplitUntreatedMonoculture.classify_image "X_Day5_FITC_Tile-0_b4.TIF"
  = Some ("30k", "A2780cis").
Proof.
  apply (classify_image_matching "X_Day5_FITC_Tile-0" "b" "4" ".TIF"); reflexivity.
Defined.


(** ** C4: the filename parsers and the rows left out *)
















(** ** The sample averages as the input of the day averages

    compute_sample_averages.py writes the column of the means under the
    name [Mean Area Âµm^2]; compute_group_day_averages.py looks for
    [Mean Area µm^2] and for [Mean]. *)

Lemma no_mean_column (row : list string) :
  ComputeGroupDayAverages.dict_get "Mean Area µm^2" ComputeSampleAverages.header_row row = None
  /\ ComputeGroupDayAverages.dict_get "Mean" ComputeSampleAverages.header_row row = None.
Proof. split; reflexivity. Qed.

Lemma group_add_row_skips (py_int : string -> option Z) (py_float : string -> option float)
    (acc : list (Z * list float)) (row : list string) :
  py_float EmptyString = None ->
  ComputeGroupDayAverages.add_row py_int py_float ComputeSampleAverages.header_row acc row = acc.
Proof.
  intro Hf. unfold ComputeGroupDayAverages.add_row.
  destruct row as [|v row]; [reflexivity|].
  destruct (py_int _); [|reflexivity].
  destruct (no_mean_column (v :: row)) as [E1 E2]. rewrite E1, E2.
  cbn [Py.or_else Py.or_empty].
  change (Py.strip EmptyString) with EmptyString.
  rewrite Hf. reflexivity.
Qed.

Lemma group_day_stats_empty (mean stdev : list float -> float) (py_int : string -> option Z)
    (py_float : string -> option float) (data : list (list string)) :
  py_float EmptyString = None ->
  ComputeGroupDayAverages.day_stats mean stdev py_int py_float
    (ComputeSampleAverages.header_row :: data) = [].
Proof.
  intro Hf. unfold ComputeGroupDayAverages.day_stats, ComputeGroupDayAverages.read_per_well_means.
  assert (E : forall acc,
             fold_left (ComputeGroupDayAverages.add_row py_int py_float
                          ComputeSampleAverages.header_row) data acc = acc).
  { induction data as [|row data IH]; intro acc; [reflexivity|].
    cbn [fold_left]. rewrite group_add_row_skips by exact Hf. apply IH. }
  rewrite E. reflexivity.
Qed.

(** The day averages computed from a file that compute_sample_averages.py
    wrote hold the header row and no day: no row of the file has a mean
    under a name that [read_per_well_means] looks up, and [float] of the
    empty string is a ValueError. *)
Theorem day_averages_of_sample_averages
    (mean stdev mean' stdev' : list float -> float)
    (py_float py_float' : string -> option float) (py_int : string -> option Z)
    (fmt6 fmt6' : float -> string) (input : string) (n : nat) (bytes : string) :
  ComputeSampleAverages.per_day_sample_stats mean stdev py_float fmt6 input
    = Some (n, Some bytes) ->
  Codec.valid_utf8 bytes = true ->
  py_float' EmptyString = None ->
  ComputeGroupDayAverages.write_day_averages mean' stdev' py_int py_float' fmt6' bytes
  = Some (Codec.encode_utf8_sig (Csv.writerow ComputeGroupDayAverages.header_row)).
Proof.
  intros H Hv Hf. unfold ComputeSampleAverages.per_day_sample_stats in H.
  destruct (Codec.decode_utf8_sig input) as [text|]; [|discriminate].
  assert (Hb : exists rows,
             bytes = Codec.encode_utf8_sig
                       (Csv.writerow ComputeSampleAverages.header_row
                        +++ Csv.writerows (map (ComputeSampleAverages.format_stat fmt6) rows))).
  { destruct (Csv.reader text) as [|[|h0 header] data]; try discriminate.
    injection H as _ Hb. eexists. symmetry. exact Hb. }
  clear H. destruct Hb as [rows ->].
  unfold ComputeGroupDayAverages.write_day_averages, Codec.decode_utf8_sig.
  rewrite Hv.
  change (Py.startswith Codec.BOM (Codec.encode_utf8_sig ?t)) with true.
  cbv iota.
  change (Py.drop 3 (Codec.encode_utf8_sig ?t)) with t.
  rewrite reader_header_rows, group_day_stats_empty by exact Hf.
  cbn [map Csv.writerows Csv.writerows_with].
  rewrite append_empty_r. reflexivity.
Qed.

(** The theorem at the sample file computed from one tile of well A2 on
    day 5. *)
Lemma day_averages_of_sample_averages_witness :
  ComputeGroupDayAverages.write_day_averages Pd.mean Pd.std
    (fun s => Some (Py.int s))
    (fun s => match s with
              | EmptyString => None
              | _ => Some (Py.float_of_Z (Py.int s))
              end)
    (fun _ => "0.000000") c7_sample_bytes
  = Some (Codec.encode_utf8_sig (Csv.writerow ComputeGroupDayAverages.header_row)).
Proof.
  apply (day_averages_of_sample_averages Pd.mean Pd.std Pd.mean Pd.std
           (fun s => Some (Py.float_of_Z (Py.int s))) _ _ (fun _ => "0.000000") _
           c7_tiles 1%nat c7_sample_bytes); vm_compute; reflexivity.
Defined.

(** ** The well of split_seeding_data.py *)

Lemma split_acc_append (sep : ascii) (pre rest cur : string) :
  Py.split_acc sep cur (pre +++ String sep rest)
  = Py.split_acc sep cur pre ++ Py.split_acc sep EmptyString rest.
Proof.
  revert cur. induction pre as [|c pre IH]; intro cur; cbn [String.append Py.split_acc].
  - rewrite Ascii.eqb_refl. reflexivity.
  - destruct (Ascii.eqb c sep); [|apply IH].
    rewrite IH. reflexivity.
Qed.

Lemma split_acc_last (w cur : string) :
  contains "_" w = false ->
  Py.split_acc "_" cur (w +++ ".tif") = [cur +++ w +++ ".tif"].
Proof.
  revert cur. induction w as [|c w IH]; intros cur H.
  - cbn. rewrite !append_assoc. reflexivity.
  - unfold contains in H. cbn [occurs Py.startswith] in H.
    apply orb_false_iff in H. destruct H as [Hc Hw].
    rewrite andb_true_r in Hc.
    cbn [String.append Py.split_acc].
    rewrite Ascii.eqb_sym, Hc.
    rewrite (IH _ Hw), append_assoc. reflexivity.
Qed.

Lemma first_tif_app (l1 l2 : list string) :
  SplitSeedingData.first_tif l1 = None ->
  SplitSeedingData.first_tif (l1 ++ l2) = SplitSeedingData.first_tif l2.
Proof.
  induction l1 as [|p l1 IH]; intro H; [reflexivity|].
  cbn [app SplitSeedingData.first_tif] in *.
  destruct (Py.endswith ".tif" p); [discriminate|]. apply IH, H.
Qed.

Lemma endswith_tif (w : string) : Py.endswith ".tif" (w +++ ".tif") = true.
Proof.
  induction w as [|c w IH]; [reflexivity|].
  cbn [String.append]. unfold Py.endswith; fold Py.endswith.
  rewrite (proj2 (Nat.ltb_ge _ _)), (proj2 (Nat.eqb_neq _ _)); [exact IH| |];
    cbn [String.length]; rewrite length_append; cbn [String.length]; lia.
Qed.

Lemma remove_all_fuel_empty (fuel : nat) (old : string) :
  Py.remove_all_fuel fuel old EmptyString = EmptyString.
Proof. destruct fuel; reflexivity. Qed.

Lemma no_tif_across (c : ascii) (w : string) :
  Py.startswith ".tif" (String c w) = false ->
  Py.startswith ".tif" (String c w +++ ".tif") = false.
Proof.
  destruct w as [|b [|d [|e w]]]; cbn [Py.startswith String.append]; intro H;
    try exact H;
    repeat match goal with
           | |- context [Ascii.eqb ?p ?q] => is_var q; destruct (Ascii.eqb p q)
           end; reflexivity.
Qed.

Lemma remove_tif (w : string) (fuel : nat) :
  contains ".tif" w = false ->
  (String.length w < fuel)%nat ->
  Py.remove_all_fuel fuel ".tif" (w +++ ".tif") = w.
Proof.
  revert fuel. induction w as [|c w IH]; intros fuel H Hf.
  - destruct fuel as [|fuel]; [cbn in Hf; lia|].
    cbn. apply remove_all_fuel_empty.
  - destruct fuel as [|fuel]; [cbn in Hf; lia|].
    unfold contains in H. cbn [occurs] in H.
    apply orb_false_iff in H. destruct H as [Hc Hw].
    cbn [Py.remove_all_fuel String.append].
    change (String c (w +++ ".tif")) with (String c w +++ ".tif").
    rewrite (no_tif_across c w Hc).
    rewrite (IH fuel Hw); [reflexivity|]. cbn [String.length] in Hf. lia.
Qed.

(** The well that split_seeding_data.py reads from a name: when the last
    part of the name, behind its last underscore, is [w.tif] with no [.tif]
    inside [w], and no part before ends in [.tif], the well is [w]. *)
Theorem extract_well_from_filename_last_part (pre w : string) :
  SplitSeedingData.first_tif (Py.split "_" pre) = None ->
  contains "_" w = false ->
  contains ".tif" w = false ->
  SplitSeedingData.extract_well_from_filename (pre +++ "_" +++ w +++ ".tif") = Some w.
Proof.
  intros Hpre Hu Ht. unfold SplitSeedingData.extract_well_from_filename, Py.split.
  change (pre +++ "_" +++ w +++ ".tif") with (pre +++ String "_" (w +++ ".tif")).
  rewrite split_acc_append, (first_tif_app _ _ Hpre), (split_acc_last _ _ Hu).
  cbn [String.append SplitSeedingData.first_tif].
  rewrite endswith_tif. unfold Py.remove_all.
  rewrite remove_tif; [reflexivity|exact Ht|].
  rewrite length_append. cbn [String.length]. lia.
Qed.

(** The theorem at a name of well C4. *)
Lemma extract_well_from_filename_last_part_witness :
  SplitSeedingData.extract_well_from_filename
    ("A2780cis_20and30_IC50treatedF_Day10_25_FITC_Tile-0" +++ "_" +++ "C4" +++ ".tif")
  = Some "C4".
Proof.
  apply (extract_well_from_filename_last_part
           "A2780cis_20and30_IC50treatedF_Day10_25_FITC_Tile-0" "C4"); reflexivity.
Defined.

(** ** Dictionaries of lists: [d.setdefault(k, []).append(v)] *)

Section DictFacts.
Context {K V : Type}.
Variable eqb : K -> K -> bool.
Hypothesis eqb_eq : forall a b, eqb a b = true <-> a = b.

Lemma dict_eqb_refl (k : K) : eqb k k = true.
Proof. apply eqb_eq. reflexivity. Qed.

Lemma lookup_setdefault_append (k k' : K) (v : V) (d : list (K * list V)) :
  Py.lookup eqb k (Py.setdefault_append eqb k' v d)
  = if eqb k k'
    then Some (match Py.lookup eqb k d with Some vs => vs ++ [v] | None => [v] end)
    else Py.lookup eqb k d.
Proof.
  induction d as [|[k0 vs] d IH]; cbn [Py.setdefault_append Py.lookup].
  - destruct (eqb k k'); reflexivity.
  - destruct (eqb k' k0) eqn:E0; cbn [Py.lookup].
    + apply eqb_eq in E0. subst k0.
      destruct (eqb k k'); reflexivity.
    + rewrite IH. destruct (eqb k k0) eqn:E1; [|reflexivity].
      apply eqb_eq in E1. subst k0.
      destruct (eqb k k') eqn:E2; [|reflexivity].
      apply eqb_eq in E2. subst k'. rewrite dict_eqb_refl in E0. discriminate.
Qed.

Lemma keys_setdefault_append (k : K) (v : V) (d : list (K * list V)) :
  map fst (Py.setdefault_append eqb k v d)
  = if existsb (eqb k) (map fst d) then map fst d else map fst d ++ [k].
Proof.
  induction d as [|[k0 vs] d IH]; cbn [Py.setdefault_append map fst existsb app].
  - reflexivity.
  - destruct (eqb k k0); cbn [map fst orb]; [reflexivity|].
    rewrite IH. destruct (existsb (eqb k) (map fst d)); reflexivity.
Qed.

Lemma nodup_setdefault_append (k : K) (v : V) (d : list (K * list V)) :
  NoDup (map fst d) -> NoDup (map fst (Py.setdefault_append eqb k v d)).
Proof.
  intro H. rewrite keys_setdefault_append.
  destruct (existsb (eqb k) (map fst d)) eqn:E; [exact H|].
  apply NoDup_app; [exact H|repeat constructor; intros []|].
  intros x Hx [Hk|[]]. subst x.
  assert (existsb (eqb k) (map fst d) = true); [|congruence].
  apply existsb_exists. exists k. split; [exact Hx|apply dict_eqb_refl].
Qed.

Lemma lookup_in_dict (k : K) (vs : V) (d : list (K * V)) :
  Py.lookup eqb k d = Some vs -> In (k, vs) d.
Proof.
  induction d as [|[k0 v0] d IH]; cbn [Py.lookup]; [discriminate|].
  destruct (eqb k k0) eqn:E; intro H.
  - apply eqb_eq in E. left. congruence.
  - right. apply IH, H.
Qed.

Lemma in_dict_lookup (k : K) (vs : V) (d : list (K * V)) :
  NoDup (map fst d) -> In (k, vs) d -> Py.lookup eqb k d = Some vs.
Proof.
  induction d as [|[k0 v0] d IH]; cbn [Py.lookup map fst]; intros Hn Hi; [destruct Hi|].
  inversion Hn as [|? ? Hk Hn']; subst.
  destruct Hi as [Hi|Hi].
  - injection Hi as -> ->. rewrite dict_eqb_refl. reflexivity.
  - destruct (eqb k k0) eqn:E; [|apply IH; assumption].
    apply eqb_eq in E. subst k0. exfalso. apply Hk.
    apply in_map_iff. exists (k, vs). split; [reflexivity|exact Hi].
Qed.

End DictFacts.

Lemma sorted_impl {A : Type} (R R' : A -> A -> Prop) (l : list A) :
  (forall a b, R a b -> R' a b) -> Sorted R l -> Sorted R' l.
Proof.
  intros H HS. induction HS as [|a l HS IH Hd]; constructor; [exact IH|].
  destruct Hd; constructor. apply H. assumption.
Qed.

(** ** compute_sample_averages.py: the lines and the tiles they stand for *)

Lemma key_eqb_eq (a b : ComputeSampleAverages.Key) :
  ComputeSampleAverages.key_eqb a b = true <-> a = b.
Proof.
  destruct a as [d1 w1], b as [d2 w2]. unfold ComputeSampleAverages.key_eqb. cbn [fst snd].
  rewrite andb_true_iff, Z.eqb_eq, String.eqb_eq. split; [intros [-> ->]|intro H; injection H]; auto.
Qed.

Lemma key_eqb_sym (a b : ComputeSampleAverages.Key) :
  ComputeSampleAverages.key_eqb a b = ComputeSampleAverages.key_eqb b a.
Proof.
  destruct (ComputeSampleAverages.key_eqb a b) eqn:E1, (ComputeSampleAverages.key_eqb b a) eqn:E2;
    try reflexivity.
  - apply key_eqb_eq in E1. subst b. rewrite (proj2 (key_eqb_eq a a) eq_refl) in E2. discriminate.
  - apply key_eqb_eq in E2. subst b. rewrite (proj2 (key_eqb_eq a a) eq_refl) in E1. discriminate.
Qed.

Lemma lookup_add_tile_row (py_float : string -> option float) (key : ComputeSampleAverages.Key)
    (row : list string) (tiles : list (ComputeSampleAverages.Key * list float)) :
  Py.lookup ComputeSampleAverages.key_eqb key (ComputeSampleAverages.add_row py_float tiles row)
  = match Py.lookup ComputeSampleAverages.key_eqb key tiles, sample_areas py_float key [row] with
    | Some vs, l => Some (vs ++ l)
    | None, [] => None
    | None, l => Some l
    end.
Proof.
  assert (Hsame : Py.lookup ComputeSampleAverages.key_eqb key tiles
                  = match Py.lookup ComputeSampleAverages.key_eqb key tiles with
                    | Some vs => Some (vs ++ [])
                    | None => None
                    end).
  { destruct (Py.lookup _ key tiles); [rewrite app_nil_r|]; reflexivity. }
  unfold ComputeSampleAverages.add_row, sample_areas. cbn [flat_map].
  destruct row as [|image [|area_str rest]]; try exact Hsame.
  destruct (ComputeSampleAverages.parse_day_and_well image) as [parsed|]; [|exact Hsame].
  destruct (py_float area_str) as [area|]; [|exact Hsame].
  rewrite (lookup_setdefault_append _ key_eqb_eq), (key_eqb_sym parsed key).
  destruct (ComputeSampleAverages.key_eqb key parsed); [|exact Hsame].
  cbn [app]. destruct (Py.lookup _ key tiles); reflexivity.
Qed.

Lemma sample_areas_cons (py_float : string -> option float) (key : ComputeSampleAverages.Key)
    (row : list string) (data : list (list string)) :
  sample_areas py_float key (row :: data)
  = sample_areas py_float key [row] ++ sample_areas py_float key data.
Proof. unfold sample_areas. cbn [flat_map]. rewrite app_nil_r. reflexivity. Qed.

Lemma lookup_accumulate (py_float : string -> option float) (key : ComputeSampleAverages.Key)
    (data : list (list string)) :
  forall tiles,
    Py.lookup ComputeSampleAverages.key_eqb key
      (fold_left (ComputeSampleAverages.add_row py_float) data tiles)
    = match Py.lookup ComputeSampleAverages.key_eqb key tiles, sample_areas py_float key data with
      | Some vs, l => Some (vs ++ l)
      | None, [] => None
      | None, l => Some l
      end.
Proof.
  induction data as [|row data IH]; intro tiles.
  - cbn [fold_left]. change (sample_areas py_float key []) with (@nil float).
    destruct (Py.lookup _ key tiles); [rewrite app_nil_r|]; reflexivity.
  - cbn [fold_left]. rewrite IH, lookup_add_tile_row.
    rewrite (sample_areas_cons py_float key row data).
    destruct (Py.lookup _ key tiles) as [vs|].
    + rewrite app_assoc. reflexivity.
    + destruct (sample_areas py_float key [row]) as [|a l]; [reflexivity|].
      reflexivity.
Qed.

Lemma nodup_accumulate (py_float : string -> option float) (data : list (list string)) :
  forall tiles,
    NoDup (map fst tiles) ->
    NoDup (map fst (fold_left (ComputeSampleAverages.add_row py_float) data tiles)).
Proof.
  induction data as [|row data IH]; intros tiles H; [exact H|].
  cbn [fold_left]. apply IH. unfold ComputeSampleAverages.add_row.
  destruct row as [|image [|area_str rest]]; try exact H.
  destruct (ComputeSampleAverages.parse_day_and_well image); [|exact H].
  destruct (py_float area_str); [|exact H].
  apply (nodup_setdefault_append _ key_eqb_eq), H.
Qed.

Lemma stat_of_key (mean stdev : list float -> float)
    (entry : ComputeSampleAverages.Key * list float) (r : ComputeSampleAverages.Stat) :
  In r (ComputeSampleAverages.stat_of mean stdev entry) ->
  sample_key r = fst entry /\ snd entry <> []
  /\ ComputeSampleAverages.ntiles r = List.length (snd entry)
  /\ ComputeSampleAverages.m r = mean (snd entry).
Proof.
  destruct entry as [[day well] vals]. unfold ComputeSampleAverages.stat_of.
  destruct vals as [|v vals]; [intros []|].
  intros [<-|[]]. cbn. repeat split. discriminate.
Qed.

Lemma stat_of_some (mean stdev : list float -> float)
    (key : ComputeSampleAverages.Key) (vals : list float) :
  vals <> [] ->
  exists r, ComputeSampleAverages.stat_of mean stdev (key, vals) = [r] /\ sample_key r = key.
Proof.
  destruct key as [day well]. unfold ComputeSampleAverages.stat_of.
  destruct vals as [|v vals]; [congruence|]. intros _. eexists. split; reflexivity.
Qed.

Lemma stat_keys_nodup (mean stdev : list float -> float)
    (d : list (ComputeSampleAverages.Key * list float)) :
  NoDup (map fst d) ->
  NoDup (map sample_key (flat_map (ComputeSampleAverages.stat_of mean stdev) d)).
Proof.
  induction d as [|entry d IH]; cbn [map flat_map]; intro H; [constructor|].
  inversion H as [|? ? Hk Hn]; subst. rewrite map_app.
  apply NoDup_app; [| apply IH, Hn |].
  - destruct entry as [[day well] [|v vals]]; cbn; repeat constructor. intros [].
  - intros k Hk1 Hk2. apply Hk.
    apply in_map_iff in Hk1. destruct Hk1 as [r [E1 Hr]].
    apply (stat_of_key mean stdev) in Hr. destruct Hr as [E _].
    apply in_map_iff in Hk2. destruct Hk2 as [r' [E2 Hr']].
    apply in_flat_map in Hr'. destruct Hr' as [e [He Hr']].
    apply (stat_of_key mean stdev) in Hr'. destruct Hr' as [E' _].
    apply in_map_iff. exists e. split; [congruence|exact He].
Qed.

Lemma stat_leb_total (a b : ComputeSampleAverages.Stat) :
  ComputeSampleAverages.stat_leb a b = true \/ ComputeSampleAverages.stat_leb b a = true.
Proof.
  unfold ComputeSampleAverages.stat_leb.
  destruct (Z.ltb_spec (ComputeSampleAverages.day a) (ComputeSampleAverages.day b)); [auto|].
  destruct (Z.ltb_spec (ComputeSampleAverages.day b) (ComputeSampleAverages.day a)); [auto|].
  destruct (String.ltb _ _) eqn:E1; [auto|].
  destruct (String.ltb (fst (ComputeSampleAverages.well_sort_key (ComputeSampleAverages.well b))) _)
    eqn:E2; [auto|].
  destruct (Z.leb_spec (snd (ComputeSampleAverages.well_sort_key (ComputeSampleAverages.well a)))
              (snd (ComputeSampleAverages.well_sort_key (ComputeSampleAverages.well b)))); [auto|].
  right. apply Z.leb_le. lia.
Qed.

Lemma stat_leb_le (a b : ComputeSampleAverages.Stat) :
  ComputeSampleAverages.stat_leb a b = true -> sample_line_le a b.
Proof.
  unfold ComputeSampleAverages.stat_leb, sample_line_le.
  destruct (Z.ltb_spec (ComputeSampleAverages.day a) (ComputeSampleAverages.day b)); [auto|].
  destruct (Z.ltb_spec (ComputeSampleAverages.day b) (ComputeSampleAverages.day a));
    [discriminate|].
  intro H'. right. split; [lia|].
  destruct (String.ltb _ _) eqn:E1; [auto|].
  destruct (String.ltb (fst (ComputeSampleAverages.well_sort_key (ComputeSampleAverages.well b))) _)
    eqn:E2; [discriminate|].
  right. split; [|apply Z.leb_le, H'].
  unfold String.ltb in E1, E2. rewrite String.compare_antisym in E2.
  destruct (String.compare _ _) eqn:E; try discriminate.
  apply String.compare_eq_iff, E.
Qed.

(** X5. Every line of the sample file stands for the tiles of one well on
    one day: its count and its mean are those of the areas of the rows whose
    image parses to that day and well and whose area is a number, in the
    order of the file; and every day and well with such a row has a line. *)
Theorem sample_lines_are_the_groups
    (mean stdev : list float -> float) (py_float : string -> option float)
    (data : list (list string)) :
  (forall r, In r (ComputeSampleAverages.stats mean stdev py_float data) ->
     sample_areas py_float (sample_key r) data <> []
     /\ ComputeSampleAverages.ntiles r
        = List.length (sample_areas py_float (sample_key r) data)
     /\ ComputeSampleAverages.m r = mean (sample_areas py_float (sample_key r) data))
  /\ (forall key, sample_areas py_float key data <> [] ->
        exists r, In r (ComputeSampleAverages.stats mean stdev py_float data)
                  /\ sample_key r = key).
Proof.
  pose proof (nodup_accumulate py_float data [] (NoDup_nil _)) as Hn.
  pose proof (fun key => lookup_accumulate py_float key data []) as Hl.
  cbn [Py.lookup] in Hl.
  unfold ComputeSampleAverages.stats. split.
  - intros r Hr. apply sort_in, in_flat_map in Hr. destruct Hr as [[key vals] [He Hr]].
    apply (stat_of_key mean stdev) in Hr. cbn [fst snd] in Hr.
    destruct Hr as [Ek [Hne [Hnt Hm]]].
    apply (in_dict_lookup _ key_eqb_eq) in He; [|exact Hn].
    unfold ComputeSampleAverages.accumulate in He. rewrite Hl in He. rewrite Ek.
    destruct (sample_areas py_float key data) as [|a l]; [discriminate|].
    injection He as <-. repeat split; [discriminate|exact Hnt|exact Hm].
  - intros key Hne. specialize (Hl key).
    destruct (sample_areas py_float key data) as [|a l] eqn:E; [congruence|].
    apply (lookup_in_dict _ key_eqb_eq) in Hl.
    destruct (stat_of_some mean stdev key (a :: l)) as [r [Er Ek]]; [discriminate|].
    exists r. split; [|exact Ek].
    apply sort_in, in_flat_map. exists (key, a :: l). split; [exact Hl|].
    rewrite Er. left. reflexivity.
Qed.

(** X6. The sample file has one line for a day and a well, and its lines
    are in the order of the day, then of the letter of the well, then of
    its number. *)
Theorem sample_lines_distinct_and_ordered
    (mean stdev : list float -> float) (py_float : string -> option float)
    (data : list (list string)) :
  NoDup (map sample_key (ComputeSampleAverages.stats mean stdev py_float data))
  /\ Sorted sample_line_le (ComputeSampleAverages.stats mean stdev py_float data).
Proof.
  unfold ComputeSampleAverages.stats. split.
  - eapply Permutation_NoDup.
    + apply Permutation_map, sort_perm.
    + apply stat_keys_nodup, (nodup_accumulate py_float data [] (NoDup_nil _)).
  - eapply sorted_impl; [exact stat_leb_le|].
    apply sort_sorted, stat_leb_total.
Qed.

(** The theorem at the file of one tile of well A2 on day 5. *)
Lemma sample_lines_are_the_groups_witness :
  exists r,
    In r (ComputeSampleAverages.stats Pd.mean Pd.std
            (fun s => Some (Py.float_of_Z (Py.int s))) c2_tile_rows)
    /\ ComputeSampleAverages.ntiles r
       = List.length (sample_areas (fun s => Some (Py.float_of_Z (Py.int s)))
                        (sample_key r) c2_tile_rows).
Proof.
  eexists. split; [left; reflexivity|].
  apply (proj1 (sample_lines_are_the_groups Pd.mean Pd.std
                  (fun s => Some (Py.float_of_Z (Py.int s))) c2_tile_rows)).
  left. reflexivity.
Defined.

(** ** Dictionaries filled by a loop *)

Section FoldFacts.
Context {K V R : Type}.
Variable eqb : K -> K -> bool.
Hypothesis eqb_eq : forall a b, eqb a b = true <-> a = b.
Variable read : R -> option (K * V).
Variable add : list (K * list V) -> R -> list (K * list V).
Hypothesis add_read :
  forall d row, add d row = match read row with
                            | Some (k, v) => Py.setdefault_append eqb k v d
                            | None => d
                            end.

Let values_of (key : K) (data : list R) : list V :=
  flat_map (fun row => match read row with
                       | Some (k, v) => if eqb k key then [v] else []
                       | None => []
                       end) data.

Lemma dict_eqb_sym (a b : K) : eqb a b = eqb b a.
Proof.
  destruct (eqb a b) eqn:E1, (eqb b a) eqn:E2; try reflexivity.
  - apply eqb_eq in E1. subst b. rewrite (dict_eqb_refl eqb eqb_eq) in E2. discriminate.
  - apply eqb_eq in E2. subst b. rewrite (dict_eqb_refl eqb eqb_eq) in E1. discriminate.
Qed.

Lemma lookup_fold_add (key : K) (data : list R) :
  forall d,
    Py.lookup eqb key (fold_left add data d)
    = match Py.lookup eqb key d, values_of key data with
      | Some vs, l => Some (vs ++ l)
      | None, [] => None
      | None, l => Some l
      end.
Proof.
  induction data as [|row data IH]; intro d.
  - cbn. destruct (Py.lookup eqb key d); [rewrite app_nil_r|]; reflexivity.
  - cbn [fold_left]. rewrite IH, add_read. unfold values_of. cbn [flat_map].
    fold (values_of key data).
    destruct (read row) as [[k v]|]; [|reflexivity].
    rewrite (lookup_setdefault_append eqb eqb_eq), (dict_eqb_sym k key).
    destruct (eqb key k); [|reflexivity].
    destruct (Py.lookup eqb key d) as [vs|]; [rewrite <- app_assoc|]; reflexivity.
Qed.

Lemma nodup_fold_add (data : list R) :
  forall d, NoDup (map fst d) -> NoDup (map fst (fold_left add data d)).
Proof.
  induction data as [|row data IH]; intros d H; [exact H|].
  cbn [fold_left]. apply IH. rewrite add_read.
  destruct (read row) as [[k v]|]; [|exact H].
  apply (nodup_setdefault_append eqb eqb_eq), H.
Qed.

Lemma nonempty_fold_add (data : list R) :
  forall d, Forall (fun e => snd e <> []) d ->
            Forall (fun e => snd e <> []) (fold_left add data d).
Proof.
  induction data as [|row data IH]; intros d H; [exact H|].
  cbn [fold_left]. apply IH. rewrite add_read.
  destruct (read row) as [[k v]|]; [|exact H].
  clear IH. induction d as [|[k0 vs] d IHd]; cbn [Py.setdefault_append].
  - repeat constructor. discriminate.
  - inversion H; subst. destruct (eqb k k0); constructor; auto.
    cbn. destruct vs; discriminate.
Qed.

End FoldFacts.

(** ** compute_group_day_averages.py: the lines and the samples they stand for *)

Lemma group_add_row_read (py_int : string -> option Z) (py_float : string -> option float)
    (fieldnames : list string) (d : list (Z * list float)) (row : list string) :
  ComputeGroupDayAverages.add_row py_int py_float fieldnames d row
  = match day_and_mean py_int py_float fieldnames row with
    | Some (day, m) => Py.setdefault_append Z.eqb day m d
    | None => d
    end.
Proof.
  unfold ComputeGroupDayAverages.add_row, day_and_mean.
  destruct row as [|v row]; [reflexivity|].
  destruct (py_int _); [|reflexivity].
  destruct (py_float _); reflexivity.
Qed.

Lemma sorted_nodup_lt (l : list Z) :
  Sorted (fun a b => Z.leb a b = true) l -> NoDup l -> Sorted Z.lt l.
Proof.
  intros HS. induction HS as [|a l HS IH Hd]; intro Hn; constructor.
  - apply IH. inversion Hn; assumption.
  - inversion Hn as [|? ? Ha _]; subst.
    destruct Hd as [|b l Hab]; constructor.
    apply Z.leb_le in Hab.
    assert (a <> b) by (intro; subst; apply Ha; left; reflexivity). lia.
Qed.

Lemma day_stat_lines (mean stdev : list float -> float) (d : list (Z * list float))
    (days : list Z) :
  NoDup (map fst d) ->
  Forall (fun e => snd e <> []) d ->
  (forall day, In day days -> In day (map fst d)) ->
  map ComputeGroupDayAverages.day (flat_map (ComputeGroupDayAverages.day_stat mean stdev d) days)
  = days.
Proof.
  intros Hn Hne. induction days as [|day days IH]; intro Hin; [reflexivity|].
  cbn [flat_map]. rewrite map_app, IH by (intros; apply Hin; right; assumption).
  assert (Hd : In day (map fst d)) by (apply Hin; left; reflexivity).
  apply in_map_iff in Hd. destruct Hd as [[k vals] [Ek He]]. cbn in Ek. subst k.
  unfold ComputeGroupDayAverages.day_stat.
  rewrite (in_dict_lookup Z.eqb Z.eqb_eq day vals d Hn He).
  rewrite Forall_forall in Hne. specialize (Hne _ He). cbn in Hne.
  destruct vals as [|v vals]; [congruence|]. reflexivity.
Qed.

(** X7. Every line of a day-averages file stands for the samples of one
    day: its count and its mean are those of the means read from the rows of
    that day, in the order of the file; and every day read has a line. *)
Theorem day_lines_are_the_groups
    (mean stdev : list float -> float) (py_int : string -> option Z)
    (py_float : string -> option float) (fieldnames : list string)
    (data : list (list string)) :
  (forall r,
     In r (ComputeGroupDayAverages.day_stats mean stdev py_int py_float (fieldnames :: data)) ->
     day_means py_int py_float fieldnames (ComputeGroupDayAverages.day r) data <> []
     /\ ComputeGroupDayAverages.n r
        = List.length (day_means py_int py_float fieldnames (ComputeGroupDayAverages.day r) data)
     /\ ComputeGroupDayAverages.mval r
        = mean (day_means py_int py_float fieldnames (ComputeGroupDayAverages.day r) data))
  /\ (forall day, day_means py_int py_float fieldnames day data <> [] ->
        exists r,
          In r (ComputeGroupDayAverages.day_stats mean stdev py_int py_float
                  (fieldnames :: data))
          /\ ComputeGroupDayAverages.day r = day).
Proof.
  assert (Hl : forall day,
             Py.lookup Z.eqb day
               (fold_left (ComputeGroupDayAverages.add_row py_int py_float fieldnames) data [])
             = match day_means py_int py_float fieldnames day data with
               | [] => None
               | l => Some l
               end).
  { intro day.
    exact (lookup_fold_add Z.eqb Z.eqb_eq _ _
             (group_add_row_read py_int py_float fieldnames) day data []). }
  unfold ComputeGroupDayAverages.day_stats, ComputeGroupDayAverages.read_per_well_means.
  split.
  - intros r Hr. apply in_flat_map in Hr. destruct Hr as [day [_ Hr]].
    unfold ComputeGroupDayAverages.day_stat in Hr. rewrite Hl in Hr.
    destruct (day_means py_int py_float fieldnames day data) as [|a l] eqn:E;
      cbn in Hr; [destruct Hr|].
    destruct Hr as [<-|[]]. cbn [ComputeGroupDayAverages.day ComputeGroupDayAverages.n
                                   ComputeGroupDayAverages.mval].
    rewrite E. repeat split. discriminate.
  - intros day Hne. specialize (Hl day).
    destruct (day_means py_int py_float fieldnames day data) as [|a l] eqn:E; [congruence|].
    eexists. split.
    + apply in_flat_map. exists day. split.
      * apply sort_in, in_map_iff. exists (day, a :: l). split; [reflexivity|].
        apply (lookup_in_dict Z.eqb Z.eqb_eq), Hl.
      * unfold ComputeGroupDayAverages.day_stat. rewrite Hl. left. reflexivity.
    + reflexivity.
Qed.

(** X8. The lines of a day-averages file are in strictly increasing order
    of the day: no day has two lines, and every day read has one (the test
    [n == 0] never holds). *)
Theorem day_lines_increase
    (mean stdev : list float -> float) (py_int : string -> option Z)
    (py_float : string -> option float) (rows : list (list string)) :
  Sorted Z.lt (map ComputeGroupDayAverages.day
                 (ComputeGroupDayAverages.day_stats mean stdev py_int py_float rows))
  /\ List.length (ComputeGroupDayAverages.day_stats mean stdev py_int py_float rows)
     = List.length (ComputeGroupDayAverages.read_per_well_means py_int py_float rows).
Proof.
  unfold ComputeGroupDayAverages.day_stats.
  set (d := ComputeGroupDayAverages.read_per_well_means py_int py_float rows).
  assert (Hd : NoDup (map fst d) /\ Forall (fun e => snd e <> []) d).
  { unfold d, ComputeGroupDayAverages.read_per_well_means.
    destruct rows as [|fieldnames data]; [split; constructor|]. split.
    - apply (nodup_fold_add Z.eqb Z.eqb_eq _ _ (group_add_row_read py_int py_float fieldnames)).
      constructor.
    - apply (nonempty_fold_add Z.eqb _ _ (group_add_row_read py_int py_float fieldnames)).
      constructor. }
  destruct Hd as [Hn Hne].
  assert (E : map ComputeGroupDayAverages.day
                (flat_map (ComputeGroupDayAverages.day_stat mean stdev d)
                   (Py.sort Z.leb (map fst d)))
              = Py.sort Z.leb (map fst d)).
  { apply day_stat_lines; [exact Hn|exact Hne|]. intros day H. apply sort_in in H. exact H. }
  split.
  - rewrite E. apply sorted_nodup_lt.
    + apply sort_sorted. intros x y. destruct (Z.leb_spec x y); [auto|].
      right. apply Z.leb_le. lia.
    + eapply Permutation_NoDup; [apply sort_perm|exact Hn].
  - rewrite <- (length_map ComputeGroupDayAverages.day), E.
    rewrite <- (Permutation_length (sort_perm Z.leb (map fst d))). apply length_map.
Qed.

(** The theorem at the sample file of one well on day 5. *)
Lemma day_lines_are_the_groups_witness :
  exists r,
    In r (ComputeGroupDayAverages.day_stats Pd.mean Pd.std (fun s => Some (Py.int s))
            (fun s => Some (Py.float_of_Z (Py.int s))) c2_sample_rows)
    /\ ComputeGroupDayAverages.n r
       = List.length (day_means (fun s => Some (Py.int s))
                        (fun s => Some (Py.float_of_Z (Py.int s)))
                        ["Day"; "Well"; "Mean"] (ComputeGroupDayAverages.day r)
                        [["5"; "A2"; "7"]]).
Proof.
  eexists. split; [left; reflexivity|].
  apply (proj1 (day_lines_are_the_groups Pd.mean Pd.std (fun s => Some (Py.int s))
                  (fun s => Some (Py.float_of_Z (Py.int s)))
                  ["Day"; "Well"; "Mean"] [["5"; "A2"; "7"]])).
  left. reflexivity.
Defined.

(** ** compute_sample_averages.py: the file written and the number returned *)

(** X9. [per_day_sample_stats] on a file that decodes: when the file is
    empty or its first line is blank, the result is 0 and nothing is
    written; otherwise the file written reads back as the header and the
    lines of the wells, six fields each, and the result is the number of
    these lines. *)
Theorem per_day_sample_stats_result
    (mean stdev : list float -> float) (py_float : string -> option float)
    (fmt6 : float -> string) (input text : string) :
  Codec.decode_utf8_sig input = Some text ->
  match Csv.reader text with
  | [] | [] :: _ =>
      ComputeSampleAverages.per_day_sample_stats mean stdev py_float fmt6 input = Some (O, None)
  | _ :: data =>
      exists (written : string) (lines : list (list string)),
        ComputeSampleAverages.per_day_sample_stats mean stdev py_float fmt6 input
        = Some (List.length lines, Some (Codec.encode_utf8_sig written))
        /\ Csv.reader written = ComputeSampleAverages.header_row :: lines
        /\ lines = map (ComputeSampleAverages.format_stat fmt6)
                     (ComputeSampleAverages.stats mean stdev py_float data)
        /\ Forall (fun line => List.length line = 6%nat) lines
  end.
Proof.
  intro Hd. unfold ComputeSampleAverages.per_day_sample_stats. rewrite Hd.
  destruct (Csv.reader text) as [|[|h header] data]; try reflexivity.
  eexists. eexists. split; [|split; [apply reader_header_rows|split; [reflexivity|]]].
  - rewrite length_map. reflexivity.
  - apply Forall_forall. intros line Hl. apply in_map_iff in Hl.
    destruct Hl as [r [<- _]]. reflexivity.
Qed.

(** The theorem at the file of one tile of well A2 on day 5. *)
Lemma per_day_sample_stats_result_witness :
  exists (written : string) (lines : list (list string)),
    ComputeSampleAverages.per_day_sample_stats Pd.mean Pd.std
      (fun s => Some (Py.float_of_Z (Py.int s))) (fun _ => "0.000000") c7_tiles
    = Some (List.length lines, Some (Codec.encode_utf8_sig written))
    /\ Csv.reader written = ComputeSampleAverages.header_row :: lines
    /\ lines = map (ComputeSampleAverages.format_stat (fun _ => "0.000000"))
                 (ComputeSampleAverages.stats Pd.mean Pd.std
                    (fun s => Some (Py.float_of_Z (Py.int s)))
                    [["X_Day5_FITC_Tile-0_A2.tif"; "7"]])
    /\ Forall (fun line => List.length line = 6%nat) lines.
Proof.
  exact (per_day_sample_stats_result Pd.mean Pd.std
           (fun s => Some (Py.float_of_Z (Py.int s))) (fun _ => "0.000000")
           c7_tiles c7_tiles eq_refl).
Defined.

(** ** fix_processed_headers.py: the loop of [main] *)

Lemma rewrite_csv_headers_frame (fs : FS) (path q : string) :
  q <> path -> snd (fst (FixProcessedHeaders.rewrite_csv_headers fs path)) q = fs q.
Proof.
  intro H. unfold FixProcessedHeaders.rewrite_csv_headers.
  destruct (fs path) as [bytes|]; [|reflexivity].
  destruct (Codec.decode_utf8_sig bytes) as [text|]; [|reflexivity].
  destruct (Csv.reader text) as [|header data]; [reflexivity|].
  destruct (FixProcessedHeaders.rows_eqb _ _); [reflexivity|].
  cbn [fst snd]. apply fs_write_other, H.
Qed.

(** X10. The loop of [main] over the paths found: the number of files
    reported as updated is at most the number of paths, and a file that is
    not among the paths is left as it was. *)
Theorem fix_all_touches_the_paths_only (fs : FS) (paths : list string) :
  (fst (FixProcessedHeaders.fix_all fs paths) <= List.length paths)%nat
  /\ forall q, ~ In q paths -> snd (FixProcessedHeaders.fix_all fs paths) q = fs q.
Proof.
  revert fs. induction paths as [|p paths IH]; intro fs.
  - split; [apply Nat.le_refl|reflexivity].
  - cbn [FixProcessedHeaders.fix_all].
    pose proof (rewrite_csv_headers_frame fs p) as Hf.
    destruct (FixProcessedHeaders.rewrite_csv_headers fs p) as [[ok fs'] out].
    cbn [fst snd] in Hf. specialize (IH fs').
    destruct (FixProcessedHeaders.fix_all fs' paths) as [changed fs''].
    cbn [fst snd length] in *. destruct IH as [IH1 IH2]. split.
    + destruct ok; cbn [List.length]; lia.
    + intros q Hq. destruct ok; cbn [snd]; rewrite IH2 by (intro; apply Hq; right; assumption);
      apply Hf; intro; apply Hq; left; congruence.
Qed.

(** ** split_untreated_monoculture.py: the rows of each file *)

(** X11. The file of a bucket holds exactly the data rows read that have
    as many fields as the header and whose image is classified into that
    bucket. *)
Theorem split_file_holds_its_wells
    (parsed : list (list SplitUntreatedMonoculture.Row))
    (header : SplitUntreatedMonoculture.Row)
    (buckets : list (SplitUntreatedMonoculture.Bucket * list SplitUntreatedMonoculture.Row))
    (k : SplitUntreatedMonoculture.Bucket) (row : SplitUntreatedMonoculture.Row) :
  SplitUntreatedMonoculture.collect parsed = (Some header, buckets) ->
  In k SplitUntreatedMonoculture.outputs ->
  (In row (SplitUntreatedMonoculture.sorted_rows buckets k)
   <-> In row (flat_map (@tl _) parsed)
       /\ List.length row = List.length header
       /\ exists image rest,
            row = image :: rest
            /\ SplitUntreatedMonoculture.classify_image image = Some k).
Proof.
  intros Hc Hk. pose proof (sorted_rows_spec parsed k Hk) as E.
  rewrite Hc in E. cbn [fst snd cols_of] in E. rewrite E, sort_in, filter_In.
  unfold sel, accepted, goes_to. split.
  - intros [Hin H]. split; [exact Hin|].
    destruct row as [|image rest]; [discriminate|].
    apply andb_true_iff in H. destruct H as [H1 H2].
    apply andb_true_iff in H1. destruct H1 as [Hlen _].
    apply Nat.eqb_eq in Hlen. split; [exact Hlen|].
    exists image, rest. split; [reflexivity|].
    destruct (SplitUntreatedMonoculture.classify_image image) as [cls|]; [|discriminate].
    apply bucket_eqb_eq in H2. congruence.
  - intros [Hin [Hlen [image [rest [-> Hcls]]]]]. split; [exact Hin|].
    rewrite Hcls, (proj2 (Nat.eqb_eq _ _) Hlen), (proj2 (bucket_eqb_eq k k) eq_refl).
    reflexivity.
Qed.

(** The theorem at a file of two rows: the row of well A1 is in the file
    of 20k, A2780Naive. *)
Lemma split_file_holds_its_wells_witness :
  In c9_row1 (SplitUntreatedMonoculture.sorted_rows
                (snd (SplitUntreatedMonoculture.collect [[c9_header; c9_row3; c9_row1]]))
                ("20k", "A2780Naive")).
Proof.
  apply (split_file_holds_its_wells [[c9_header; c9_row3; c9_row1]] c9_header
           (snd (SplitUntreatedMonoculture.collect [[c9_header; c9_row3; c9_row1]]))
           ("20k", "A2780Naive") c9_row1).
  - reflexivity.
  - left. reflexivity.
  - split; [right; left; reflexivity|]. split; [reflexivity|].
    exists "X_Day5_FITC_Tile-0_A1.tif", ["1"]. split; reflexivity.
Defined.

(** ** split_seeding_data.py: the rows of each file *)

(** X12. For a file of the mapping, each of the two frames written holds
    the rows of the input whose well is in its list, whole and in the order
    of the input; and no row is in both frames. *)
Theorem split_by_wells_keeps_rows_and_order
    (name : string) (w20 w30 : list string) (df : Pd.DataFrame) (j : nat) :
  In (name, (w20, w30)) SplitSeedingData.file_well_mapping ->
  Pd.index_of "Image" (Pd.columns df) = Some j ->
  Pd.has_column df "Well" = false ->
  (forall r, In r (Pd.rows df) -> List.length r = List.length (Pd.columns df)) ->
  (forall r, In r (Pd.rows df) -> exists s, nth j r Pd.CNone = Pd.CStr s) ->
  exists df_20k df_30k,
    SplitSeedingData.split_csv_by_wells df (w20, w30) = Some (df_20k, df_30k)
    /\ Pd.rows df_20k = filter (fun r => Pd.isin w20 (row_well j r)) (Pd.rows df)
    /\ Pd.rows df_30k = filter (fun r => Pd.isin w30 (row_well j r)) (Pd.rows df)
    /\ forall r, Pd.isin w20 (row_well j r) && Pd.isin w30 (row_well j r) = false.
Proof.
  intros Hm Hj Hw Hlen Hstr.
  rewrite (split_csv_by_wells_spec df j w20 w30 Hj Hw Hlen Hstr).
  eexists. eexists. split; [reflexivity|]. split; [reflexivity|]. split; [reflexivity|].
  intro r. apply isin_disjoint.
  cbn in Hm. repeat (destruct Hm as [Hm|Hm]; [injection Hm as _ <- <-; reflexivity|]).
  destruct Hm.
Qed.

(** The theorem at a frame of three rows and the mapping of A2780cisT.csv. *)
Lemma split_by_wells_keeps_rows_and_order_witness :
  exists df_20k df_30k,
    SplitSeedingData.split_csv_by_wells c3_frame (["C4"; "C5"; "C6"], ["D4"; "D5"; "D6"])
    = Some (df_20k, df_30k)
    /\ Pd.rows df_20k
       = filter (fun r => Pd.isin ["C4"; "C5"; "C6"] (row_well 0 r)) (Pd.rows c3_frame)
    /\ Pd.rows df_30k
       = filter (fun r => Pd.isin ["D4"; "D5"; "D6"] (row_well 0 r)) (Pd.rows c3_frame)
    /\ forall r, Pd.isin ["C4"; "C5"; "C6"] (row_well 0 r)
                 && Pd.isin ["D4"; "D5"; "D6"] (row_well 0 r) = false.
Proof.
  apply (split_by_wells_keeps_rows_and_order "A2780cisT.csv" _ _ c3_frame 0).
  - left. reflexivity.
  - reflexivity.
  - reflexivity.
  - cbn. intros r [<-|[<-|[<-|[]]]]; reflexivity.
  - cbn. intros r [<-|[<-|[<-|[]]]]; eexists; reflexivity.
Defined.

(** ** process_area_data.py: what the normalisation leaves as it is *)






(** ** process_area_data.py: the loop of [main] *)

Lemma process_csv_file_frame (read_csv : string -> option Pd.DataFrame) (linesep : string)
    (float_repr : float -> string) (w : ProcessAreaData.World)
    (file_path output_path q : string) :
  q <> output_path ->
  ProcessAreaData.files
    (snd (ProcessAreaData.process_csv_file read_csv linesep float_repr w file_path output_path)) q
  = ProcessAreaData.files w q.
Proof.
  intro H. unfold ProcessAreaData.process_csv_file.
  destruct (ProcessAreaData.files w file_path) as [bytes|]; [|reflexivity].
  destruct (read_csv bytes) as [df|]; [|reflexivity].
  destruct (negb _); [reflexivity|].
  destruct (ProcessAreaData.normalise df); [|reflexivity].
  cbn. apply fs_write_other, H.
Qed.

(** X14. The loop of [main]: every file is counted once, as a success or
    as a failure, and a path that is not the output path of one of the
    files holds what it held before; so the files of Datasets are kept when
    no output path is one of them. *)
Theorem process_all_counts_and_keeps
    (read_csv : string -> option Pd.DataFrame) (linesep : string)
    (float_repr : float -> string) (output_path_of : string -> string)
    (csv_files : list string) :
  forall (w : ProcessAreaData.World) (successful failed : nat),
    let r := ProcessAreaData.process_all read_csv linesep float_repr output_path_of
               w csv_files successful failed in
    (fst (fst r) + snd (fst r) = successful + failed + List.length csv_files)%nat
    /\ (successful <= fst (fst r))%nat /\ (failed <= snd (fst r))%nat
    /\ forall q, ~ In q (map output_path_of csv_files) ->
                 ProcessAreaData.files (snd r) q = ProcessAreaData.files w q.
Proof.
  induction csv_files as [|f rest IH]; intros w successful failed.
  - cbn. repeat split; lia.
  - cbn [ProcessAreaData.process_all].
    pose proof (fun q => process_csv_file_frame read_csv linesep float_repr w f
                           (output_path_of f) q) as Hf.
    destruct (ProcessAreaData.process_csv_file read_csv linesep float_repr w f
                (output_path_of f)) as [ok w'].
    cbn [snd] in Hf.
    destruct ok; [specialize (IH w' (S successful) failed)
                 |specialize (IH w' successful (S failed))];
      cbv zeta in IH |- *; destruct IH as [I1 [I2 [I3 I4]]];
      (split; [cbn [List.length]; lia|]); (split; [lia|]); (split; [lia|]);
      intros q Hq; cbn [map] in Hq;
      (rewrite I4 by (intro; apply Hq; right; assumption));
      apply Hf; intro; apply Hq; left; congruence.
Qed.

(** ** UTF-8: the text read from a valid file, and the text written *)

Lemma valid_utf8_cons (a : ascii) (r : string) :
  Codec.valid_utf8 (String a r)
  = let n := Py.ord a in
    if (n <? 128)%nat then Codec.valid_utf8 r
    else if (194 <=? n)%nat && (n <=? 223)%nat then
      match r with
      | String b r' => Codec.cont b && Codec.valid_utf8 r'
      | _ => false
      end
    else if (224 <=? n)%nat && (n <=? 239)%nat then
      match r with
      | String b (String c r') =>
          Codec.cont b && Codec.cont c
          && (if (n =? 224)%nat then (160 <=? Py.ord b)%nat else true)
          && (if (n =? 237)%nat then (Py.ord b <=? 159)%nat else true)
          && Codec.valid_utf8 r'
      | _ => false
      end
    else if (240 <=? n)%nat && (n <=? 244)%nat then
      match r with
      | String b (String c (String d r')) =>
          Codec.cont b && Codec.cont c && Codec.cont d
          && (if (n =? 240)%nat then (144 <=? Py.ord b)%nat else true)
          && (if (n =? 244)%nat then (Py.ord b <=? 143)%nat else true)
          && Codec.valid_utf8 r'
      | _ => false
      end
    else false.
Proof. reflexivity. Qed.

Lemma cont_high (c : ascii) : Codec.cont c = true -> (128 <= Py.ord c)%nat.
Proof. unfold Codec.cont. intro H. apply andb_true_iff in H. destruct H as [H _].
  apply Nat.leb_le in H. exact H. Qed.

(** A valid text starts with an ASCII character or with a sequence of two,
    three or four bytes above 127, and goes on with a valid text; what
    follows the first character or sequence does not matter for it. *)
Lemma valid_cases (a : ascii) (r : string) :
  Codec.valid_utf8 (String a r) = true ->
  ((Py.ord a < 128)%nat /\ Codec.valid_utf8 r = true)
  \/ ((128 <= Py.ord a)%nat
      /\ ((exists y r', r = String y r' /\ (128 <= Py.ord y)%nat
                        /\ Codec.valid_utf8 r' = true
                        /\ forall t, Codec.valid_utf8 (String a (String y t))
                                     = Codec.valid_utf8 t)
          \/ (exists y z r', r = String y (String z r')
                             /\ (128 <= Py.ord y)%nat /\ (128 <= Py.ord z)%nat
                             /\ Codec.valid_utf8 r' = true
                             /\ forall t, Codec.valid_utf8 (String a (String y (String z t)))
                                          = Codec.valid_utf8 t)
          \/ (exists y z w r', r = String y (String z (String w r'))
                               /\ (128 <= Py.ord y)%nat /\ (128 <= Py.ord z)%nat
                               /\ (128 <= Py.ord w)%nat
                               /\ Codec.valid_utf8 r' = true
                               /\ forall t,
                                    Codec.valid_utf8 (String a (String y (String z (String w t))))
                                    = Codec.valid_utf8 t))).
Proof.
  rewrite valid_utf8_cons. cbv zeta.
  destruct (Nat.ltb_spec (Py.ord a) 128) as [Hlt|Hge]; [intro H; left; auto|].
  intro H. right. split; [exact Hge|].
  destruct ((194 <=? Py.ord a)%nat && (Py.ord a <=? 223)%nat) eqn:E2.
  { left. destruct r as [|y r']; [discriminate|].
    apply andb_true_iff in H. destruct H as [Hy Hr].
    exists y, r'. repeat split; [apply cont_high, Hy|exact Hr|].
    intro t. rewrite valid_utf8_cons. cbv zeta.
    rewrite (proj2 (Nat.ltb_ge _ _) Hge), E2, Hy. reflexivity. }
  destruct ((224 <=? Py.ord a)%nat && (Py.ord a <=? 239)%nat) eqn:E3.
  { right. left. destruct r as [|y [|z r']]; try discriminate.
    apply andb_true_iff in H. destruct H as [H Hr].
    assert (Hyz : Codec.cont y = true /\ Codec.cont z = true).
    { destruct (Codec.cont y), (Codec.cont z); auto; discriminate. }
    exists y, z, r'. repeat split;
      [apply cont_high, Hyz|apply cont_high, Hyz|exact Hr|].
    intro t. rewrite valid_utf8_cons. cbv zeta.
    rewrite (proj2 (Nat.ltb_ge _ _) Hge), E2, E3, H. reflexivity. }
  destruct ((240 <=? Py.ord a)%nat && (Py.ord a <=? 244)%nat) eqn:E4; [|discriminate].
  right. right. destruct r as [|y [|z [|w r']]]; try discriminate.
  apply andb_true_iff in H. destruct H as [H Hr].
  assert (Hyz : Codec.cont y = true /\ Codec.cont z = true /\ Codec.cont w = true).
  { destruct (Codec.cont y), (Codec.cont z), (Codec.cont w); auto; discriminate. }
  exists y, z, w, r'. repeat split;
    [apply cont_high, Hyz|apply cont_high, Hyz|apply cont_high, Hyz|exact Hr|].
  intro t. rewrite valid_utf8_cons. cbv zeta.
  rewrite (proj2 (Nat.ltb_ge _ _) Hge), E2, E3, E4, H. reflexivity.
Qed.

Lemma valid_ascii_cons (c : ascii) (s : string) :
  (Py.ord c < 128)%nat -> Codec.valid_utf8 (String c s) = Codec.valid_utf8 s.
Proof.
  intro H. rewrite valid_utf8_cons. cbv zeta.
  rewrite (proj2 (Nat.ltb_lt _ _) H). reflexivity.
Qed.

Lemma valid_app_len (n : nat) :
  forall a b, (String.length a <= n)%nat -> Codec.valid_utf8 a = true ->
              Codec.valid_utf8 (a +++ b) = Codec.valid_utf8 b.
Proof.
  induction n as [|n IH]; intros a b Hn Ha.
  - destruct a; [reflexivity|cbn in Hn; lia].
  - destruct a as [|x a]; [reflexivity|]. cbn [String.length] in Hn.
    destruct (valid_cases x a Ha) as [[Hx Hr]|[Hx [H|[H|H]]]].
    + cbn [String.append]. rewrite valid_ascii_cons by exact Hx. apply IH; [lia|exact Hr].
    + destruct H as [y [r' [-> [_ [Hr Ht]]]]]. cbn [String.append String.length] in *.
      rewrite Ht. apply IH; [lia|exact Hr].
    + destruct H as [y [z [r' [-> [_ [_ [Hr Ht]]]]]]]. cbn [String.append String.length] in *.
      rewrite Ht. apply IH; [lia|exact Hr].
    + destruct H as [y [z [w [r' [-> [_ [_ [_ [Hr Ht]]]]]]]]].
      cbn [String.append String.length] in *.
      rewrite Ht. apply IH; [lia|exact Hr].
Qed.

Lemma valid_app (a b : string) :
  Codec.valid_utf8 a = true -> Codec.valid_utf8 (a +++ b) = Codec.valid_utf8 b.
Proof. apply (valid_app_len (String.length a)). apply Nat.le_refl. Qed.

Lemma valid_split_len (n : nat) :
  forall a c b, (String.length a <= n)%nat -> (Py.ord c < 128)%nat ->
                Codec.valid_utf8 (a +++ String c b) = true ->
                Codec.valid_utf8 a = true /\ Codec.valid_utf8 b = true.
Proof.
  induction n as [|n IH]; intros a c b Hn Hc H.
  - destruct a; [|cbn in Hn; lia]. cbn [String.append] in H.
    rewrite valid_ascii_cons in H by exact Hc. split; [reflexivity|exact H].
  - destruct a as [|x a].
    { cbn [String.append] in H. rewrite valid_ascii_cons in H by exact Hc.
      split; [reflexivity|exact H]. }
    cbn [String.length String.append] in *.
    destruct (valid_cases x _ H) as [[Hx Hr]|[Hx [H'|[H'|H']]]].
    + rewrite valid_ascii_cons by exact Hx. apply (IH a c b); [lia|exact Hc|exact Hr].
    + destruct H' as [y [r' [E [Hy [Hr Ht]]]]].
      destruct a as [|y' a]; cbn [String.append] in E; inversion E; subst; [lia|].
      cbn [String.length] in Hn. rewrite Ht.
      destruct (IH a c b) as [Ha Hb]; [lia|exact Hc|exact Hr|]. split; assumption.
    + destruct H' as [y [z [r' [E [Hy [Hz [Hr Ht]]]]]]].
      destruct a as [|y' [|z' a]]; cbn [String.append] in E; inversion E; subst; try lia.
      cbn [String.length] in Hn. rewrite Ht.
      destruct (IH a c b) as [Ha Hb]; [lia|exact Hc|exact Hr|]. split; assumption.
    + destruct H' as [y [z [w [r' [E [Hy [Hz [Hw [Hr Ht]]]]]]]]].
      destruct a as [|y' [|z' [|w' a]]]; cbn [String.append] in E; inversion E; subst;
        try lia.
      cbn [String.length] in Hn. rewrite Ht.
      destruct (IH a c b) as [Ha Hb]; [lia|exact Hc|exact Hr|]. split; assumption.
Qed.

Lemma valid_split (a b : string) (c : ascii) :
  (Py.ord c < 128)%nat ->
  Codec.valid_utf8 (a +++ String c b) = true ->
  Codec.valid_utf8 a = true /\ Codec.valid_utf8 b = true.
Proof. intros Hc H. apply (valid_split_len (String.length a) a c b); auto. Qed.

Lemma high_not_dquote (c : ascii) : (128 <= Py.ord c)%nat -> Ascii.eqb c Csv.dquote = false.
Proof.
  intro H. apply Ascii.eqb_neq. intros ->. vm_compute in H. lia.
Qed.

Lemma valid_escape_len (n : nat) :
  forall f, (String.length f <= n)%nat -> Codec.valid_utf8 f = true ->
            Codec.valid_utf8 (Csv.escape f) = true.
Proof.
  induction n as [|n IH]; intros f Hn Hf.
  - destruct f; [reflexivity|cbn in Hn; lia].
  - destruct f as [|x f]; [reflexivity|]. cbn [String.length] in Hn.
    destruct (valid_cases x f Hf) as [[Hx Hr]|[Hx [H|[H|H]]]].
    + cbn [Csv.escape]. destruct (Ascii.eqb x Csv.dquote).
      * rewrite !valid_ascii_cons by (vm_compute; lia). apply IH; [lia|exact Hr].
      * rewrite valid_ascii_cons by exact Hx. apply IH; [lia|exact Hr].
    + destruct H as [y [r' [-> [Hy [Hr Ht]]]]]. cbn [Csv.escape String.length] in *.
      rewrite !high_not_dquote by assumption. rewrite Ht. apply IH; [lia|exact Hr].
    + destruct H as [y [z [r' [-> [Hy [Hz [Hr Ht]]]]]]]. cbn [Csv.escape String.length] in *.
      rewrite !high_not_dquote by assumption. rewrite Ht. apply IH; [lia|exact Hr].
    + destruct H as [y [z [w [r' [-> [Hy [Hz [Hw [Hr Ht]]]]]]]]].
      cbn [Csv.escape String.length] in *.
      rewrite !high_not_dquote by assumption. rewrite Ht. apply IH; [lia|exact Hr].
Qed.

Lemma valid_field (f : string) :
  Codec.valid_utf8 f = true -> Codec.valid_utf8 (Csv.field Csv.crlf f) = true.
Proof.
  intro H. unfold Csv.field. destruct (Csv.needs_quote Csv.crlf f); [|exact H].
  rewrite valid_ascii_cons by (vm_compute; lia).
  rewrite valid_app by (apply (valid_escape_len (String.length f)); auto).
  reflexivity.
Qed.

Lemma valid_join (l : list string) :
  Forall (fun f => Codec.valid_utf8 f = true) l ->
  Codec.valid_utf8 (Csv.join (String Csv.comma EmptyString) l) = true.
Proof.
  induction l as [|x l IH]; intro H; [reflexivity|].
  inversion H as [|? ? Hx Hl]; subst. cbn [Csv.join].
  destruct l as [|y l]; [exact Hx|].
  rewrite valid_app by exact Hx. cbn [String.append].
  rewrite valid_ascii_cons by (vm_compute; lia). apply IH, Hl.
Qed.

Lemma valid_writerow (row : list string) :
  Forall (fun f => Codec.valid_utf8 f = true) row ->
  Codec.valid_utf8 (Csv.writerow row) = true.
Proof.
  intro H. unfold Csv.writerow, Csv.writerow_with.
  assert (G : Codec.valid_utf8
                (Csv.join (String Csv.comma EmptyString) (map (Csv.field Csv.crlf) row)
                 +++ Csv.crlf) = true).
  { rewrite valid_app; [reflexivity|]. apply valid_join.
    apply Forall_forall. intros f Hf. apply in_map_iff in Hf. destruct Hf as [g [<- Hg]].
    apply valid_field. rewrite Forall_forall in H. apply H, Hg. }
  destruct row as [|[|c f] [|g row]]; exact G.
Qed.

Lemma valid_writerows (rows : list (list string)) :
  Forall (Forall (fun f => Codec.valid_utf8 f = true)) rows ->
  Codec.valid_utf8 (Csv.writerows rows) = true.
Proof.
  induction rows as [|r rows IH]; intro H; [reflexivity|].
  inversion H as [|? ? Hr Hrows]; subst.
  change (Csv.writerows (r :: rows)) with (Csv.writerow r +++ Csv.writerows rows).
  rewrite valid_app by (apply valid_writerow, Hr). apply IH, Hrows.
Qed.

Lemma newline_ascii (c : ascii) : Csv.is_newline c = true -> (Py.ord c < 128)%nat.
Proof.
  unfold Csv.is_newline. intro H. apply orb_true_iff in H.
  destruct H as [H|H]; apply Ascii.eqb_eq in H; subst c; vm_compute; lia.
Qed.

Lemma eqb_ascii (c d : ascii) :
  (Py.ord d < 128)%nat -> Ascii.eqb c d = true -> (Py.ord c < 128)%nat.
Proof. intros H E. apply Ascii.eqb_eq in E. subst c. exact H. Qed.

Lemma valid_drop_char (f rest : string) (c : ascii) :
  (Py.ord c < 128)%nat ->
  Codec.valid_utf8 (f +++ String c rest) = true ->
  Codec.valid_utf8 f = true /\ Codec.valid_utf8 rest = true
  /\ Codec.valid_utf8 (f +++ rest) = true
  /\ Codec.valid_utf8 (f +++ String c EmptyString) = true.
Proof.
  intros Hc H. destruct (valid_split f rest c Hc H) as [Hf Hr].
  repeat split; try assumption.
  - rewrite valid_app; assumption.
  - rewrite valid_app by assumption. rewrite valid_ascii_cons by exact Hc. reflexivity.
Qed.

Lemma add_char_ok (c : ascii) (s : Csv.state) (p : Csv.parser) (rest : string) :
  parser_ok p (String c rest) -> parser_ok (Csv.set_state s (Csv.add_char c p)) rest.
Proof.
  destruct p as [s0 f fs rs]. unfold parser_ok. cbn. intros [H1 H2].
  rewrite append_assoc. split; assumption.
Qed.

Lemma char_ok (c : ascii) (p : Csv.parser) (rest : string) :
  parser_ok p (String c rest) ->
  (Csv.st p = Csv.EAT_CRNL -> c = Csv.lf) ->
  parser_ok (Csv.process_char c p) rest
  /\ ((Py.ord c < 128)%nat -> Codec.valid_utf8 (Csv.fld (Csv.process_char c p)) = true).
Proof.
  intros Hok He.
  assert (Hn : Csv.is_newline c = true -> (Py.ord c < 128)%nat) by apply newline_ascii.
  assert (Hq : Ascii.eqb c Csv.dquote = true -> (Py.ord c < 128)%nat)
    by (apply eqb_ascii; vm_compute; lia).
  assert (Hm : Ascii.eqb c Csv.comma = true -> (Py.ord c < 128)%nat)
    by (apply eqb_ascii; vm_compute; lia).
  assert (Hadd : forall s, parser_ok (Csv.set_state s (Csv.add_char c p)) rest)
    by (intro s; apply add_char_ok, Hok).
  assert (Hdrop : (Py.ord c < 128)%nat ->
                  Codec.valid_utf8 (Csv.fld p) = true /\ Codec.valid_utf8 rest = true
                  /\ Codec.valid_utf8 (Csv.fld p +++ rest) = true
                  /\ Codec.valid_utf8 (Csv.fld p +++ String c EmptyString) = true).
  { intro Hc. apply valid_drop_char; [exact Hc|apply Hok]. }
  destruct p as [s f fs rs]. unfold parser_ok in *. cbn [Csv.fld Csv.flds Csv.recs Csv.st] in *.
  destruct Hok as [Hv [Hfs Hrs]].
  unfold Csv.process_char. cbn [Csv.st].
  destruct s;
    repeat match goal with
           | |- context [if Csv.is_newline c then _ else _] =>
               destruct (Csv.is_newline c) eqn:?
           | |- context [if Ascii.eqb c Csv.dquote then _ else _] =>
               destruct (Ascii.eqb c Csv.dquote) eqn:?
           | |- context [if Ascii.eqb c Csv.comma then _ else _] =>
               destruct (Ascii.eqb c Csv.comma) eqn:?
           end;
    cbn [Csv.set_state Csv.save_field Csv.add_char Csv.fld Csv.flds Csv.recs String.append
           Csv.st];
    try (specialize (He eq_refl); subst c);
    try (destruct Hdrop as [Df [Dr [Dfr Dfc]]]; [solve [auto | vm_compute; lia]|]);
    try solve [ split; [repeat split; try assumption; constructor; assumption
                       |intros _; solve [assumption|reflexivity]] ];
    try solve [ split; [rewrite append_assoc; cbn [String.append]; repeat split; assumption
                       |intro Hc; first [assumption | apply (Hdrop Hc)]] ].
Qed.

Lemma valid_row_rev (r : list string) : valid_row r -> valid_row (rev r).
Proof. apply Forall_rev. Qed.

Lemma eol_ok (p : Csv.parser) (rest : string) :
  parser_ok p rest -> Codec.valid_utf8 (Csv.fld p) = true ->
  parser_ok (Csv.process_eol p) rest
  /\ Codec.valid_utf8 (Csv.fld (Csv.process_eol p)) = true
  /\ Csv.st (Csv.process_eol p) <> Csv.EAT_CRNL.
Proof.
  destruct p as [s f fs rs]. unfold parser_ok. cbn [Csv.fld Csv.flds Csv.recs].
  intros [Hv [Hfs Hrs]] Hf.
  assert (Hr : Codec.valid_utf8 rest = true) by (rewrite valid_app in Hv; assumption).
  unfold Csv.process_eol. cbn [Csv.st].
  destruct s; cbn [Csv.yield Csv.save_field Csv.fld Csv.flds Csv.recs Csv.st String.append];
    (split; [split; [assumption|split]|split; [solve [assumption|reflexivity]|discriminate]]);
    try assumption; try constructor; try assumption;
    try (apply valid_row_rev; try constructor; assumption).
Qed.

Lemma char_state (c : ascii) (p : Csv.parser) :
  Csv.is_newline c = false -> Csv.st p <> Csv.EAT_CRNL ->
  Csv.st (Csv.process_char c p) <> Csv.EAT_CRNL.
Proof.
  intros Hn Hs. destruct p as [s f fs rs]. unfold Csv.process_char. cbn [Csv.st] in *.
  rewrite Hn.
  destruct s; try congruence;
    repeat match goal with
           | |- context [if ?b then _ else _] => destruct b
           end; cbn; discriminate.
Qed.

Lemma feed_ok (text : string) :
  forall (pending : bool) (p : Csv.parser),
    parser_ok p text ->
    (Csv.st p = Csv.EAT_CRNL -> exists r, text = String Csv.lf r) ->
    valid_rows (Csv.recs (Csv.feed text pending p)).
Proof.
  induction text as [|c rest IH]; intros pending p Hok He.
  - assert (Hf : Codec.valid_utf8 (Csv.fld p) = true).
    { destruct Hok as [Hv _]. rewrite append_empty_r in Hv. exact Hv. }
    assert (H' : exists p', (if pending then Csv.process_eol p else p) = p'
                            /\ parser_ok p' EmptyString
                            /\ Codec.valid_utf8 (Csv.fld p') = true).
    { destruct pending; eexists; (split; [reflexivity|]).
      - destruct (eol_ok p EmptyString Hok Hf) as [H1 [H2 _]]. split; assumption.
      - split; assumption. }
    destruct H' as [p' [Ep [[_ [Hfs Hrs]] Hf']]].
    unfold Csv.feed. rewrite Ep.
    assert (Hy : valid_rows (Csv.recs (Csv.yield (Csv.save_field p')))).
    { destruct p' as [s f fs rs].
      cbn [Csv.yield Csv.save_field Csv.recs Csv.flds Csv.fld] in *.
      constructor; [|exact Hrs].
      apply valid_row_rev. constructor; assumption. }
    destruct (Csv.st p'); try exact Hy; destruct (Csv.fld p'); assumption.
  - assert (Hc : Csv.st p = Csv.EAT_CRNL -> c = Csv.lf).
    { intro E. destruct (He E) as [r Er]. congruence. }
    destruct (char_ok c p rest Hok Hc) as [Hok' Hfld].
    assert (Heol : Csv.is_newline c = true ->
                   valid_rows (Csv.recs (Csv.feed rest false
                                           (Csv.process_eol (Csv.process_char c p))))).
    { intro Hn. destruct (eol_ok _ rest Hok' (Hfld (newline_ascii c Hn))) as [H1 [_ H3]].
      apply IH; [exact H1|]. intro E. congruence. }
    rewrite feed_cons. unfold Csv.is_newline in Heol.
    destruct (Ascii.eqb c Csv.lf) eqn:Elf; [apply Heol; reflexivity|].
    destruct (Ascii.eqb c Csv.cr) eqn:Ecr.
    + destruct rest as [|c2 rest']; [apply Heol; reflexivity|].
      destruct (Ascii.eqb c2 Csv.lf) eqn:E2; [|apply Heol; reflexivity].
      apply IH; [exact Hok'|]. intros _. apply Ascii.eqb_eq in E2. subst c2.
      eexists. reflexivity.
    + apply IH; [exact Hok'|]. intro E. exfalso. revert E. apply char_state.
      * unfold Csv.is_newline. rewrite Elf, Ecr. reflexivity.
      * intro E. specialize (Hc E). subst c. rewrite Ascii.eqb_refl in Elf. discriminate.
Qed.

(** The rows that the csv reader reads from a valid text hold valid
    fields. *)
Lemma reader_valid (text : string) :
  Codec.valid_utf8 text = true -> valid_rows (Csv.reader text).
Proof.
  intro H. unfold Csv.reader. apply Forall_rev. apply feed_ok.
  - split; [exact H|split; constructor].
  - discriminate.
Qed.

Lemma startswith_split (p s : string) :
  Py.startswith p s = true -> s = p +++ Py.drop (String.length p) s.
Proof.
  revert s. induction p as [|a p IH]; intros s H; [reflexivity|].
  destruct s as [|b s]; [discriminate|]. cbn [Py.startswith] in H.
  apply andb_true_iff in H. destruct H as [Ha Hp]. apply Ascii.eqb_eq in Ha. subst b.
  cbn [String.length Py.drop String.append]. f_equal. apply IH, Hp.
Qed.

Lemma decode_valid (bytes text : string) :
  Codec.decode_utf8_sig bytes = Some text -> Codec.valid_utf8 text = true.
Proof.
  unfold Codec.decode_utf8_sig. destruct (Codec.valid_utf8 bytes) eqn:E; [|discriminate].
  destruct (Py.startswith Codec.BOM bytes) eqn:Eb; intro H; injection H as <-; [|exact E].
  apply startswith_split in Eb. rewrite Eb in E.
  change (String.length Codec.BOM) with 3%nat in E. exact E.
Qed.

(** ** fix_processed_headers.py: a second run changes nothing *)

Lemma renames_values :
  forallb (fun kv => Codec.valid_utf8 (snd kv)
                     && match Py.lookup String.eqb (snd kv) FixProcessedHeaders.RENAMES with
                        | None => true
                        | Some _ => false
                        end) FixProcessedHeaders.RENAMES = true.
Proof. vm_compute. reflexivity. Qed.

Lemma rename_settled (h : string) :
  Py.lookup String.eqb (FixProcessedHeaders.rename h) FixProcessedHeaders.RENAMES = None
  /\ (Codec.valid_utf8 h = true -> Codec.valid_utf8 (FixProcessedHeaders.rename h) = true).
Proof.
  unfold FixProcessedHeaders.rename.
  destruct (Py.lookup String.eqb h FixProcessedHeaders.RENAMES) as [h'|] eqn:E;
    [|split; [exact E|auto]].
  apply (lookup_in_dict String.eqb String.eqb_eq) in E.
  pose proof renames_values as H. rewrite forallb_forall in H. specialize (H _ E).
  cbn [snd] in H. apply andb_true_iff in H. destruct H as [Hv Hl].
  split; [|intros _; exact Hv].
  destruct (Py.lookup String.eqb h' FixProcessedHeaders.RENAMES); [discriminate|reflexivity].
Qed.

Lemma rewrite_false_same (fs : FS) (path : string) :
  fst (fst (FixProcessedHeaders.rewrite_csv_headers fs path)) = false ->
  snd (fst (FixProcessedHeaders.rewrite_csv_headers fs path)) = fs.
Proof.
  unfold FixProcessedHeaders.rewrite_csv_headers.
  destruct (fs path) as [bytes|]; [|reflexivity].
  destruct (Codec.decode_utf8_sig bytes) as [text|]; [|reflexivity].
  destruct (Csv.reader text) as [|header data]; [reflexivity|].
  destruct (FixProcessedHeaders.rows_eqb _ _); [reflexivity|discriminate].
Qed.

Lemma rewrite_reads_its_file (fs1 fs2 : FS) (path : string) :
  fs1 path = fs2 path ->
  fst (fst (FixProcessedHeaders.rewrite_csv_headers fs1 path))
  = fst (fst (FixProcessedHeaders.rewrite_csv_headers fs2 path)).
Proof.
  intro H. unfold FixProcessedHeaders.rewrite_csv_headers. rewrite H.
  destruct (fs2 path) as [bytes|]; [|reflexivity].
  destruct (Codec.decode_utf8_sig bytes) as [text|]; [|reflexivity].
  destruct (Csv.reader text) as [|header data]; [reflexivity|].
  destruct (FixProcessedHeaders.rows_eqb _ _); reflexivity.
Qed.

Lemma rewrite_settles (fs : FS) (path : string) :
  fst (fst (FixProcessedHeaders.rewrite_csv_headers
              (snd (fst (FixProcessedHeaders.rewrite_csv_headers fs path))) path)) = false.
Proof.
  destruct (fst (fst (FixProcessedHeaders.rewrite_csv_headers fs path))) eqn:E.
  - revert E. unfold FixProcessedHeaders.rewrite_csv_headers at 1 3.
    destruct (fs path) as [bytes|]; [|discriminate].
    destruct (Codec.decode_utf8_sig bytes) as [text|] eqn:Hd; [|discriminate].
    pose proof (reader_valid text (decode_valid _ _ Hd)) as Hv.
    destruct (Csv.reader text) as [|header data]; [discriminate|].
    destruct (FixProcessedHeaders.rows_eqb _ _); [discriminate|]. intros _.
    cbn [fst snd]. unfold FixProcessedHeaders.rewrite_csv_headers.
    rewrite fs_write_same.
    inversion Hv as [|? ? Hh Hdata]; subst.
    assert (Hn : valid_row (map FixProcessedHeaders.rename header)).
    { apply Forall_forall. intros h Hin. apply in_map_iff in Hin.
      destruct Hin as [h0 [<- Hin]]. apply rename_settled.
      unfold valid_row in Hh. rewrite Forall_forall in Hh. apply Hh, Hin. }
    rewrite decode_encode.
    + rewrite reader_header_rows.
      assert (Hm : map FixProcessedHeaders.rename (map FixProcessedHeaders.rename header)
                   = map FixProcessedHeaders.rename header).
      { apply map_rename_fixpoint. intros h Hin. apply in_map_iff in Hin.
        destruct Hin as [h0 [<- _]]. apply rename_settled. }
      rewrite Hm, (proj2 (rows_eqb_eq _ _) eq_refl). reflexivity.
    + rewrite valid_app by (apply valid_writerow, Hn). apply valid_writerows, Hdata.
  - rewrite (rewrite_false_same fs path E). exact E.
Qed.

Lemma rewrite_keeps_settled (fs : FS) (p q : string) :
  fst (fst (FixProcessedHeaders.rewrite_csv_headers fs p)) = false ->
  fst (fst (FixProcessedHeaders.rewrite_csv_headers
              (snd (fst (FixProcessedHeaders.rewrite_csv_headers fs q))) p)) = false.
Proof.
  intro H. destruct (String.eqb q p) eqn:E.
  - apply String.eqb_eq in E. subst q. rewrite (rewrite_false_same fs p H). exact H.
  - apply String.eqb_neq in E. rewrite <- H. apply rewrite_reads_its_file.
    apply rewrite_csv_headers_frame. congruence.
Qed.

Lemma fix_all_keeps_settled (paths : list string) :
  forall fs p,
    fst (fst (FixProcessedHeaders.rewrite_csv_headers fs p)) = false ->
    fst (fst (FixProcessedHeaders.rewrite_csv_headers
                (snd (FixProcessedHeaders.fix_all fs paths)) p)) = false.
Proof.
  induction paths as [|q paths IH]; intros fs p H; [exact H|].
  cbn [FixProcessedHeaders.fix_all].
  pose proof (rewrite_keeps_settled fs p q H) as H'.
  destruct (FixProcessedHeaders.rewrite_csv_headers fs q) as [[ok fs'] out].
  cbn [fst snd] in H'. specialize (IH fs' p H').
  destruct (FixProcessedHeaders.fix_all fs' paths) as [changed fs''].
  destruct ok; exact IH.
Qed.

Lemma fix_all_settles (paths : list string) :
  forall fs p,
    In p paths ->
    fst (fst (FixProcessedHeaders.rewrite_csv_headers
                (snd (FixProcessedHeaders.fix_all fs paths)) p)) = false.
Proof.
  induction paths as [|q paths IH]; intros fs p Hin; [destruct Hin|].
  cbn [FixProcessedHeaders.fix_all].
  pose proof (rewrite_settles fs q) as Hq.
  destruct (FixProcessedHeaders.rewrite_csv_headers fs q) as [[ok fs'] out].
  cbn [fst snd] in Hq.
  pose proof (fix_all_keeps_settled paths fs' q Hq) as Hq'.
  specialize (IH fs' p).
  destruct (FixProcessedHeaders.fix_all fs' paths) as [changed fs''].
  cbn [snd] in *. destruct Hin as [<-|Hin]; destruct ok; auto.
Qed.

Lemma fix_all_settled (paths : list string) :
  forall fs,
    (forall p, In p paths ->
               fst (fst (FixProcessedHeaders.rewrite_csv_headers fs p)) = false) ->
    FixProcessedHeaders.fix_all fs paths = (O, fs).
Proof.
  induction paths as [|q paths IH]; intros fs H; [reflexivity|].
  cbn [FixProcessedHeaders.fix_all].
  pose proof (H q (or_introl eq_refl)) as Hq.
  pose proof (rewrite_false_same fs q Hq) as Hs.
  destruct (FixProcessedHeaders.rewrite_csv_headers fs q) as [[ok fs'] out].
  cbn [fst snd] in Hq, Hs. subst ok fs'.
  rewrite IH; [reflexivity|]. intros p Hp. apply H. right. exact Hp.
Qed.

(** X15. Fixing the headers a second time changes nothing: after
    [rewrite_csv_headers] a second call on the same file returns False and
    leaves all files as they are, and after the loop of [main] a second
    loop over the same paths updates no file. *)
Theorem fixing_headers_twice_changes_nothing (fs : FS) :
  (forall path,
     let fs' := snd (fst (FixProcessedHeaders.rewrite_csv_headers fs path)) in
     fst (fst (FixProcessedHeaders.rewrite_csv_headers fs' path)) = false
     /\ snd (fst (FixProcessedHeaders.rewrite_csv_headers fs' path)) = fs')
  /\ (forall paths,
        let fs' := snd (FixProcessedHeaders.fix_all fs paths) in
        FixProcessedHeaders.fix_all fs' paths = (O, fs')).
Proof.
  split.
  - intros path fs'. pose proof (rewrite_settles fs path) as H. fold fs' in H.
    split; [exact H|apply rewrite_false_same, H].
  - intros paths fs'. apply fix_all_settled. intros p Hp. apply fix_all_settles, Hp.
Qed.

(** ** From the splitter to the sample averages *)

Lemma decode_all_valid (files : list string) :
  forall parsed, SplitUntreatedMonoculture.decode_all files = Some parsed ->
                 Forall valid_rows parsed.
Proof.
  induction files as [|f files IH]; intros parsed H; cbn in H.
  - injection H as <-. constructor.
  - destruct (Codec.decode_utf8_sig f) as [text|] eqn:Hd; [|discriminate].
    destruct (SplitUntreatedMonoculture.decode_all files) as [rest|]; [|discriminate].
    injection H as <-. constructor; [|apply IH; reflexivity].
    apply reader_valid, (decode_valid _ _ Hd).
Qed.

Lemma first_header_valid (parsed : list (list SplitUntreatedMonoculture.Row))
    (h : SplitUntreatedMonoculture.Row) :
  Forall valid_rows parsed -> first_header parsed = Some h -> valid_row h.
Proof.
  induction parsed as [|file parsed IH]; intros Hv H; [discriminate|].
  inversion Hv as [|? ? Hf Hp]; subst. destruct file as [|h0 data]; cbn in H.
  - apply IH; assumption.
  - injection H as <-. inversion Hf; assumption.
Qed.

Lemma data_rows_valid (parsed : list (list SplitUntreatedMonoculture.Row))
    (row : SplitUntreatedMonoculture.Row) :
  Forall valid_rows parsed -> In row (flat_map (@tl _) parsed) -> valid_row row.
Proof.
  intros Hv Hin. apply in_flat_map in Hin. destruct Hin as [file [Hf Hr]].
  rewrite Forall_forall in Hv. specialize (Hv _ Hf).
  destruct file as [|h data]; [destruct Hr|]. cbn in Hr.
  inversion Hv as [|? ? _ Hd]; subst. unfold valid_rows in Hd.
  rewrite Forall_forall in Hd. apply Hd, Hr.
Qed.

(** X16. compute_sample_averages.py reads every file that
    split_untreated_monoculture.py writes: the file decodes, the csv reader
    reads it as the header and the rows of the bucket, and the sample
    averages are computed from these rows. *)
Theorem sample_stats_of_split_output
    (mean stdev : list float -> float) (py_float : string -> option float)
    (fmt6 : float -> string)
    (files : list string) (parsed : list (list SplitUntreatedMonoculture.Row))
    (outs : list (SplitUntreatedMonoculture.Bucket * string))
    (k : SplitUntreatedMonoculture.Bucket) (bytes : string) :
  SplitUntreatedMonoculture.decode_all files = Some parsed ->
  SplitUntreatedMonoculture.split_csvs files = Some outs ->
  In (k, bytes) outs ->
  exists (header : SplitUntreatedMonoculture.Row) (text : string),
    fst (SplitUntreatedMonoculture.collect parsed) = Some header
    /\ Codec.decode_utf8_sig bytes = Some text
    /\ Csv.reader text
       = header :: SplitUntreatedMonoculture.sorted_rows
                     (snd (SplitUntreatedMonoculture.collect parsed)) k
    /\ ComputeSampleAverages.per_day_sample_stats mean stdev py_float fmt6 bytes
       = match header with
         | [] => Some (O, None)
         | _ =>
             let lines :=
               ComputeSampleAverages.stats mean stdev py_float
                 (SplitUntreatedMonoculture.sorted_rows
                    (snd (SplitUntreatedMonoculture.collect parsed)) k) in
             Some (List.length lines,
                   Some (Codec.encode_utf8_sig
                           (Csv.writerow ComputeSampleAverages.header_row
                            +++ Csv.writerows
                                  (map (ComputeSampleAverages.format_stat fmt6) lines))))
         end.
Proof.
  intros Hd Hs Hin. unfold SplitUntreatedMonoculture.split_csvs in Hs. rewrite Hd in Hs.
  pose proof (decode_all_valid files parsed Hd) as Hv.
  pose proof (fold_add_file_spec parsed None SplitUntreatedMonoculture.empty_buckets) as Hc.
  fold (SplitUntreatedMonoculture.collect parsed) in Hc. destruct Hc as [Hh _].
  destruct (SplitUntreatedMonoculture.collect parsed) as [[header|] buckets] eqn:Ec.
  2:{ injection Hs as <-. destruct Hin. }
  assert (Ho : outs = map (fun k0 => (k0, SplitUntreatedMonoculture.out_bytes header
                                            (SplitUntreatedMonoculture.sorted_rows buckets k0)))
                        SplitUntreatedMonoculture.outputs) by congruence.
  clear Hs. subst outs. apply in_map_iff in Hin. destruct Hin as [k' [E Hk]].
  injection E as -> <-. cbn [fst snd] in *.
  assert (Hhv : valid_row header).
  { apply (first_header_valid parsed); [exact Hv|]. symmetry. exact Hh. }
  assert (Hrv : valid_rows (SplitUntreatedMonoculture.sorted_rows buckets k)).
  { apply Forall_forall. intros row Hr.
    pose proof (sorted_rows_spec parsed k Hk) as E. rewrite Ec in E. cbn [fst snd] in E.
    rewrite E in Hr. apply sort_in, filter_In in Hr.
    apply (data_rows_valid parsed); [exact Hv|apply Hr]. }
  assert (Hdec : Codec.decode_utf8_sig
                   (SplitUntreatedMonoculture.out_bytes header
                      (SplitUntreatedMonoculture.sorted_rows buckets k))
                 = Some (Csv.writerow header
                         +++ Csv.writerows (SplitUntreatedMonoculture.sorted_rows buckets k))).
  { unfold SplitUntreatedMonoculture.out_bytes. apply decode_encode.
    rewrite valid_app by (apply valid_writerow, Hhv). apply valid_writerows, Hrv. }
  exists header. eexists. split; [reflexivity|]. split; [exact Hdec|].
  split; [apply reader_header_rows|].
  unfold ComputeSampleAverages.per_day_sample_stats. rewrite Hdec, reader_header_rows.
  destruct header; reflexivity.
Qed.

(** The theorem at one input file of two rows. *)
Lemma sample_stats_of_split_output_witness :
  exists (header : SplitUntreatedMonoculture.Row) (text : string),
    fst (SplitUntreatedMonoculture.collect [Csv.reader c3_good_file]) = Some header
    /\ Codec.decode_utf8_sig
         (SplitUntreatedMonoculture.out_bytes ["Image"; "Cells"]
            [["X_Day5_FITC_Tile-0_A1.tif"; "6"]]) = Some text
    /\ Csv.reader text
       = header :: SplitUntreatedMonoculture.sorted_rows
                     (snd (SplitUntreatedMonoculture.collect [Csv.reader c3_good_file]))
                     ("20k", "A2780Naive")
    /\ ComputeSampleAverages.per_day_sample_stats Pd.mean Pd.std
         (fun s => Some (Py.float_of_Z (Py.int s))) (fun _ => "0.000000")
         (SplitUntreatedMonoculture.out_bytes ["Image"; "Cells"]
            [["X_Day5_FITC_Tile-0_A1.tif"; "6"]])
       = match header with
         | [] => Some (O, None)
         | _ =>
             let lines :=
               ComputeSampleAverages.stats Pd.mean Pd.std
                 (fun s => Some (Py.float_of_Z (Py.int s)))
                 (SplitUntreatedMonoculture.sorted_rows
                    (snd (SplitUntreatedMonoculture.collect [Csv.reader c3_good_file]))
                    ("20k", "A2780Naive")) in
             Some (List.length lines,
                   Some (Codec.encode_utf8_sig
                           (Csv.writerow ComputeSampleAverages.header_row
                            +++ Csv.writerows
                                  (map (ComputeSampleAverages.format_stat
                                          (fun _ => "0.000000")) lines))))
         end.
Proof.
  apply (sample_stats_of_split_output Pd.mean Pd.std
           (fun s => Some (Py.float_of_Z (Py.int s))) (fun _ => "0.000000")
           [c3_good_file] [Csv.reader c3_good_file]
           (map (fun k => (k, SplitUntreatedMonoculture.out_bytes ["Image"; "Cells"]
                                (SplitUntreatedMonoculture.sorted_rows
                                   (snd (SplitUntreatedMonoculture.collect
                                           [Csv.reader c3_good_file])) k)))
                SplitUntreatedMonoculture.outputs)
           ("20k", "A2780Naive")).
  - vm_compute. reflexivity.
  - vm_compute. reflexivity.
  - left. vm_compute. reflexivity.
Defined.

(** ** The search for the project directories *)

Lemma path_eqb_eq (p q : Path.t) : Path.eqb p q = true <-> p = q.
Proof.
  revert q. induction p as [|a p IH]; intros [|b q]; cbn; try (split; congruence).
  rewrite andb_true_iff, String.eqb_eq, IH. split; [intros [-> ->]|intro H; injection H]; auto.
Qed.

Lemma ancestors_of_root (n : nat) (p : Path.t) :
  Path.parent p = p -> forall q, In q (ancestors n p) -> q = p.
Proof.
  intro H. induction n as [|n IH]; cbn [ancestors]; intros q Hq; [destruct Hq|].
  destruct Hq as [<-|Hq]; [reflexivity|]. rewrite H in Hq. apply IH, Hq.
Qed.

Lemma find_none_of_root (f : Path.t -> bool) (n : nat) (p : Path.t) :
  Path.parent p = p -> f p = false -> find f (ancestors n p) = None.
Proof.
  intros H Hf. destruct (find f (ancestors n p)) as [q|] eqn:E; [|reflexivity].
  apply find_some in E. destruct E as [Hq Hfq].
  apply (ancestors_of_root n p H) in Hq. subst q. congruence.
Qed.

Lemma find_project_root_from_spec (exists_ : Path.t -> bool) (n : nat) :
  forall current,
    SplitUntreatedMonoculture.find_project_root_from exists_ n current
    = find (fun p => exists_ (Path.joinpath p "Datasets")) (ancestors n current).
Proof.
  induction n as [|n IH]; intro current; [reflexivity|].
  cbn [SplitUntreatedMonoculture.find_project_root_from ancestors find].
  destruct (exists_ (Path.joinpath current "Datasets")) eqn:E; [reflexivity|].
  destruct (Path.eqb (Path.parent current) current) eqn:Ep; [|apply IH].
  apply path_eqb_eq in Ep. rewrite Ep. symmetry.
  apply (find_none_of_root (fun p => exists_ (Path.joinpath p "Datasets"))); assumption.
Qed.

(** X17. [find_project_root(start)] is the nearest of [start] and the four
    directories above it that has a directory Datasets, and [start] when
    none of the five has one. *)
Theorem find_project_root_is_the_nearest (exists_ : Path.t -> bool) (start : Path.t) :
  SplitUntreatedMonoculture.find_project_root exists_ start
  = match find (fun p => exists_ (Path.joinpath p "Datasets")) (ancestors 5 start) with
    | Some current => current
    | None => start
    end.
Proof.
  unfold SplitUntreatedMonoculture.find_project_root.
  rewrite find_project_root_from_spec. reflexivity.
Qed.

Lemma parent_joinpath (p : Path.t) (name : string) : Path.parent (Path.joinpath p name) = p.
Proof. apply removelast_last. Qed.

Lemma name_joinpath (p : Path.t) (name : string) : Path.name (Path.joinpath p name) = name.
Proof. apply last_last. Qed.

(** X18. The splitter never writes into the directory it reads: the file
    of a bucket is in the directory of its seeding, one level below the
    output directory, which is neither of the two directories the input
    can come from; and the four files have four different paths. *)
Theorem split_never_writes_where_it_reads
    (exists_ : Path.t -> bool) (here dataset_dir out_root : Path.t) :
  SplitUntreatedMonoculture.main_dirs exists_ here = Some (dataset_dir, out_root) ->
  (forall k, Path.parent (SplitUntreatedMonoculture.out_file out_root k) <> dataset_dir
             /\ Path.parent (Path.parent (SplitUntreatedMonoculture.out_file out_root k))
                = out_root)
  /\ NoDup (map (SplitUntreatedMonoculture.out_file out_root)
              SplitUntreatedMonoculture.outputs).
Proof.
  intro H. unfold SplitUntreatedMonoculture.main_dirs in H.
  set (root := SplitUntreatedMonoculture.find_project_root exists_ here) in H.
  assert (Hd : List.length dataset_dir = List.length out_root
               /\ out_root = Path.joinpath (Path.joinpath root "Processed_Datasets")
                               "Untreated MonoCulture").
  { destruct (exists_ _); [injection H as <- <-; auto|].
    destruct (exists_ _); [|discriminate]. injection H as <- <-.
    unfold Path.joinpath. rewrite !length_app. auto. }
  destruct Hd as [Hlen Ho]. clear H. split.
  - intro k. unfold SplitUntreatedMonoculture.out_file. rewrite !parent_joinpath.
    split; [|reflexivity]. intro E. rewrite <- E in Hlen.
    unfold Path.joinpath in Hlen. rewrite length_app in Hlen. cbn in Hlen. lia.
  - unfold SplitUntreatedMonoculture.out_file, SplitUntreatedMonoculture.outputs, Path.joinpath.
    cbn [map fst snd String.append].
    repeat constructor; cbn [In]; intro E;
      repeat match goal with
             | H : _ \/ _ |- _ => destruct H as [H|H]
             | H : False |- _ => destruct H
             | H : _ ++ _ = _ ++ _ |- _ =>
                 rewrite <- !app_assoc in H; apply app_inv_head in H; discriminate H
             end.
Qed.

(** The theorem at a script three levels below a root that holds
    Processed_Datasets/Untreated MonoCulture and Datasets. *)
Lemma split_never_writes_where_it_reads_witness :
  Path.parent (SplitUntreatedMonoculture.out_file
                 ["repo"; "Processed_Datasets"; "Untreated MonoCulture"] ("20k", "A2780cis"))
  <> ["repo"; "Processed_Datasets"; "Untreated MonoCulture"].
Proof.
  apply (proj1 (split_never_writes_where_it_reads
                  (fun p => Path.eqb p ["repo"; "Datasets"]
                            || Path.eqb p ["repo"; "Processed_Datasets";
                                           "Untreated MonoCulture"])
                  ["repo"; "Processing Files"; "Untreated MonoCulture"]
                  ["repo"; "Processed_Datasets"; "Untreated MonoCulture"]
                  ["repo"; "Processed_Datasets"; "Untreated MonoCulture"] eq_refl)
               ("20k", "A2780cis")).
Defined.

(** ** fix_processed_headers.py: [main] *)

Lemma find_base_spec (exists_ : Path.t -> bool) (n : nat) :
  forall base,
    find (fun p => exists_ (Path.joinpath p "Processed_Datasets")) (ancestors (S n) base)
    = if exists_ (Path.joinpath (FixProcessedHeaders.find_base exists_ n base)
                    "Processed_Datasets")
      then Some (FixProcessedHeaders.find_base exists_ n base)
      else None.
Proof.
  induction n as [|n IH]; intro base.
  - cbn [ancestors find FixProcessedHeaders.find_base].
    destruct (exists_ _); reflexivity.
  - change (ancestors (S (S n)) base) with (base :: ancestors (S n) (Path.parent base)).
    cbn [find FixProcessedHeaders.find_base].
    destruct (exists_ (Path.joinpath base "Processed_Datasets")) eqn:E.
    + rewrite E. reflexivity.
    + destruct (Path.eqb (Path.parent base) base) eqn:Ep; [|apply IH].
      apply path_eqb_eq in Ep. rewrite Ep, E.
      apply (find_none_of_root (fun p => exists_ (Path.joinpath p "Processed_Datasets")));
        assumption.
Qed.

(** X19. [main] looks for Processed_Datasets in the directory of the
    script and in the six directories above it.  When none of the seven
    has it, [main] returns 1 and changes no file; otherwise it returns 0
    after the loop over the CSV files of the nearest one. *)
Theorem main_fixes_the_nearest_processed_datasets
    (exists_ : Path.t -> bool) (rglob_csv : Path.t -> list string) (fs : FS)
    (root : Path.t) :
  FixProcessedHeaders.main exists_ rglob_csv fs root
  = match find (fun p => exists_ (Path.joinpath p "Processed_Datasets"))
            (ancestors 7 root) with
    | None => (1%Z, fs)
    | Some base =>
        (0%Z, snd (FixProcessedHeaders.fix_all fs
                     (rglob_csv (Path.joinpath base "Processed_Datasets"))))
    end.
Proof.
  unfold FixProcessedHeaders.main. rewrite (find_base_spec exists_ 6 root).
  destruct (exists_ _); reflexivity.
Qed.

(** ** Names of files: suffixes and replacements *)

Lemma lower_append (a b : string) : Py.lower (a +++ b) = Py.lower a +++ Py.lower b.
Proof. induction a as [|c a IH]; cbn; [reflexivity|]. rewrite IH. reflexivity. Qed.

Lemma endswith_cons (p : string) (c : ascii) (s : string) :
  Py.endswith p (String c s)
  = if (String.length (String c s) <? String.length p)%nat then false
    else if (String.length (String c s) =? String.length p)%nat then String.eqb (String c s) p
    else Py.endswith p s.
Proof. reflexivity. Qed.

Lemma endswith_append (a p : string) : Py.endswith p (a +++ p) = true.
Proof.
  induction a as [|c a IH].
  - cbn [String.append]. destruct p as [|d p]; [reflexivity|].
    rewrite endswith_cons, Nat.ltb_irrefl, Nat.eqb_refl. apply String.eqb_refl.
  - cbn [String.append]. rewrite endswith_cons.
    rewrite (proj2 (Nat.ltb_ge _ _)), (proj2 (Nat.eqb_neq _ _)); [exact IH| |];
      cbn [String.length]; rewrite length_append; lia.
Qed.

Lemma endswith_split (p s : string) :
  Py.endswith p s = true -> exists a, s = a +++ p.
Proof.
  induction s as [|c s IH].
  - destruct p; [exists EmptyString; reflexivity|discriminate].
  - rewrite endswith_cons.
    destruct (String.length (String c s) <? String.length p)%nat; [discriminate|].
    destruct (String.length (String c s) =? String.length p)%nat.
    + intro H. apply String.eqb_eq in H. exists EmptyString. exact H.
    + intro H. destruct (IH H) as [a ->]. exists (String c a). reflexivity.
Qed.

Lemma append_same_length (a1 a2 q1 q2 : string) :
  a1 +++ q1 = a2 +++ q2 -> String.length q1 = String.length q2 -> q1 = q2.
Proof.
  revert a2. induction a1 as [|c a1 IH]; intros a2 H Hl.
  - destruct a2 as [|d a2]; [exact H|].
    apply (f_equal String.length) in H. cbn [String.append String.length] in H.
    rewrite length_append in H. lia.
  - destruct a2 as [|d a2].
    + apply (f_equal String.length) in H. cbn [String.append String.length] in H.
      rewrite length_append in H. lia.
    + cbn [String.append] in H. injection H as _ H. apply (IH a2 H Hl).
Qed.

(** A text has one end of a given length. *)
Lemma endswith_one_end (p1 p2 q1 q2 s : string) :
  Py.endswith (p1 +++ q1) s = true -> Py.endswith (p2 +++ q2) s = true ->
  String.length q1 = String.length q2 -> q1 = q2.
Proof.
  intros H1 H2 Hl. destruct (endswith_split _ _ H1) as [a1 E1].
  destruct (endswith_split _ _ H2) as [a2 E2]. subst s.
  rewrite <- !append_assoc in E2. exact (append_same_length _ _ _ _ E2 Hl).
Qed.

Lemma replace_fuel_empty (fuel : nat) (old new : string) :
  Py.replace_fuel fuel old new EmptyString = EmptyString.
Proof. destruct fuel; reflexivity. Qed.

Lemma replace_absent (old new : string) (fuel : nat) :
  forall s, contains old s = false -> Py.replace_fuel fuel old new s = s.
Proof.
  induction fuel as [|fuel IH]; intros s H; [reflexivity|].
  destruct s as [|c s]; [reflexivity|].
  unfold contains in H. cbn [occurs] in H. apply orb_false_iff in H. destruct H as [H1 H2].
  cbn [Py.replace_fuel]. rewrite H1, (IH s H2). reflexivity.
Qed.

Lemma startswith_in_front (p : string) :
  forall a b, Py.startswith p (a +++ b) = true -> (String.length p <= String.length a)%nat ->
              Py.startswith p a = true.
Proof.
  induction p as [|c p IH]; intros a b H Hl; [reflexivity|].
  destruct a as [|d a]; [cbn in Hl; lia|].
  cbn [String.append Py.startswith String.length] in *.
  apply andb_true_iff in H. destruct H as [H1 H2]. rewrite H1. apply (IH a b H2). lia.
Qed.

Lemma startswith_across (a : string) :
  forall p b, Py.startswith p (a +++ b) = true -> (String.length a <= String.length p)%nat ->
              Py.startswith (Py.drop (String.length a) p) b = true.
Proof.
  induction a as [|d a IH]; intros p b H Hl; [exact H|].
  destruct p as [|c p]; [cbn in Hl; lia|].
  cbn [String.append Py.startswith String.length Py.drop] in *.
  apply andb_true_iff in H. destruct H as [_ H2]. apply (IH p b H2). lia.
Qed.

Lemma unbordered_spec (old : string) (j : nat) :
  unbordered old = true -> (0 < j < String.length old)%nat ->
  Py.startswith (Py.drop j old) old = false.
Proof.
  unfold unbordered. intros H Hj. rewrite forallb_forall in H.
  specialize (H j). apply negb_true_iff, H, in_seq. lia.
Qed.

Lemma no_occurrence_across (old x : string) :
  unbordered old = true -> x <> EmptyString ->
  Py.startswith old x = false -> Py.startswith old (x +++ old) = false.
Proof.
  intros Hu Hx Hs. destruct (Py.startswith old (x +++ old)) eqn:E; [|reflexivity].
  destruct (Nat.le_gt_cases (String.length old) (String.length x)) as [Hl|Hl].
  - rewrite (startswith_in_front old x old E Hl) in Hs. discriminate.
  - apply startswith_across in E; [|lia].
    rewrite unbordered_spec in E; [discriminate|exact Hu|].
    destruct x; [congruence|]. cbn [String.length] in *. lia.
Qed.

Lemma startswith_refl (s : string) : Py.startswith s s = true.
Proof. induction s as [|c s IH]; cbn; [reflexivity|]. rewrite Ascii.eqb_refl. exact IH. Qed.

Lemma drop_all (s : string) : Py.drop (String.length s) s = EmptyString.
Proof. induction s as [|c s IH]; [reflexivity|exact IH]. Qed.

Lemma replace_at_the_end (old new : string) :
  old <> EmptyString -> unbordered old = true ->
  forall x fuel, contains old x = false -> (String.length x < fuel)%nat ->
                 Py.replace_fuel fuel old new (x +++ old) = x +++ new.
Proof.
  intros Ho Hu. induction x as [|c x IH]; intros fuel H Hf.
  - destruct fuel as [|fuel]; [lia|]. cbn [String.append].
    destruct old as [|d old]; [congruence|]. cbn [Py.replace_fuel].
    rewrite startswith_refl, drop_all, replace_fuel_empty, append_empty_r. reflexivity.
  - destruct fuel as [|fuel]; [lia|].
    unfold contains in H. cbn [occurs] in H. apply orb_false_iff in H. destruct H as [H1 H2].
    cbn [String.append Py.replace_fuel].
    change (String c (x +++ old)) with (String c x +++ old).
    rewrite (no_occurrence_across old (String c x) Hu); [|discriminate|exact H1].
    rewrite IH; [reflexivity|exact H2|]. cbn [String.length] in Hf. lia.
Qed.

Lemma replace_suffix (old new x : string) :
  old <> EmptyString -> unbordered old = true -> contains old x = false ->
  Py.replace old new (x +++ old) = x +++ new.
Proof.
  intros Ho Hu H. unfold Py.replace. apply replace_at_the_end; try assumption.
  rewrite length_append. destruct old; [congruence|]. cbn [String.length]. lia.
Qed.

Lemma occurs_mono (p q : string -> bool) (s : string) :
  (forall t, p t = true -> occurs q t = true) -> occurs p s = true -> occurs q s = true.
Proof.
  intro H. induction s as [|c s IH]; cbn [occurs]; intro Hp.
  - rewrite orb_false_r in Hp. apply H in Hp. exact Hp.
  - apply orb_true_iff in Hp. destruct Hp as [Hp|Hp].
    + apply H in Hp. exact Hp.
    + apply orb_true_iff. right. apply IH, Hp.
Qed.

Lemma contains_longer (a b s : string) :
  contains b s = false -> contains (a +++ b) s = false.
Proof.
  intro H. destruct (contains (a +++ b) s) eqn:E; [|reflexivity].
  rewrite <- H. symmetry. unfold contains in *.
  apply (occurs_mono (Py.startswith (a +++ b))); [|exact E].
  intros t Ht. apply startswith_split in Ht. rewrite Ht, append_assoc.
  destruct (occurs (Py.startswith b) (a +++ b +++ Py.drop (String.length (a +++ b)) t)) eqn:Eo;
    [reflexivity|].
  apply occurs_suffix_false, occurs_head_false in Eo.
  rewrite startswith_append in Eo. discriminate.
Qed.

(** ** compute_sample_averages.py: the files read and the files written *)

Lemma left_out_sample_name (stem : string) :
  ComputeSampleAverages.left_out (stem +++ "_sample_averages.csv") = true.
Proof.
  unfold ComputeSampleAverages.left_out. cbv zeta. rewrite lower_append.
  change (Py.lower "_sample_averages.csv") with "_sample_averages.csv".
  rewrite endswith_append. reflexivity.
Qed.

Lemma left_out_day_name (stem : string) :
  ComputeSampleAverages.left_out (stem +++ "_day_averages.csv") = true.
Proof.
  unfold ComputeSampleAverages.left_out. cbv zeta. rewrite lower_append.
  change (Py.lower "_day_averages.csv") with "_day_averages.csv".
  rewrite endswith_append, orb_true_r. reflexivity.
Qed.

(** X20. compute_sample_averages.py never takes a file it writes as an
    input: the name of the file written for an input is one that
    [find_default_inputs] leaves out, so the path written is none of the
    default inputs, and it lies in the directory Averages beside the
    input. *)
Theorem sample_outputs_are_never_inputs
    (exists_ : Path.t -> bool) (glob_csv : Path.t -> list Path.t) (root inp : Path.t) :
  ComputeSampleAverages.left_out (Path.name (ComputeSampleAverages.out_path inp)) = true
  /\ Path.parent (ComputeSampleAverages.out_path inp)
     = Path.joinpath (Path.parent inp) "Averages"
  /\ forall p, In p (ComputeSampleAverages.find_default_inputs exists_ glob_csv root) ->
               ComputeSampleAverages.out_path inp <> p.
Proof.
  assert (H : ComputeSampleAverages.left_out
                (Path.name (ComputeSampleAverages.out_path inp)) = true).
  { unfold ComputeSampleAverages.out_path. rewrite name_joinpath. apply left_out_sample_name. }
  split; [exact H|]. split; [apply parent_joinpath|].
  intros p Hp E. rewrite E in H.
  unfold ComputeSampleAverages.find_default_inputs in Hp.
  apply in_flat_map in Hp. destruct Hp as [group [_ Hp]].
  destruct (negb (exists_ _)); [destruct Hp|].
  apply filter_In in Hp. destruct Hp as [_ Hp]. rewrite H in Hp. discriminate.
Qed.

(** ** compute_group_day_averages.py: the file written for a sample file *)

Lemma before_last_dot_csv (y : string) : Path.before_last_dot (y +++ ".csv") = Some y.
Proof.
  induction y as [|c y IH]; [reflexivity|].
  cbn [String.append Path.before_last_dot]. rewrite IH. reflexivity.
Qed.

Lemma stem_csv (p : Path.t) (y : string) :
  Path.name p = y +++ ".csv" -> y <> EmptyString -> Path.stem p = y.
Proof.
  intros Hn Hy. unfold Path.stem. rewrite Hn, before_last_dot_csv, length_append.
  destruct y as [|c y]; [congruence|]. cbn [String.length].
  replace (0 <? S (String.length y))%nat with true by (symmetry; apply Nat.ltb_lt; lia).
  replace (S (String.length y) <? S (String.length y) + 4 - 1)%nat with true
    by (symmetry; apply Nat.ltb_lt; lia).
  reflexivity.
Qed.

(** X21. For a sample file named [x_sample_averages.csv], where [x] does
    not hold [_sample_averages], the day averages are written beside it to
    [x_day_averages.csv]: a name that does not end in
    [_sample_averages.csv], so no sample file is written over, and a name
    that compute_sample_averages.py leaves out of its inputs. *)
Theorem day_file_is_beside_the_sample_file (s : Path.t) (x : string) :
  Path.name s = x +++ "_sample_averages.csv" ->
  contains "_sample_averages" x = false ->
  ComputeGroupDayAverages.out_path s
  = Path.joinpath (Path.parent s) (x +++ "_day_averages.csv")
  /\ Py.endswith "_sample_averages.csv"
       (Path.name (ComputeGroupDayAverages.out_path s)) = false
  /\ ComputeSampleAverages.left_out (Path.name (ComputeGroupDayAverages.out_path s)) = true.
Proof.
  intros Hn Hx.
  assert (E : ComputeGroupDayAverages.out_path s
              = Path.joinpath (Path.parent s) (x +++ "_day_averages.csv")).
  { unfold ComputeGroupDayAverages.out_path, Path.with_name.
    rewrite (stem_csv s (x +++ "_sample_averages")).
    - rewrite replace_suffix; [|discriminate|reflexivity|exact Hx].
      rewrite append_assoc. reflexivity.
    - rewrite Hn, append_assoc. reflexivity.
    - destruct x; discriminate. }
  split; [exact E|]. rewrite E, name_joinpath. split; [|apply left_out_day_name].
  destruct (Py.endswith "_sample_averages.csv" (x +++ "_day_averages.csv")) eqn:Ee;
    [|reflexivity].
  assert (Hq : "e_averages.csv" = "y_averages.csv"); [|discriminate Hq].
  apply (endswith_one_end "_sampl" "_da" "e_averages.csv" "y_averages.csv"
           (x +++ "_day_averages.csv")); [exact Ee| |reflexivity].
  apply (endswith_append x "_day_averages.csv").
Qed.

(** The theorem at the sample file of A2780Naive. *)
Lemma day_file_is_beside_the_sample_file_witness :
  ComputeGroupDayAverages.out_path ["20k"; "Averages"; "A2780Naive_sample_averages.csv"]
  = ["20k"; "Averages"; "A2780Naive_day_averages.csv"].
Proof.
  apply (proj1 (day_file_is_beside_the_sample_file
                  ["20k"; "Averages"; "A2780Naive_sample_averages.csv"] "A2780Naive"
                  eq_refl eq_refl)).
Defined.

(** ** create_averages.py and create_day_averages.py: the names of the files *)

(** X22. The pattern of [process_directory] asks for a name that ends in
    [sampleaverages.csv], but the output name replaces
    [_sampleaverages.csv] only: for a name that does not hold
    [_sampleaverages.csv] the output name is the name of the sample file
    itself, which the day averages are then written over. *)
Theorem day_averages_can_replace_the_sample_file (file_name : string) :
  contains "_sampleaverages.csv" file_name = false ->
  CreateDayAverages.output_name file_name = file_name.
Proof. intro H. unfold CreateDayAverages.output_name, Py.replace. apply replace_absent, H. Qed.

(** The theorem at a name that the pattern of [process_directory] takes. *)
Lemma day_averages_can_replace_the_sample_file_witness :
  Py.endswith "sampleaverages.csv" "A2780cisT-sampleaverages.csv" = true
  /\ CreateDayAverages.output_name "A2780cisT-sampleaverages.csv"
     = "A2780cisT-sampleaverages.csv".
Proof.
  split; [reflexivity|].
  apply (day_averages_can_replace_the_sample_file "A2780cisT-sampleaverages.csv").
  reflexivity.
Defined.

(** X23. The names along the two scripts: for an input [x.csv], where [x]
    does not hold [.csv], create_averages.py writes [x_sampleaverages.csv],
    a name that ends in [sampleaverages.csv] as the pattern of
    create_day_averages.py asks; create_day_averages.py writes
    [x_dayaverages.csv] for it, a name that does not end in
    [sampleaverages.csv]. *)
Theorem names_of_the_averages_files (x : string) :
  contains ".csv" x = false ->
  CreateAverages.combined_file_name (x +++ ".csv") = x +++ "_sampleaverages.csv"
  /\ Py.endswith "sampleaverages.csv" (x +++ "_sampleaverages.csv") = true
  /\ CreateDayAverages.output_name (x +++ "_sampleaverages.csv") = x +++ "_dayaverages.csv"
  /\ Py.endswith "sampleaverages.csv" (x +++ "_dayaverages.csv") = false.
Proof.
  intro H. split; [|split; [|split]].
  - unfold CreateAverages.combined_file_name, CreateAverages.file_prefix.
    rewrite replace_suffix; [|discriminate|reflexivity|exact H].
    rewrite append_empty_r. reflexivity.
  - change (x +++ "_sampleaverages.csv") with (x +++ "_" +++ "sampleaverages.csv").
    rewrite <- append_assoc. apply endswith_append.
  - unfold CreateDayAverages.output_name.
    apply replace_suffix; [discriminate|reflexivity|].
    apply (contains_longer "_sampleaverages" ".csv"), H.
  - destruct (Py.endswith "sampleaverages.csv" (x +++ "_dayaverages.csv")) eqn:Ee;
      [|reflexivity].
    assert (Hq : "eaverages.csv" = "yaverages.csv"); [|discriminate Hq].
    apply (endswith_one_end "sampl" "_da" "eaverages.csv" "yaverages.csv"
             (x +++ "_dayaverages.csv")); [exact Ee| |reflexivity].
    apply (endswith_append x "_dayaverages.csv").
Qed.

(** The theorem at the file of A2780cisT. *)
Lemma names_of_the_averages_files_witness :
  CreateAverages.combined_file_name ("A2780cisT" +++ ".csv")
  = "A2780cisT" +++ "_sampleaverages.csv"
  /\ Py.endswith "sampleaverages.csv" ("A2780cisT" +++ "_sampleaverages.csv") = true
  /\ CreateDayAverages.output_name ("A2780cisT" +++ "_sampleaverages.csv")
     = "A2780cisT" +++ "_dayaverages.csv"
  /\ Py.endswith "sampleaverages.csv" ("A2780cisT" +++ "_dayaverages.csv") = false.
Proof. apply (names_of_the_averages_files "A2780cisT"). reflexivity. Defined.

(** ** pandas group-by: the groups and the rows they stand for *)

Section GroupFacts.
Context {K : Type}.
Variable eqb : K -> K -> bool.
Hypothesis eqb_eq : forall a b, eqb a b = true <-> a = b.









(** The cells of the keys. *)
Variable embed : K -> list Pd.cell.
Hypothesis embed_eqb : forall a b, Pd.key_eqb (embed a) (embed b) = eqb a b.
Hypothesis embed_present : forall a, existsb Pd.missing (embed a) = false.






End GroupFacts.

(** ** create_averages.py: the rows of the day averages *)











(** ** create_day_averages.py: the lines of the days *)








